(** * Snake402: pay-per-play sessions and the payout cycle

    A shallow embedding of the server (Express handlers, session map,
    payout scheduler) and of its SQLite-backed [Database] class.

    Conventions.
    - JavaScript numbers that hold scores, counters and timestamps are
      integers ([Z]); a fractional score, which the handler also accepts,
      is outside the model. [Module Database] adds them exactly, which is
      what the code does while totals stay within 2^53 in magnitude;
      [Module Ieee] follows the code's double arithmetic beyond that.
    - SQLite keeps such a number as a 64-bit integer when it fits; [SUM]
      over them fails with "integer overflow" ([Database.sqlSum]), which
      aborts a payout cycle. Rows are visited in the order in which the
      model lists them.
    - Amounts of money (entry fees, pools, rewards) are exact rationals
      ([Q]), so [x * 0.70] is multiplication by 7/10; they stand for the
      doubles of the code up to the rounding of the last bits.
    - [Date.now()] is an explicit argument [now] of whoever reads the clock.
    - A table with a [wallet TEXT PRIMARY KEY] is a finite map from wallets
      to the remaining columns; the autoincrement journal [entry_fees] is a
      list in insertion order.
    - A handler runs from request to response without another request
      interleaving in it. What the code starts and does not await runs
      later, as an event of its own: the insert of an entry fee with its
      [.then] ([Server.feeInsertDone]) and the write of a journal line
      ([Server.appendDone]). [Module Scheduler] follows a payout cycle and
      [Module Overlap] a score submission from start to end, with other
      callbacks in between. *)

From stdpp Require Import gmap strings list sorting.
From Stdlib Require Import ZArith QArith Qround Qabs Lia Lqa DecimalString.

Open Scope Z_scope.

(** ** JavaScript helpers *)

(** [x || 0] on a number: zero (the only falsy integer) gives the default. *)
Definition js_or (x d : Z) : Z := if x =? 0 then d else x.

Definition js_orQ (x d : Q) : Q := if Qeq_bool x 0 then d else x.

(** [o?.f || 0] *)
Definition opt_or {A} (o : option A) (f : A -> Z) (d : Z) : Z :=
  match o with
  | Some a => js_or (f a) d
  | None => d
  end.

(** A string is falsy exactly when it is absent or empty. *)
Definition truthy (o : option string) : bool :=
  match o with
  | Some s => negb (String.eqb s "")
  | None => false
  end.

(** [Math.round]: the nearest integer, halves towards plus infinity. *)
Definition math_round (x : Q) : Z := Qfloor (x + (1 # 2)).

(** A JavaScript [Map<string, V>]: entries in insertion order; [set] on a
    present key keeps its position. *)
Module JsMap.
Section ops.
Context {V : Type}.

Fixpoint set (k : string) (v : V) (m : list (string * V)) : list (string * V) :=
  match m with
  | [] => [(k, v)]
  | (k', v') :: m' =>
      if String.eqb k k' then (k, v) :: m' else (k', v') :: set k v m'
  end.

Fixpoint get (k : string) (m : list (string * V)) : option V :=
  match m with
  | [] => None
  | (k', v') :: m' => if String.eqb k k' then Some v' else get k m'
  end.

Definition keys (m : list (string * V)) : list string := m.*1.
End ops.
End JsMap.

(** A JavaScript [Set<string>] built from an iterable: first occurrences, in order. *)
Fixpoint set_of (seen l : list string) : list string :=
  match l with
  | [] => []
  | w :: l' =>
      if existsb (String.eqb w) seen then set_of seen l'
      else w :: set_of (seen ++ [w]) l'
  end.

(** ** The database (class [Database]) *)

Module Database.

(** Columns of [player_stats] besides the key. *)
Record StatsRow := {
  total_score : Z;
  high_score : Z;
  games_played : Z;
  last_played : Z
}.

(** Columns of [daily_player_stats] besides the key. *)
Record DailyRow := {
  total_score_daily : Z;
  high_score_daily : Z;
  games_played_daily : Z;
  last_played_daily : Z
}.

Record EntryFeeRecord := {
  amount : Q;
  timestamp : Z;
  fee_wallet : option string
}.

Record PlayerStats := {
  wallet : string;
  totalScore : Z;
  highScore : Z;
  gamesPlayed : Z;
  lastPlayed : Z
}.

Record DailyPlayerStats := {
  d_wallet : string;
  totalScoreDaily : Z;
  highScoreDaily : Z;
  gamesPlayedDaily : Z;
  lastPlayedDaily : Z
}.

Record LeaderboardEntry := {
  rank : nat;
  e_wallet : string;
  score : Z;
  e_gamesPlayed : Z;
  e_lastPlayed : Z
}.

Record t := {
  player_stats : gmap string StatsRow;
  entry_fees : list EntryFeeRecord;
  daily_player_stats : gmap string DailyRow
}.

Definition empty : t :=
  {| player_stats := ∅; entry_fees := []; daily_player_stats := ∅ |}.

Inductive ScoreType := Total | High.

Definition getPlayerStats (w : string) (d : t) : option PlayerStats :=
  match player_stats d !! w with
  | Some row =>
      Some {| wallet := w;
              totalScore := total_score row;
              highScore := high_score row;
              gamesPlayed := games_played row;
              lastPlayed := last_played row |}
  | None => None
  end.

(** [INSERT OR REPLACE] of the recomputed row; returns the new stats.
    The sums are exact; [Ieee.updatePlayerStats] rounds them as doubles do. *)
Definition updatePlayerStats (now : Z) (w : string) (sc : Z) (d : t) : t * PlayerStats :=
  let currentStats := getPlayerStats w d in
  let newTotalScore := opt_or currentStats totalScore 0 + sc in
  let newHighScore := Z.max (opt_or currentStats highScore 0) sc in
  let newGamesPlayed := opt_or currentStats gamesPlayed 0 + 1 in
  ({| player_stats :=
        <[w := {| total_score := newTotalScore;
                  high_score := newHighScore;
                  games_played := newGamesPlayed;
                  last_played := now |}]> (player_stats d);
      entry_fees := entry_fees d;
      daily_player_stats := daily_player_stats d |},
   {| wallet := w;
      totalScore := newTotalScore;
      highScore := newHighScore;
      gamesPlayed := newGamesPlayed;
      lastPlayed := now |}).

Definition recordEntryFee (now : Z) (amt : Q) (w : option string) (d : t) : t :=
  {| player_stats := player_stats d;
     entry_fees := entry_fees d ++
       [{| amount := amt; timestamp := now;
           fee_wallet := if truthy w then w else None |}];
     daily_player_stats := daily_player_stats d |}.

Definition sumQ (l : list Q) : Q := foldr Qplus 0%Q l.

(** [SELECT COALESCE(SUM(amount), 0) ... WHERE timestamp >= ?] *)
Definition getTotalEntryFeesSince (cutoff : Z) (d : t) : Q :=
  js_orQ (sumQ (amount <$> filter (fun r => cutoff <= timestamp r) (entry_fees d))) 0.

Definition getDailyPlayerStats (w : string) (d : t) : option DailyPlayerStats :=
  match daily_player_stats d !! w with
  | Some row =>
      Some {| d_wallet := w;
              totalScoreDaily := total_score_daily row;
              highScoreDaily := high_score_daily row;
              gamesPlayedDaily := games_played_daily row;
              lastPlayedDaily := last_played_daily row |}
  | None => None
  end.

Definition updateDailyPlayerStats (now : Z) (w : string) (sc : Z) (d : t)
  : t * DailyPlayerStats :=
  let current := getDailyPlayerStats w d in
  let newTotal := opt_or current totalScoreDaily 0 + sc in
  let newHigh := Z.max (opt_or current highScoreDaily 0) sc in
  let newGames := opt_or current gamesPlayedDaily 0 + 1 in
  ({| player_stats := player_stats d;
      entry_fees := entry_fees d;
      daily_player_stats :=
        <[w := {| total_score_daily := newTotal;
                  high_score_daily := newHigh;
                  games_played_daily := newGames;
                  last_played_daily := now |}]> (daily_player_stats d) |},
   {| d_wallet := w;
      totalScoreDaily := newTotal;
      highScoreDaily := newHigh;
      gamesPlayedDaily := newGames;
      lastPlayedDaily := now |}).

Definition scoreColumn (ty : ScoreType) (row : DailyRow) : Z :=
  match ty with
  | Total => total_score_daily row
  | High => high_score_daily row
  end.

(** The rows a daily query selects: [WHERE scoreColumn > 0]. *)
Definition dailySelected (ty : ScoreType) (d : t) : list (string * DailyRow) :=
  filter (fun kr => 0 < scoreColumn ty kr.2) (map_to_list (daily_player_stats d)).

(** [ORDER BY scoreColumn DESC]: [a] may stand before [b]. *)
Definition score_desc (ty : ScoreType) (a b : string * DailyRow) : Prop :=
  scoreColumn ty b.2 <= scoreColumn ty a.2.

#[global] Instance score_desc_dec ty a b : Decision (score_desc ty a b).
Proof. unfold score_desc. apply _. Defined.

Definition toEntry (ty : ScoreType) (index : nat) (kr : string * DailyRow)
  : LeaderboardEntry :=
  {| rank := S index;
     e_wallet := kr.1;
     score := scoreColumn ty kr.2;
     e_gamesPlayed := games_played_daily kr.2;
     e_lastPlayed := last_played_daily kr.2 |}.

Definition dailyRanked (ty : ScoreType) (limit : nat) (d : t) : list (string * DailyRow) :=
  take limit (merge_sort (score_desc ty) (dailySelected ty d)).

Definition getDailyLeaderboard (ty : ScoreType) (limit : nat) (d : t)
  : list LeaderboardEntry :=
  imap (toEntry ty) (dailyRanked ty limit d).

Definition sumZ (l : list Z) : Z := foldr Z.add 0 l.

(** The range of a 64-bit integer. *)
Definition INT64_MAX : Z := 2 ^ 63 - 1.

Definition INT64_MIN : Z := - 2 ^ 63.

(** An INTEGER column keeps a number as a 64-bit integer when it lies
    strictly inside the range, and as a REAL otherwise. *)
Definition storedAsInteger (z : Z) : bool := (INT64_MIN <? z) && (z <=? INT64_MAX).

(** SQLite's [SUM], row by row: integers are added in 64 bits until a REAL
    comes, and in floating point from then on; an integer addition that
    overflows makes the query fail with "integer overflow" ([None]). The
    exact sum stands for the floating-point one. *)
Fixpoint sumStep (total : Z) (approx : bool) (l : list Z) : option Z :=
  match l with
  | [] => Some total
  | v :: l' =>
      if approx || negb (storedAsInteger v) then sumStep (total + v) true l'
      else if (total + v <? INT64_MIN) || (INT64_MAX <? total + v) then None
      else sumStep (total + v) false l'
  end.

Definition sqlSum (l : list Z) : option Z := sumStep 0 false l.

(** The numbers [getDailyScoresSum] adds: [WHERE col > 0]. *)
Definition dailyScores (ty : ScoreType) (d : t) : list Z :=
  (fun kr => scoreColumn ty kr.2) <$> dailySelected ty d.

(** [SELECT COALESCE(SUM(col), 0) ... WHERE col > 0], then [row.total || 0];
    [None] when the query is rejected. *)
Definition getDailyScoresSum (ty : ScoreType) (d : t) : option Z :=
  (fun total => js_or total 0) <$> sqlSum (dailyScores ty d).

(** [UPDATE daily_player_stats SET total_score_daily = 0,
    high_score_daily = 0, games_played_daily = 0] *)
Definition resetRow (row : DailyRow) : DailyRow :=
  {| total_score_daily := 0;
     high_score_daily := 0;
     games_played_daily := 0;
     last_played_daily := last_played_daily row |}.

Definition resetDailyStats (d : t) : t :=
  {| player_stats := player_stats d;
     entry_fees := entry_fees d;
     daily_player_stats := resetRow <$> daily_player_stats d |}.

End Database.

(** ** Scores as doubles

    A JavaScript number is an IEEE 754 double. The sum of two integers
    that are doubles is their exact sum rounded to 53 significant bits,
    halves to the even neighbour; up to 2^53 in magnitude nothing is
    rounded. (Numbers beyond the range of a double, about 1.8e308, are
    left out.) *)

Module Ieee.

Definition round53 (z : Z) : Z :=
  let a := Z.abs z in
  if a <=? 2 ^ 53 then z
  else
    let e := Z.log2 a - 52 in
    let q := a / 2 ^ e in
    let r := a mod 2 ^ e in
    let half := 2 ^ (e - 1) in
    let q' :=
      if r <? half then q
      else if half <? r then q + 1
      else if Z.even q then q else q + 1 in
    Z.sgn z * (q' * 2 ^ e).

(** [a + b] on numbers *)
Definition add (a b : Z) : Z := round53 (a + b).

(** [Database.updatePlayerStats] with the additions of the code. *)
Definition updatePlayerStats (now : Z) (w : string) (sc : Z) (d : Database.t)
  : Database.t * Database.PlayerStats :=
  let currentStats := Database.getPlayerStats w d in
  let newTotalScore := add (opt_or currentStats Database.totalScore 0) sc in
  let newHighScore := Z.max (opt_or currentStats Database.highScore 0) sc in
  let newGamesPlayed := add (opt_or currentStats Database.gamesPlayed 0) 1 in
  ({| Database.player_stats :=
        <[w := {| Database.total_score := newTotalScore;
                  Database.high_score := newHighScore;
                  Database.games_played := newGamesPlayed;
                  Database.last_played := now |}]> (Database.player_stats d);
      Database.entry_fees := Database.entry_fees d;
      Database.daily_player_stats := Database.daily_player_stats d |},
   {| Database.wallet := w;
      Database.totalScore := newTotalScore;
      Database.highScore := newHighScore;
      Database.gamesPlayed := newGamesPlayed;
      Database.lastPlayed := now |}).

(** [Database.updateDailyPlayerStats] with the additions of the code. *)
Definition updateDailyPlayerStats (now : Z) (w : string) (sc : Z) (d : Database.t)
  : Database.t * Database.DailyPlayerStats :=
  let current := Database.getDailyPlayerStats w d in
  let newTotal := add (opt_or current Database.totalScoreDaily 0) sc in
  let newHigh := Z.max (opt_or current Database.highScoreDaily 0) sc in
  let newGames := add (opt_or current Database.gamesPlayedDaily 0) 1 in
  ({| Database.player_stats := Database.player_stats d;
      Database.entry_fees := Database.entry_fees d;
      Database.daily_player_stats :=
        <[w := {| Database.total_score_daily := newTotal;
                  Database.high_score_daily := newHigh;
                  Database.games_played_daily := newGames;
                  Database.last_played_daily := now |}]>
          (Database.daily_player_stats d) |},
   {| Database.d_wallet := w;
      Database.totalScoreDaily := newTotal;
      Database.highScoreDaily := newHigh;
      Database.gamesPlayedDaily := newGames;
      Database.lastPlayedDaily := now |}).

(** N score submissions of one player, [(time, score)] each. *)
Definition submitAll (w : string) (subs : list (Z * Z)) (d : Database.t) : Database.t :=
  foldl (fun d' ns => (updatePlayerStats ns.1 w ns.2 d').1) d subs.

Definition submitAllDaily (w : string) (subs : list (Z * Z)) (d : Database.t)
  : Database.t :=
  foldl (fun d' ns => (updateDailyPlayerStats ns.1 w ns.2 d').1) d subs.

(** The totals after the first, the first two, ... of the scores, from [acc]. *)
Fixpoint runningTotals (acc : Z) (l : list Z) : list Z :=
  match l with
  | [] => []
  | x :: l' => (acc + x) :: runningTotals (acc + x) l'
  end.

(** Every total along the way, and the number of games, is a number that
    doubles hold exactly. *)
Definition exact (scores : list Z) : Prop :=
  Forall (fun total => Z.abs total <= 2 ^ 53) (runningTotals 0 scores)
  /\ Z.of_nat (length scores) <= 2 ^ 53.

End Ieee.

(** ** The server *)

Module Server.

Record Config := {
  SANDBOX_MODE : bool;
  ENTRY_FEE_NUM : Q;
  CDP_NETWORK : string;
  ENABLE_ONCHAIN_PAYOUTS : bool;
  PRIZE_POOL_CONTRACT : option string;
  PRIVATE_KEY : option string;
  BASE_RPC_URL : option string;
  ADMIN_TOKEN : option string
}.

Record GameSession := {
  id : string;
  isPaid : bool;
  createdAt : Z;
  paidAt : option Z;
  wallet : option string
}.

(** One JSON line of [payouts.log]. [reward] and [amount] are the numbers
    handed to [toFixed(6)]; how it rounds them for printing is left out. *)
Inductive LogEntry :=
| RewardLine (w : string) (totalScore highScore : Z) (reward : Q) (timestamp : Z)
| TreasuryLine (amount : Q) (timestamp : Z)
| EndCycleLine (txHash : string) (txLink : option string) (status : option Z) (timestamp : Z)
| EndCycleErrorLine (error : string) (timestamp : Z).

(** What the process does to the outside and what comes back, in order.
    - [AppendPayoutLog]: [appendPayoutLog] hands the line to [fs.appendFile]
      and returns without waiting.
    - [EndCycleCall]: [prizePool.endCycle(winners, rewards)] is called.
    - [Written] and [WriteFailed]: the callback of [fs.appendFile] runs; the
      line is in the file, or the error is logged and the line is lost. *)
Inductive Effect :=
| AppendPayoutLog (e : LogEntry)
| EndCycleCall (winners : list string) (rewards : list Z)
| Written (e : LogEntry)
| WriteFailed (e : LogEntry).

(** What happens in the [try] block of the settlement.
    - [SetupThrew]: [new JsonRpcProvider], [new Wallet] or [new Contract]
      throws, so [endCycle] is never called.
    - [Threw]: [endCycle] is called and it, or [tx.wait()], throws.
    - [Mined]: both return. *)
Inductive ChainResult :=
| SetupThrew (message : string)
| Threw (message : string)
| Mined (hash : string) (status : option Z).

Definition Chain := list string -> list Z -> ChainResult.

(** A [db.recordEntryFee] that has been started and has not resolved yet. *)
Record FeeInsert := {
  f_sessionId : string;
  f_amount : Q;
  f_timestamp : Z
}.

Record t := {
  sessions : gmap string GameSession;
  recordedFeeSessions : gset string;
  feeInserts : list FeeInsert;
  db : Database.t;
  lastPayoutAt : Z;
  nextPayoutAt : Z;
  lastTxHash : option string;
  lastTxLink : option string;
  pendingAppends : list LogEntry;
  effects : list Effect
}.

Definition DAY_MS : Z := 24 * 60 * 60 * 1000.

(** The state when the process starts at time [t0] on database [d]. *)
Definition init (t0 : Z) (d : Database.t) : t :=
  {| sessions := ∅;
     recordedFeeSessions := ∅;
     feeInserts := [];
     db := d;
     lastPayoutAt := t0;
     nextPayoutAt := t0 + DAY_MS;
     lastTxHash := None;
     lastTxLink := None;
     pendingAppends := [];
     effects := [] |}.

Definition is_written (e : Effect) : option LogEntry :=
  match e with
  | Written l => Some l
  | _ => None
  end.

(** The lines of [payouts.log] that were written since the process started. *)
Definition written (es : list Effect) : list LogEntry := omap is_written es.

Definition payouts_log (s : t) : list LogEntry := written (effects s).

Definition is_call (e : Effect) : bool :=
  match e with
  | EndCycleCall _ _ => true
  | _ => false
  end.

(** What had been written when [endCycle] was first called, if it was. *)
Fixpoint writtenBeforeCall (es : list Effect) : option (list LogEntry) :=
  match es with
  | [] => None
  | EndCycleCall _ _ :: _ => Some []
  | Written l :: es' => (fun ls => l :: ls) <$> writtenBeforeCall es'
  | _ :: es' => writtenBeforeCall es'
  end.

Inductive Body :=
| Error (error message : string)
| Joined (sessionId : string) (isPaidFlag : bool)
| Verified (sessionId : string) (message : string) (txHash : string)
| ScoreSubmitted (playerStats : Database.PlayerStats) (sessionExpired : bool)
| PayoutStatus (last next : Z) (txHash txLink : option string).

Record Response := { status : Z; body : Body }.

Definition with_sessions (m : gmap string GameSession) (s : t) : t :=
  {| sessions := m;
     recordedFeeSessions := recordedFeeSessions s;
     feeInserts := feeInserts s;
     db := db s;
     lastPayoutAt := lastPayoutAt s;
     nextPayoutAt := nextPayoutAt s;
     lastTxHash := lastTxHash s;
     lastTxLink := lastTxLink s;
     pendingAppends := pendingAppends s;
     effects := effects s |}.

Definition with_db (d : Database.t) (s : t) : t :=
  {| sessions := sessions s;
     recordedFeeSessions := recordedFeeSessions s;
     feeInserts := feeInserts s;
     db := d;
     lastPayoutAt := lastPayoutAt s;
     nextPayoutAt := nextPayoutAt s;
     lastTxHash := lastTxHash s;
     lastTxLink := lastTxLink s;
     pendingAppends := pendingAppends s;
     effects := effects s |}.

(** "Record entry fee off-chain once per session": unless the session id is
    remembered, [db.recordEntryFee(ENTRY_FEE_NUM)] is started (it reads the
    clock at once) and the handler goes on without waiting for it. *)
Definition recordFeeOnce (cfg : Config) (now : Z) (sessionId : string) (s : t) : t :=
  if decide (sessionId ∈ recordedFeeSessions s) then s
  else
    {| sessions := sessions s;
       recordedFeeSessions := recordedFeeSessions s;
       feeInserts := feeInserts s ++
         [{| f_sessionId := sessionId;
             f_amount := ENTRY_FEE_NUM cfg;
             f_timestamp := now |}];
       db := db s;
       lastPayoutAt := lastPayoutAt s;
       nextPayoutAt := nextPayoutAt s;
       lastTxHash := lastTxHash s;
       lastTxLink := lastTxLink s;
       pendingAppends := pendingAppends s;
       effects := effects s |}.

(** The insert number [i] in flight finishes. With [ok] the row is in the
    table and [.then] remembers the session id; otherwise [.catch] logs the
    error and nothing is remembered. *)
Definition feeInsertDone (i : nat) (ok : bool) (s : t) : t :=
  match feeInserts s !! i with
  | Some f =>
      {| sessions := sessions s;
         recordedFeeSessions :=
           if ok then {[f_sessionId f]} ∪ recordedFeeSessions s
           else recordedFeeSessions s;
         feeInserts := delete i (feeInserts s);
         db := if ok
               then Database.recordEntryFee (f_timestamp f) (f_amount f) None (db s)
               else db s;
         lastPayoutAt := lastPayoutAt s;
         nextPayoutAt := nextPayoutAt s;
         lastTxHash := lastTxHash s;
         lastTxLink := lastTxLink s;
         pendingAppends := pendingAppends s;
         effects := effects s |}
  | None => s
  end.

Definition emit (es : list Effect) (pending : list LogEntry) (s : t) : t :=
  {| sessions := sessions s;
     recordedFeeSessions := recordedFeeSessions s;
     feeInserts := feeInserts s;
     db := db s;
     lastPayoutAt := lastPayoutAt s;
     nextPayoutAt := nextPayoutAt s;
     lastTxHash := lastTxHash s;
     lastTxLink := lastTxLink s;
     pendingAppends := pending;
     effects := effects s ++ es |}.

(** [appendPayoutLog(entry)]: [fs.appendFile] is called and not awaited. *)
Definition appendPayoutLog (e : LogEntry) (s : t) : t :=
  emit [AppendPayoutLog e] (pendingAppends s ++ [e]) s.

(** The write number [i] in flight finishes: the callback of [fs.appendFile]. *)
Definition appendDone (i : nat) (ok : bool) (s : t) : t :=
  match pendingAppends s !! i with
  | Some e =>
      emit [if ok then Written e else WriteFailed e] (delete i (pendingAppends s)) s
  | None => s
  end.

(** POST /api/join, behind the payment middleware; [uuid] is [randomUUID()]. *)
Definition join (cfg : Config) (now : Z) (uuid : string) (s : t) : t * Response :=
  let session :=
    {| id := uuid; isPaid := true; createdAt := now;
       paidAt := Some now; wallet := None |} in
  let s1 := with_sessions (<[uuid := session]> (sessions s)) s in
  (recordFeeOnce cfg now uuid s1,
   {| status := 200; body := Joined uuid true |}).

Definition newSession (sessionId : string) (now : Z) : GameSession :=
  {| id := sessionId; isPaid := false; createdAt := now;
     paidAt := None; wallet := None |}.

(** [session.isPaid = true; session.paidAt = new Date()] *)
Definition markPaid (now : Z) (g : GameSession) : GameSession :=
  {| id := id g; isPaid := true; createdAt := createdAt g;
     paidAt := Some now; wallet := wallet g |}.

(** The session under [sessionId], created unpaid when there is none. *)
Definition getOrCreate (now : Z) (sessionId : string) (s : t) : GameSession :=
  match sessions s !! sessionId with
  | Some g => g
  | None => newSession sessionId now
  end.

(** POST /api/verify-payment. [txHash] is [None] when the body has none.
    In both modes a session that [sessions.get] does not find is created
    and stored before the hash is looked at. *)
Definition verify_payment (cfg : Config) (now : Z)
    (txHash : option string) (sessionId : string) (s : t) : t * Response :=
  match txHash with
  | Some h =>
      if negb (truthy txHash) then
        (s, {| status := 400;
               body := Error "Missing transaction hash"
                             "txHash is required for payment verification" |})
      else if SANDBOX_MODE cfg then
        let session := markPaid now (getOrCreate now sessionId s) in
        let s1 := with_sessions (<[sessionId := session]> (sessions s)) s in
        (recordFeeOnce cfg now sessionId s1,
         {| status := 200;
            body := Verified sessionId
                      "Payment verified successfully (SANDBOX MODE)" h |})
      else
        let session := getOrCreate now sessionId s in
        if (10 <? Z.of_nat (String.length h)) then
          let s1 :=
            with_sessions (<[sessionId := markPaid now session]> (sessions s)) s in
          (recordFeeOnce cfg now sessionId s1,
           {| status := 200;
              body := Verified sessionId "Payment verified successfully" h |})
        else
          (with_sessions (<[sessionId := session]> (sessions s)) s,
           {| status := 400;
              body := Error "Invalid transaction hash"
                            "Transaction hash appears to be invalid" |})
  | None =>
      (s, {| status := 400;
             body := Error "Missing transaction hash"
                           "txHash is required for payment verification" |})
  end.

(** The body of a score submission; [score] is [None] unless
    [typeof score === 'number']. *)
Record ScoreRequest := {
  r_sessionId : option string;
  r_wallet : option string;
  r_score : option Z
}.

Definition invalidSession : Response :=
  {| status := 403;
     body := Error "Invalid session" "Session not found or payment not verified" |}.

Definition missingFields : Response :=
  {| status := 400;
     body := Error "Missing required fields"
                   "sessionId, wallet, and score are required" |}.

(** POST /api/submit-score: one guard for a missing and for an unpaid
    session; on success both tables are updated and the session is deleted. *)
Definition submit_score (now : Z) (req : ScoreRequest) (s : t) : t * Response :=
  match r_sessionId req, r_wallet req, r_score req with
  | Some sessionId, Some w, Some sc =>
      if negb (truthy (Some sessionId)) || negb (truthy (Some w)) then
        (s, missingFields)
      else
        match sessions s !! sessionId with
        | Some session =>
            if isPaid session then
              let '(d1, updatedStats) := Database.updatePlayerStats now w sc (db s) in
              let '(d2, _) := Database.updateDailyPlayerStats now w sc d1 in
              (with_sessions (delete sessionId (sessions s)) (with_db d2 s),
               {| status := 200; body := ScoreSubmitted updatedStats true |})
            else (s, invalidSession)
        | None => (s, invalidSession)
        end
  | _, _, _ => (s, missingFields)
  end.

(** ** The payout cycle *)

(** [BigInt(Math.round(x * Math.pow(10, usdcDecimals)))] *)
Definition toUnits (x : Q) : Z := math_round (x * 1000000).

Definition buildExplorerTxLink (cfg : Config) (txHash : option string) : option string :=
  match txHash with
  | Some h =>
      if truthy txHash then
        Some ((if String.eqb (CDP_NETWORK cfg) "base"
               then "https://basescan.org/tx/"
               else "https://sepolia.basescan.org/tx/") +:+ h)
      else None
  | None => None
  end.

(** [map.get(wallet) || 0] *)
Definition getOr0 (w : string) (m : list (string * Q)) : Q :=
  match JsMap.get w m with
  | Some x => js_orQ x 0
  | None => 0%Q
  end.

(** [(entries.find(e => e.wallet === wallet)?.score) || 0] *)
Definition scoreOf (w : string) (entries : list Database.LeaderboardEntry) : Z :=
  opt_or (List.find (fun e => String.eqb (Database.e_wallet e) w) entries)
         Database.score 0.

(** The 70% pool, split in proportion to the daily totals. *)
Definition volumeRewards (poolTotal : Q) (sumTotalScores : Z)
    (totalEntries : list Database.LeaderboardEntry) : list (string * Q) :=
  if (0 <? sumTotalScores) && negb (Qle_bool poolTotal 0) then
    foldl (fun m e =>
             JsMap.set (Database.e_wallet e)
               ((inject_Z (Database.score e) / inject_Z sumTotalScores) * poolTotal)%Q m)
          [] totalEntries
  else [].

(** The 25% pool, for the top three daily high scores. *)
Definition peakRewards (poolHigh : Q)
    (highEntries : list Database.LeaderboardEntry) : list (string * Q) :=
  if negb (Qle_bool poolHigh 0) && (0 <? Z.of_nat (length highEntries)) then
    match take (Nat.min 3 (length highEntries)) highEntries with
    | [a] => JsMap.set (Database.e_wallet a) poolHigh []
    | [a; b] =>
        JsMap.set (Database.e_wallet b) (poolHigh * (30 # 100))%Q
          (JsMap.set (Database.e_wallet a) (poolHigh * (70 # 100))%Q [])
    | a :: b :: c :: _ =>
        JsMap.set (Database.e_wallet c) (poolHigh * (15 # 100))%Q
          (JsMap.set (Database.e_wallet b) (poolHigh * (25 # 100))%Q
             (JsMap.set (Database.e_wallet a) (poolHigh * (60 # 100))%Q []))
    | [] => []
    end
  else [].

(** What one cycle computes from the database before it touches anything. *)
Record Allocation := {
  poolTotal : Q;
  poolHigh : Q;
  poolTreasury : Q;
  totalEntries : list Database.LeaderboardEntry;
  highEntries : list Database.LeaderboardEntry;
  rewardTotalMap : list (string * Q);
  rewardHighMap : list (string * Q);
  wallets : list string
}.

(** The five queries and the two reward maps; [None] when a query is
    rejected, which takes the cycle to its outer [catch]. *)
Definition allocate (now : Z) (d : Database.t) : option Allocation :=
  let cutoff := now - DAY_MS in
  let totalPool := Database.getTotalEntryFeesSince cutoff d in
  let poolTotal := (totalPool * (70 # 100))%Q in
  let poolHigh := (totalPool * (25 # 100))%Q in
  let poolTreasury := (totalPool * (5 # 100))%Q in
  match Database.getDailyScoresSum Database.Total d,
        Database.getDailyScoresSum Database.High d with
  | Some sumTotalScores, Some sumHighScores =>
      let totalEntries := Database.getDailyLeaderboard Database.Total 1000 d in
      let highEntries := Database.getDailyLeaderboard Database.High 1000 d in
      let rewardTotalMap := volumeRewards poolTotal sumTotalScores totalEntries in
      let rewardHighMap := peakRewards poolHigh highEntries in
      Some {| poolTotal := poolTotal;
              poolHigh := poolHigh;
              poolTreasury := poolTreasury;
              totalEntries := totalEntries;
              highEntries := highEntries;
              rewardTotalMap := rewardTotalMap;
              rewardHighMap := rewardHighMap;
              wallets :=
                set_of [] (JsMap.keys rewardTotalMap ++ JsMap.keys rewardHighMap) |}
  | _, _ => None
  end.

Definition rewardOf (a : Allocation) (w : string) : Q :=
  (getOr0 w (rewardTotalMap a) + getOr0 w (rewardHighMap a))%Q.

Definition rewardLine (now : Z) (a : Allocation) (w : string) : LogEntry :=
  RewardLine w (scoreOf w (totalEntries a)) (scoreOf w (highEntries a))
             (rewardOf a w) now.

(** The lines of one cycle before the settlement, in the order of the calls. *)
Definition journalLines (now : Z) (a : Allocation) : list LogEntry :=
  (rewardLine now a <$> wallets a) ++ [TreasuryLine (poolTreasury a) now].

Definition onchainConfigured (cfg : Config) : bool :=
  ENABLE_ONCHAIN_PAYOUTS cfg && truthy (PRIZE_POOL_CONTRACT cfg)
  && truthy (PRIVATE_KEY cfg) && truthy (BASE_RPC_URL cfg).

(** The [try] block of the settlement, on the state [s] in which the
    journal lines have been handed over. *)
Definition settle (cfg : Config) (chain : Chain) (now : Z)
    (winnersArray : list string) (rewardsArray : list Z) (s : t) : t :=
  match chain winnersArray rewardsArray with
  | SetupThrew msg => appendPayoutLog (EndCycleErrorLine msg now) s
  | Threw msg =>
      appendPayoutLog (EndCycleErrorLine msg now)
        (emit [EndCycleCall winnersArray rewardsArray] (pendingAppends s) s)
  | Mined h st =>
      let txLink := buildExplorerTxLink cfg (Some h) in
      let s1 := appendPayoutLog (EndCycleLine h txLink st now)
                  (emit [EndCycleCall winnersArray rewardsArray] (pendingAppends s) s) in
      {| sessions := sessions s1;
         recordedFeeSessions := recordedFeeSessions s1;
         feeInserts := feeInserts s1;
         db := db s1;
         lastPayoutAt := lastPayoutAt s1;
         nextPayoutAt := nextPayoutAt s1;
         lastTxHash := Some h;
         lastTxLink := txLink;
         pendingAppends := pendingAppends s1;
         effects := effects s1 |}
  end.

(** [runPayoutCycle]; [chain] stands for what is behind the settlement.
    A rejected query leaves through the outer [catch], which only logs.
    From the first [appendPayoutLog] to the call of [endCycle] nothing is
    awaited, so no callback runs in between; the callbacks that run while
    the cycle awaits the chain or the reset are taken after the cycle, like
    the requests served meanwhile. *)
Definition runPayoutCycle (cfg : Config) (chain : Chain) (now : Z) (s : t) : t :=
  match allocate now (db s) with
  | None => s
  | Some a =>
      let winnersArray := wallets a in
      let rewardsArray := (fun w => toUnits (rewardOf a w)) <$> wallets a in
      let s1 := foldl (fun s' line => appendPayoutLog line s') s (journalLines now a) in
      let s2 :=
        if onchainConfigured cfg then settle cfg chain now winnersArray rewardsArray s1
        else s1 in
      {| sessions := sessions s2;
         recordedFeeSessions := recordedFeeSessions s2;
         feeInserts := feeInserts s2;
         db := Database.resetDailyStats (db s2);
         lastPayoutAt := now;
         nextPayoutAt := now + DAY_MS;
         lastTxHash := lastTxHash s2;
         lastTxLink := lastTxLink s2;
         pendingAppends := pendingAppends s2;
         effects := effects s2 |}
  end.

(** [requireAdmin]; [token] is [bearer || header || '']. *)
Definition requireAdmin (cfg : Config) (token : string) : option Response :=
  match ADMIN_TOKEN cfg with
  | Some adm =>
      if negb (truthy (ADMIN_TOKEN cfg)) then
        Some {| status := 503;
                body := Error "Admin disabled (missing ADMIN_TOKEN)" "" |}
      else if String.eqb token adm then None
      else Some {| status := 401; body := Error "Unauthorized" "" |}
  | None =>
      Some {| status := 503;
              body := Error "Admin disabled (missing ADMIN_TOKEN)" "" |}
  end.

(** POST /admin/run-payout when no other cycle is in flight. *)
Definition admin_run_payout (cfg : Config) (chain : Chain) (now : Z)
    (token : string) (s : t) : t * Response :=
  match requireAdmin cfg token with
  | Some r => (s, r)
  | None =>
      let s' := runPayoutCycle cfg chain now s in
      (s', {| status := 200;
              body := PayoutStatus (lastPayoutAt s') (nextPayoutAt s')
                                   (lastTxHash s') (lastTxLink s') |})
  end.

(** What can reach the server. *)
Inductive Request :=
| Join (uuid : string)
| VerifyPayment (txHash : option string) (sessionId : string)
| SubmitScore (req : ScoreRequest)
| AdminRunPayout (token : string) (chain : Chain)
| TimerTick (chain : Chain).

Definition handle (cfg : Config) (now : Z) (r : Request) (s : t) : t * option Response :=
  match r with
  | Join uuid => let '(s', a) := join cfg now uuid s in (s', Some a)
  | VerifyPayment txHash sessionId =>
      let '(s', a) := verify_payment cfg now txHash sessionId s in (s', Some a)
  | SubmitScore req => let '(s', a) := submit_score now req s in (s', Some a)
  | AdminRunPayout token chain =>
      let '(s', a) := admin_run_payout cfg chain now token s in (s', Some a)
  | TimerTick chain => (runPayoutCycle cfg chain now s, None)
  end.

(** Requests served one after the other, each at its own time. *)
Fixpoint run (cfg : Config) (tr : list (Z * Request)) (s : t) : t * list (option Response) :=
  match tr with
  | [] => (s, [])
  | (now, r) :: tr' =>
      let '(s1, a) := handle cfg now r s in
      let '(s2, rest) := run cfg tr' s1 in
      (s2, a :: rest)
  end.




(** A request that names a session, a wallet and a numeric score. *)
Definition wellFormed (req : ScoreRequest) : Prop :=
  truthy (r_sessionId req) = true /\ truthy (r_wallet req) = true
  /\ is_Some (r_score req).

(** N score submissions of one player, straight on the database. *)
Definition submitAll (w : string) (subs : list (Z * Z)) (d : Database.t) : Database.t :=
  foldl (fun d' ns => (Database.updatePlayerStats ns.1 w ns.2 d').1) d subs.

End Server.

(** The largest element of a list, if it has one. *)
Definition maximum (l : list Z) : option Z :=
  match l with
  | [] => None
  | x :: l' => Some (foldr Z.max x l')
  end.

(** ** Score submissions that overlap

    POST /api/submit-score looks the session up, then awaits the two
    updates of the database, and only then deletes the session; other
    requests are served during the awaits. [check] is the handler up to its
    first [await], [finish] what it does after the last one; the two updates
    are taken as one step. *)

Module Overlap.



End Overlap.

(** ** Starting and ending payout cycles

    [runPayoutCycle] awaits the database and the chain, so other callbacks
    run between its start and its end. This module keeps only what decides
    whether two cycles overlap: the flag [isPayoutRunning] and the cycles
    started and not yet ended. *)

Module Scheduler.

Inductive Trigger := Timer | Admin.

Record t := {
  isPayoutRunning : bool;
  inProgress : list Trigger
}.

Definition idle : t := {| isPayoutRunning := false; inProgress := [] |}.

Inductive Event :=
| TimerFires
| AdminRequest
| CycleEnds (by_ : Trigger).

Inductive Outcome := Started | Rejected409 | Ended | NoSuchCycle.

Definition trigger_eqb (a b : Trigger) : bool :=
  match a, b with
  | Timer, Timer | Admin, Admin => true
  | _, _ => false
  end.

Fixpoint remove_one (x : Trigger) (l : list Trigger) : option (list Trigger) :=
  match l with
  | [] => None
  | y :: l' =>
      if trigger_eqb x y then Some l'
      else match remove_one x l' with
           | Some r => Some (y :: r)
           | None => None
           end
  end.

(** - [TimerFires]: the [setInterval] callback is [runPayoutCycle] itself.
    - [AdminRequest]: the handler tests the flag, sets it and awaits the cycle.
    - [CycleEnds Admin]: the handler resumes and clears the flag. *)
Definition step (e : Event) (s : t) : t * Outcome :=
  match e with
  | TimerFires =>
      ({| isPayoutRunning := isPayoutRunning s;
          inProgress := Timer :: inProgress s |}, Started)
  | AdminRequest =>
      if isPayoutRunning s then (s, Rejected409)
      else ({| isPayoutRunning := true;
               inProgress := Admin :: inProgress s |}, Started)
  | CycleEnds Timer =>
      match remove_one Timer (inProgress s) with
      | Some l => ({| isPayoutRunning := isPayoutRunning s; inProgress := l |}, Ended)
      | None => (s, NoSuchCycle)
      end
  | CycleEnds Admin =>
      match remove_one Admin (inProgress s) with
      | Some l => ({| isPayoutRunning := false; inProgress := l |}, Ended)
      | None => (s, NoSuchCycle)
      end
  end.

Fixpoint run (es : list Event) (s : t) : t * list Outcome :=
  match es with
  | [] => (s, [])
  | e :: es' =>
      let '(s1, o) := step e s in
      let '(s2, os) := run es' s1 in
      (s2, o :: os)
  end.

(** Two cycles are running at once. *)
Definition overlapping (s : t) : Prop := (2 <= length (inProgress s))%nat.

(** How many cycles started by [x] are running. *)
Fixpoint running (x : Trigger) (l : list Trigger) : nat :=
  match l with
  | [] => 0
  | y :: l' => (if trigger_eqb x y then 1 else 0) + running x l'
  end.

(** The flag is set exactly while an admin cycle runs, and there is at most one. *)
Definition flag_tracks_admin (s : t) : Prop :=
  running Admin (inProgress s) = (if isPayoutRunning s then 1 else 0)%nat.

End Scheduler.

(** ** Sample data *)

Module Sample.

Definition sampleDaily : Database.t :=
  {| Database.player_stats := ∅;
     Database.entry_fees := [];
     Database.daily_player_stats :=
       {[ "0xA1" := {| Database.total_score_daily := 10;
                       Database.high_score_daily := 7;
                       Database.games_played_daily := 2;
                       Database.last_played_daily := 1700 |} ]} |}.

Definition production : Server.Config :=
  {| Server.SANDBOX_MODE := false;
     Server.ENTRY_FEE_NUM := 1 # 1000;
     Server.CDP_NETWORK := "base-sepolia";
     Server.ENABLE_ONCHAIN_PAYOUTS := true;
     Server.PRIZE_POOL_CONTRACT :=
       Some "0x1111111111111111111111111111111111111111";
     Server.PRIVATE_KEY :=
       Some "0x0101010101010101010101010101010101010101010101010101010101010101";
     Server.BASE_RPC_URL := Some "https://sepolia.base.org";
     Server.ADMIN_TOKEN := Some "secret" |}.

Definition fresh : Server.t := Server.init 0 Database.empty.

Definition goodTx : string := "0x1234567890abcdef".

Definition shortTx : string := "0x12".

Definition scoreReq (sid w : string) (sc : Z) : Server.ScoreRequest :=
  {| Server.r_sessionId := Some sid;
     Server.r_wallet := Some w;
     Server.r_score := Some sc |}.


(** The scenario of three entry fees of 1 and two players. *)
Definition cycleDb : Database.t :=
  {| Database.player_stats := ∅;
     Database.entry_fees :=
       [ {| Database.amount := 1; Database.timestamp := 86400100;
            Database.fee_wallet := None |};
         {| Database.amount := 1; Database.timestamp := 86400200;
            Database.fee_wallet := None |};
         {| Database.amount := 1; Database.timestamp := 86400300;
            Database.fee_wallet := None |} ];
     Database.daily_player_stats :=
       <["0xA1" := {| Database.total_score_daily := 10;
                      Database.high_score_daily := 10;
                      Database.games_played_daily := 1;
                      Database.last_played_daily := 86400400 |}]>
       (<["0xB2" := {| Database.total_score_daily := 20;
                       Database.high_score_daily := 20;
                       Database.games_played_daily := 1;
                       Database.last_played_daily := 86400500 |}]> ∅) |}.

Definition cycleServer : Server.t := Server.with_db cycleDb (Server.init 0 Database.empty).

Definition revertingChain : Server.Chain := fun _ _ => Server.Threw "execution reverted".

Definition minedChain : Server.Chain := fun _ _ => Server.Mined "0xabc" (Some 1).

Definition badKeyChain : Server.Chain :=
  fun _ _ => Server.SetupThrew "invalid private key".

(** One entry fee and two players whose daily scores are 2^62 each. *)
Definition overflowDb : Database.t :=
  {| Database.player_stats := ∅;
     Database.entry_fees :=
       [ {| Database.amount := 1; Database.timestamp := 86400100;
            Database.fee_wallet := None |} ];
     Database.daily_player_stats :=
       <["0xA1" := {| Database.total_score_daily := 2 ^ 62;
                      Database.high_score_daily := 2 ^ 62;
                      Database.games_played_daily := 1;
                      Database.last_played_daily := 86400400 |}]>
       (<["0xB2" := {| Database.total_score_daily := 2 ^ 62;
                       Database.high_score_daily := 2 ^ 62;
                       Database.games_played_daily := 1;
                       Database.last_played_daily := 86400500 |}]> ∅) |}.

Definition overflowServer : Server.t :=
  Server.with_db overflowDb (Server.init 0 Database.empty).




End Sample.

(** ** The lifetime leaderboard and the player count *)

Module Lifetime.

Definition scoreColumn (ty : Database.ScoreType) (row : Database.StatsRow) : Z :=
  match ty with
  | Database.Total => Database.total_score row
  | Database.High => Database.high_score row
  end.

(** [WHERE scoreColumn > 0] on [player_stats]. *)
Definition selected (ty : Database.ScoreType) (d : Database.t)
  : list (string * Database.StatsRow) :=
  filter (fun kr => 0 < scoreColumn ty kr.2) (map_to_list (Database.player_stats d)).

Definition score_desc (ty : Database.ScoreType) (a b : string * Database.StatsRow) : Prop :=
  scoreColumn ty b.2 <= scoreColumn ty a.2.

#[global] Instance score_desc_dec ty a b : Decision (score_desc ty a b).
Proof. unfold score_desc. apply _. Defined.

Definition toEntry (ty : Database.ScoreType) (index : nat)
    (kr : string * Database.StatsRow) : Database.LeaderboardEntry :=
  {| Database.rank := S index;
     Database.e_wallet := kr.1;
     Database.score := scoreColumn ty kr.2;
     Database.e_gamesPlayed := Database.games_played kr.2;
     Database.e_lastPlayed := Database.last_played kr.2 |}.

Definition ranked (ty : Database.ScoreType) (limit : nat) (d : Database.t)
  : list (string * Database.StatsRow) :=
  take limit (merge_sort (score_desc ty) (selected ty d)).

(** [getLeaderboard(type, limit)] *)
Definition getLeaderboard (ty : Database.ScoreType) (limit : nat) (d : Database.t)
  : list Database.LeaderboardEntry :=
  imap (toEntry ty) (ranked ty limit d).

(** [SELECT COUNT( * ) FROM player_stats WHERE games_played > 0] *)
Definition getTotalPlayers (d : Database.t) : nat :=
  size (filter (fun kr : string * Database.StatsRow => 0 < Database.games_played kr.2)
               (Database.player_stats d)).

End Lifetime.

(** ** Removing players *)

Module Removal.

(** [DELETE] from both tables. *)
Definition removePlayer (w : string) (d : Database.t) : Database.t :=
  {| Database.player_stats := delete w (Database.player_stats d);
     Database.entry_fees := Database.entry_fees d;
     Database.daily_player_stats := delete w (Database.daily_player_stats d) |}.

(** One wallet after the other; every wallet asked for is reported. *)
Definition removePlayers (ws : list string) (d : Database.t) : Database.t * list string :=
  foldl (fun acc w => (removePlayer w acc.1, acc.2 ++ [w])) (d, []) ws.

(** [SELECT wallet ... WHERE total_score > 0 ORDER BY total_score DESC LIMIT ?],
    then [removePlayers]. *)
Definition removeTopPlayers (limit : nat) (d : Database.t) : Database.t * list string :=
  removePlayers (Lifetime.ranked Database.Total limit d).*1 d.

End Removal.

(** ** The remaining endpoints *)

Module Endpoints.

Inductive Reply :=
| SessionInfo (sessionId : string) (isPaid : bool) (createdAt : Z) (paidAt : option Z)
| ErrorReply (error message : string)
| StatsReply (stats : Database.PlayerStats)
| DailyReply (stats : Database.DailyPlayerStats)
| BoardReply (entries : list Database.LeaderboardEntry) (totalPlayers : option nat)
| RemovedReply (removed : list string) (count : nat)
| StatusReply (last next : Z) (txHash txLink : option string).

Record Answer := { code : Z; reply : Reply }.

(** GET /api/session/:sessionId *)
Definition get_session (sessionId : string) (s : Server.t) : Answer :=
  match Server.sessions s !! sessionId with
  | Some session =>
      {| code := 200;
         reply := SessionInfo (Server.id session) (Server.isPaid session)
                              (Server.createdAt session) (Server.paidAt session) |}
  | None => {| code := 404; reply := ErrorReply "Session not found" "" |}
  end.

(** GET /player/:wallet *)
Definition get_player (w : string) (s : Server.t) : Answer :=
  match Database.getPlayerStats w (Server.db s) with
  | Some stats => {| code := 200; reply := StatsReply stats |}
  | None =>
      {| code := 404;
         reply := ErrorReply "Player not found"
                             "No stats found for this wallet address" |}
  end.

(** GET /player/daily/:wallet: zeros when there is no daily row. *)
Definition get_player_daily (w : string) (s : Server.t) : Answer :=
  match Database.getDailyPlayerStats w (Server.db s) with
  | Some stats => {| code := 200; reply := DailyReply stats |}
  | None =>
      {| code := 200;
         reply := DailyReply {| Database.d_wallet := w;
                                Database.totalScoreDaily := 0;
                                Database.highScoreDaily := 0;
                                Database.gamesPlayedDaily := 0;
                                Database.lastPlayedDaily := 0 |} |}
  end.

(** GET /payouts/status (without the ISO renderings of the two times). *)
Definition get_payouts_status (s : Server.t) : Answer :=
  {| code := 200;
     reply := StatusReply (Server.lastPayoutAt s) (Server.nextPayoutAt s)
                          (Server.lastTxHash s) (Server.lastTxLink s) |}.

(** [parseInt(req.query.limit) || 10]; [parsed] is the number that
    [parseInt] returns, [None] for [NaN]. *)
Definition limitParam (parsed : option Z) : Z :=
  match parsed with
  | Some p => js_or p 10
  | None => 10
  end.

(** SQLite's [LIMIT ?] bound to the number [n], on a result of [len] rows.
    The number has to convert to a 64-bit integer, or the query fails with
    "datatype mismatch" ([None]); a negative [n] is no limit. *)
Definition sqlLimit (n : Z) (len : nat) : option nat :=
  if (- 2 ^ 63 <? n) && (n <? 2 ^ 63) then
    Some (if n <? 0 then len else Z.to_nat n)
  else None.

(** GET /leaderboard/total and /leaderboard/high (the entries and the
    player count; [lastUpdated] and [type] are left out). A rejected query
    is answered from the [catch]. *)
Definition get_leaderboard (ty : Database.ScoreType) (parsed : option Z)
    (s : Server.t) : Answer :=
  let limit := limitParam parsed in
  let d := Server.db s in
  match sqlLimit limit (length (Lifetime.selected ty d)) with
  | Some rows =>
      {| code := 200;
         reply := BoardReply (Lifetime.getLeaderboard ty rows d)
                             (Some (Lifetime.getTotalPlayers d)) |}
  | None => {| code := 500; reply := ErrorReply "Failed to fetch leaderboard" "" |}
  end.

(** GET /leaderboard/daily/total and /leaderboard/daily/high *)
Definition get_daily_leaderboard (ty : Database.ScoreType) (parsed : option Z)
    (s : Server.t) : Answer :=
  let limit := limitParam parsed in
  let d := Server.db s in
  match sqlLimit limit (length (Database.dailySelected ty d)) with
  | Some rows =>
      {| code := 200;
         reply := BoardReply (Database.getDailyLeaderboard ty rows d) None |}
  | None =>
      {| code := 500; reply := ErrorReply "Failed to fetch daily leaderboard" "" |}
  end.

Definition denied (r : Server.Response) : Answer :=
  {| code := Server.status r;
     reply := match Server.body r with
              | Server.Error e m => ErrorReply e m
              | _ => ErrorReply "" ""
              end |}.

(** POST /admin/remove-players; [wallets] is [None] unless the body holds
    an array under that name. *)
Definition admin_remove_players (cfg : Server.Config) (token : string)
    (wallets : option (list string)) (s : Server.t) : Server.t * Answer :=
  match Server.requireAdmin cfg token with
  | Some r => (s, denied r)
  | None =>
      let ws := default [] wallets in
      if (length ws =? 0)%nat then
        (s, {| code := 400; reply := ErrorReply "wallets array required" "" |})
      else
        let '(d', removed) := Removal.removePlayers ws (Server.db s) in
        (Server.with_db d' s,
         {| code := 200; reply := RemovedReply removed (length removed) |})
  end.

(** [Math.max(1, parseInt(String(nRaw)) || 4)]; [parsed] is the number that
    [parseInt] returns, [None] for [NaN]. *)
Definition topCount (parsed : option Z) : Z :=
  Z.max 1 (match parsed with
           | Some p => js_or p 4
           | None => 4
           end).

(** POST /admin/remove-top; when the query of [removeTopPlayers] is
    rejected nothing is removed and the [catch] answers. *)
Definition admin_remove_top (cfg : Server.Config) (token : string)
    (parsed : option Z) (s : Server.t) : Server.t * Answer :=
  match Server.requireAdmin cfg token with
  | Some r => (s, denied r)
  | None =>
      let d := Server.db s in
      match sqlLimit (topCount parsed) (length (Lifetime.selected Database.Total d)) with
      | Some rows =>
          let '(d', removed) := Removal.removeTopPlayers rows d in
          (Server.with_db d' s,
           {| code := 200; reply := RemovedReply removed (length removed) |})
      | None =>
          (s, {| code := 500; reply := ErrorReply "Failed to remove top players" "" |})
      end
  end.

(** Everything that can change the state: the requests, and the callbacks
    of what a handler started without awaiting it. *)
Inductive Request :=
| Base (r : Server.Request)
| RemovePlayers (token : string) (wallets : option (list string))
| RemoveTop (token : string) (parsed : option Z)
| FeeInsertDone (i : nat) (ok : bool)
| AppendDone (i : nat) (ok : bool).

Definition step (cfg : Server.Config) (now : Z) (r : Request) (s : Server.t) : Server.t :=
  match r with
  | Base r' => (Server.handle cfg now r' s).1
  | RemovePlayers token wallets => (admin_remove_players cfg token wallets s).1
  | RemoveTop token parsed => (admin_remove_top cfg token parsed s).1
  | FeeInsertDone i ok => Server.feeInsertDone i ok s
  | AppendDone i ok => Server.appendDone i ok s
  end.

Definition run (cfg : Server.Config) (tr : list (Z * Request)) (s : Server.t) : Server.t :=
  foldl (fun s' nr => step cfg nr.1 nr.2 s') s tr.

End Endpoints.

(** ** Payout event subscribers *)

Module Sse.

(** A subscriber: its id and what has been written to its response. *)
Definition Client : Type := string * list string.

(** GET /events/payouts: the new subscriber goes last; [id] is [randomUUID()]. *)
Definition subscribe (id : string) (clients : list Client) : list Client :=
  clients ++ [(id, [])].

(** [findIndex(c => c.id === id)] then [splice(idx, 1)]. *)
Fixpoint close (id : string) (clients : list Client) : list Client :=
  match clients with
  | [] => []
  | c :: cs => if String.eqb c.1 id then cs else c :: close id cs
  end.

(** [broadcastPayout]: the line is written to every subscriber. *)
Definition broadcastPayout (line : string) (clients : list Client) : list Client :=
  (fun c : Client => (c.1, c.2 ++ [line])) <$> clients.

End Sse.

(** ** The countdown shown by the client *)

Module Client.

(** [String(n).padStart(2, '0')] *)
Definition pad (n : Z) : string :=
  let str := NilZero.string_of_int (Z.to_int n) in
  if (String.length str <? 2)%nat then "0" +:+ str else str.

(** Hours, minutes and seconds of [formatCountdown] before padding. *)
Definition countdownParts (ms : Z) : Z * Z * Z :=
  let totalSeconds := ms / 1000 in
  (totalSeconds / 3600, (totalSeconds mod 3600) / 60, totalSeconds mod 60).

Definition formatCountdown (ms : Z) : string :=
  if ms <=? 0 then "00:00:00"
  else
    let '(hours, minutes, seconds) := countdownParts ms in
    pad hours +:+ ":" +:+ pad minutes +:+ ":" +:+ pad seconds.

End Client.

(** N score submissions of one player, on the daily table only. *)
Definition submitAllDaily (w : string) (subs : list (Z * Z)) (d : Database.t) : Database.t :=
  foldl (fun d' ns => (Database.updateDailyPlayerStats ns.1 w ns.2 d').1) d subs.

(** ** More sample data *)

Module Sample2.

(** Three players: 0xB2 played twice, 0xC3 once with score 0. *)
Definition boardDb : Database.t :=
  Server.submitAll "0xA1" [(1, 10)]
    (Server.submitAll "0xB2" [(2, 20); (3, 5)]
       (Server.submitAll "0xC3" [(4, 0)] Database.empty)).

(** Two payment verifications for one session, served before the insert of
    the first has resolved; then both inserts resolve. *)
Definition payTwiceQuickly : list (Z * Endpoints.Request) :=
  [ (100, Endpoints.Base (Server.VerifyPayment (Some Sample.goodTx) "session_1"));
    (150, Endpoints.Base (Server.VerifyPayment (Some Sample.goodTx) "session_1"));
    (160, Endpoints.FeeInsertDone 0 true);
    (170, Endpoints.FeeInsertDone 0 true) ].

End Sample2.


(** The ways one request or callback can change the state. *)
Inductive Moves (cfg : Server.Config) (now : Z) (s : Server.t) : Server.t -> Prop :=
| MStay : Moves cfg now s s
| MSessions (m : gmap string Server.GameSession) :
    Moves cfg now s (Server.with_sessions m s)
| MPaid (m : gmap string Server.GameSession) (sid : string) :
    Moves cfg now s (Server.recordFeeOnce cfg now sid (Server.with_sessions m s))
| MScore (m : gmap string Server.GameSession) (w : string) (sc : Z) :
    Moves cfg now s
      (Server.with_sessions m
         (Server.with_db
            (Database.updateDailyPlayerStats now w sc
               (Database.updatePlayerStats now w sc (Server.db s)).1).1 s))
| MCycle (chain : Server.Chain) :
    Moves cfg now s (Server.runPayoutCycle cfg chain now s)
| MRemove (ws : list string) :
    Moves cfg now s (Server.with_db (Removal.removePlayers ws (Server.db s)).1 s)
| MFeeDone (i : nat) (ok : bool) :
    Moves cfg now s (Server.feeInsertDone i ok s)
| MAppendDone (i : nat) (ok : bool) :
    Moves cfg now s (Server.appendDone i ok s).

(** The request carries the session id [sid]. *)
Definition names (sid : string) (r : Server.Request) : bool :=
  match r with
  | Server.Join uuid => String.eqb uuid sid
  | Server.VerifyPayment _ sessionId => String.eqb sessionId sid
  | Server.SubmitScore req =>
      match Server.r_sessionId req with
      | Some x => String.eqb x sid
      | None => false
      end
  | Server.AdminRunPayout _ _ | Server.TimerTick _ => false
  end.

(** The request is a score submission for the session [sid]. *)
Definition submits (sid : string) (r : Server.Request) : bool :=
  match r with
  | Server.SubmitScore req =>
      match Server.r_sessionId req with
      | Some x => String.eqb x sid
      | None => false
      end
  | _ => false
  end.

(** * Properties *)

(** ** Small facts about the helpers *)

Lemma js_or_0 (x : Z) : js_or x 0 = x.
Proof. unfold js_or. destruct (Z.eqb_spec x 0); lia. Qed.

Lemma opt_or_Some {A} (a : A) (f : A -> Z) : opt_or (Some a) f 0 = f a.
Proof. apply js_or_0. Qed.

Lemma truthy_Some (s : string) : truthy (Some s) = true <-> s <> "".
Proof.
  cbn. destruct (String.eqb_spec s ""); cbn; split; congruence.
Qed.

(** ** Lifetime statistics *)

Section lifetime.
Import Database.

Lemma getPlayerStats_update now w sc d :
  getPlayerStats w (updatePlayerStats now w sc d).1
  = Some (updatePlayerStats now w sc d).2.
Proof. unfold getPlayerStats, updatePlayerStats. cbn. by rewrite lookup_insert_eq. Qed.

Lemma maximum_cons (x : Z) (l : list Z) :
  maximum (x :: l) = Some (match maximum l with Some m => Z.max x m | None => x end).
Proof.
  destruct l as [|y l]; [done|]. cbn. f_equal.
  revert x y. induction l as [|z l IH]; intros x y; cbn; [lia|].
  pose proof (IH x z). pose proof (IH y z). lia.
Qed.

(** Starting from any row (or none), the submissions add up. *)
Lemma submitAll_from (w : string) (subs : list (Z * Z)) (d : t) :
  subs <> [] ->
  exists st,
    getPlayerStats w (Server.submitAll w subs d) = Some st
    /\ totalScore st = opt_or (getPlayerStats w d) totalScore 0 + sumZ subs.*2
    /\ (forall m, maximum subs.*2 = Some m ->
        highScore st = Z.max (opt_or (getPlayerStats w d) highScore 0) m)
    /\ gamesPlayed st
       = opt_or (getPlayerStats w d) gamesPlayed 0 + Z.of_nat (length subs).
Proof.
  revert d. induction subs as [|[now sc] subs IH]; intros d Hne; [done|].
  destruct subs as [|ns subs].
  - eexists. cbn -[updatePlayerStats]. split; [apply getPlayerStats_update|].
    cbn. repeat split; try lia. intros m [= <-]. done.
  - destruct (IH (updatePlayerStats now w sc d).1) as (st & Hst & Ht & Hh & Hg); [done|].
    exists st. split; [exact Hst|].
    rewrite getPlayerStats_update, !opt_or_Some in Ht, Hh, Hg.
    cbn [updatePlayerStats snd totalScore highScore gamesPlayed] in Ht, Hh, Hg.
    repeat split.
    + rewrite Ht. cbn. lia.
    + intros m Hm. rewrite fmap_cons, maximum_cons in Hm.
      destruct (maximum (ns :: subs).*2) as [m'|] eqn:Hm'; [|done].
      injection Hm as <-. rewrite (Hh m' eq_refl). cbn [snd]. lia.
    + rewrite Hg. cbn [length]. lia.
Qed.

End lifetime.

Lemma maximum_ub (l : list Z) (m s : Z) :
  maximum l = Some m -> s ∈ l -> s <= m.
Proof.
  revert m. induction l as [|x l IH]; intros m Hm Hs; [done|].
  rewrite maximum_cons in Hm. injection Hm as <-.
  apply elem_of_cons in Hs as [->|Hs].
  - destruct (maximum l); lia.
  - destruct (maximum l) as [m'|] eqn:E.
    + specialize (IH m' eq_refl Hs). lia.
    + destruct l; [by apply elem_of_nil in Hs | done].
Qed.

(** *** Where doubles add exactly *)

Lemma round53_exact (z : Z) : Z.abs z <= 2 ^ 53 -> Ieee.round53 z = z.
Proof.
  intros H. unfold Ieee.round53. cbv zeta.
  destruct (Z.leb_spec (Z.abs z) (2 ^ 53)); [done | lia].
Qed.

Lemma updatePlayerStats_exact now w sc d :
  Z.abs (opt_or (Database.getPlayerStats w d) Database.totalScore 0 + sc) <= 2 ^ 53 ->
  Z.abs (opt_or (Database.getPlayerStats w d) Database.gamesPlayed 0 + 1) <= 2 ^ 53 ->
  Ieee.updatePlayerStats now w sc d = Database.updatePlayerStats now w sc d.
Proof.
  intros Ht Hg. unfold Ieee.updatePlayerStats, Database.updatePlayerStats, Ieee.add.
  cbv zeta. by rewrite !round53_exact.
Qed.

Lemma updateDailyPlayerStats_exact now w sc d :
  Z.abs (opt_or (Database.getDailyPlayerStats w d) Database.totalScoreDaily 0 + sc)
    <= 2 ^ 53 ->
  Z.abs (opt_or (Database.getDailyPlayerStats w d) Database.gamesPlayedDaily 0 + 1)
    <= 2 ^ 53 ->
  Ieee.updateDailyPlayerStats now w sc d = Database.updateDailyPlayerStats now w sc d.
Proof.
  intros Ht Hg.
  unfold Ieee.updateDailyPlayerStats, Database.updateDailyPlayerStats, Ieee.add.
  cbv zeta. by rewrite !round53_exact.
Qed.

(** While every running total and the game count stay within 2^53, the
    submissions computed with doubles are the exact ones. *)
Lemma submitAll_exact (w : string) (subs : list (Z * Z)) (d : Database.t) :
  let t0 := opt_or (Database.getPlayerStats w d) Database.totalScore 0 in
  let g0 := opt_or (Database.getPlayerStats w d) Database.gamesPlayed 0 in
  Forall (fun total => Z.abs total <= 2 ^ 53) (Ieee.runningTotals t0 subs.*2) ->
  0 <= g0 -> g0 + Z.of_nat (length subs) <= 2 ^ 53 ->
  Ieee.submitAll w subs d = Server.submitAll w subs d.
Proof.
  revert d. induction subs as [|[now sc] subs IH]; intros d t0 g0 Ht Hg0 Hg; [done|].
  cbn [fmap list_fmap snd Ieee.runningTotals] in Ht.
  apply Forall_cons in Ht as [Ht1 Ht].
  cbn [length] in Hg.
  unfold Ieee.submitAll, Server.submitAll. cbn [foldl fst snd].
  rewrite updatePlayerStats_exact by (fold t0 g0; lia).
  apply IH; rewrite getPlayerStats_update, !opt_or_Some;
    cbn [Database.updatePlayerStats snd Database.totalScore Database.gamesPlayed];
    fold t0 g0; [exact Ht | lia | lia].
Qed.

(** C4 (amended): for integer scores s1..sN (N >= 1) whose running totals,
    and N itself, stay within 2^53 in magnitude, submitted for a player
    without a prior row, the lifetime row has totalScore = s1 + ... + sN,
    gamesPlayed = N and highScore = max(0, s1, ..., sN); the latter is the
    maximum of the si as soon as one score is not negative. *)
Theorem lifetime_stats_after_submissions
    (w : string) (subs : list (Z * Z)) (d : Database.t) :
  Database.player_stats d !! w = None ->
  subs <> [] ->
  Ieee.exact subs.*2 ->
  exists st m,
    Database.getPlayerStats w (Ieee.submitAll w subs d) = Some st
    /\ maximum subs.*2 = Some m
    /\ Database.totalScore st = Database.sumZ subs.*2
    /\ Database.gamesPlayed st = Z.of_nat (length subs)
    /\ Database.highScore st = Z.max 0 m
    /\ ((exists s, s ∈ subs.*2 /\ 0 <= s) -> Database.highScore st = m).
Proof.
  intros Hnone Hne [Htot Hlen].
  assert (Hcur : Database.getPlayerStats w d = None)
    by (unfold Database.getPlayerStats; by rewrite Hnone).
  rewrite length_fmap in Hlen.
  rewrite submitAll_exact; rewrite ?Hcur; cbn [opt_or]; [|done|lia|lia].
  destruct (submitAll_from w subs d Hne) as (st & Hst & Ht & Hh & Hg).
  rewrite Hcur in Ht, Hh, Hg. cbn [opt_or] in Ht, Hh, Hg.
  destruct (maximum subs.*2) as [m|] eqn:Hm.
  2:{ destruct subs; [done | discriminate Hm]. }
  exists st, m. repeat split; try done; try lia.
  - by apply Hh.
  - intros (s & Hs & Hpos). rewrite (Hh m eq_refl).
    pose proof (maximum_ub _ _ _ Hm Hs). lia.
Qed.

Lemma lifetime_stats_after_submissions_witness :
  Database.player_stats Database.empty !! "0xA1" = None
  /\ Ieee.exact [3; 8; 5]
  /\ exists st m,
    Database.getPlayerStats "0xA1" (Ieee.submitAll "0xA1" [(10, 3); (20, 8); (30, 5)] Database.empty)
    = Some st
    /\ maximum [3; 8; 5] = Some m
    /\ Database.totalScore st = 16
    /\ Database.gamesPlayed st = 3
    /\ Database.highScore st = Z.max 0 m
    /\ ((exists s, s ∈ [3; 8; 5] /\ 0 <= s) -> Database.highScore st = m).
Proof.
  assert (He : Ieee.exact [3; 8; 5]).
  { split; [|cbn; lia]. cbn. repeat constructor; lia. }
  split; [reflexivity|]. split; [exact He|].
  apply (lifetime_stats_after_submissions "0xA1" [(10, 3); (20, 8); (30, 5)] Database.empty).
  - reflexivity.
  - discriminate.
  - exact He.
Defined.

(** C4 (as stated) fails in two ways. One submission of -5 leaves
    highScore = 0, not the maximum -5 of the submitted scores. And the
    scores 2^53 and 1 leave totalScore = 2^53, not their sum: the double
    nearest to 2^53 + 1 is 2^53. *)
Lemma lifetime_stats_counterexample :
  (Database.highScore <$>
     Database.getPlayerStats "0xA1" (Ieee.submitAll "0xA1" [(10, -5)] Database.empty)
   = Some 0
   /\ maximum [-5] = Some (-5)
   /\ 0 <> -5)
  /\ (Database.totalScore <$>
        Database.getPlayerStats "0xA1"
          (Ieee.submitAll "0xA1" [(10, 2 ^ 53); (20, 1)] Database.empty)
      = Some (2 ^ 53)
      /\ Database.sumZ [2 ^ 53; 1] = 2 ^ 53 + 1
      /\ 2 ^ 53 <> 2 ^ 53 + 1).
Proof.
  split.
  - split; [vm_compute; reflexivity | split; [reflexivity | lia]].
  - split; [vm_compute; reflexivity | split; [reflexivity | lia]].
Qed.

(** ** Resetting the daily table *)

(** C7 (amended): [resetDailyStats] sets total score, high score and games
    played of every daily row to zero, keeps each row's wallet and last-played
    time, and leaves the lifetime table and the fee journal as they were. *)
Theorem resetDailyStats_effect (d : Database.t) (w : string) :
  Database.player_stats (Database.resetDailyStats d) = Database.player_stats d
  /\ Database.entry_fees (Database.resetDailyStats d) = Database.entry_fees d
  /\ Database.getPlayerStats w (Database.resetDailyStats d)
     = Database.getPlayerStats w d
  /\ Database.getDailyPlayerStats w (Database.resetDailyStats d)
     = (fun st =>
          {| Database.d_wallet := Database.d_wallet st;
             Database.totalScoreDaily := 0;
             Database.highScoreDaily := 0;
             Database.gamesPlayedDaily := 0;
             Database.lastPlayedDaily := Database.lastPlayedDaily st |})
       <$> Database.getDailyPlayerStats w d.
Proof.
  repeat split.
  unfold Database.getDailyPlayerStats, Database.resetDailyStats. cbn.
  rewrite lookup_fmap. by destruct (Database.daily_player_stats d !! w).
Qed.

(** C7 (as stated) fails on the last-played column: the reset keeps it. *)
Lemma resetDailyStats_last_played_counterexample :
  Database.lastPlayedDaily <$>
    Database.getDailyPlayerStats "0xA1" (Database.resetDailyStats Sample.sampleDaily)
  = Some 1700
  /\ 1700 <> 0.
Proof. split; [vm_compute; reflexivity | lia]. Qed.

(** ** Sessions *)

Section sessions.
Import Server.

Lemma sessions_recordFeeOnce cfg now sid s :
  sessions (recordFeeOnce cfg now sid s) = sessions s.
Proof. unfold recordFeeOnce. by case_decide. Qed.

Lemma recordFeeOnce_known cfg now sid s :
  sid ∈ recordedFeeSessions s -> recordFeeOnce cfg now sid s = s.
Proof. intros H. unfold recordFeeOnce. by case_decide. Qed.

Lemma appendAll_emit lines s :
  foldl (fun s' line => appendPayoutLog line s') s lines
  = emit (AppendPayoutLog <$> lines) (pendingAppends s ++ lines) s.
Proof.
  revert s. induction lines as [|l lines IH]; intros s.
  - destruct s. unfold emit. cbn. by rewrite !app_nil_r.
  - cbn [foldl]. rewrite IH. unfold emit, appendPayoutLog, emit. cbn.
    by rewrite <- !app_assoc.
Qed.

(** A cycle either is aborted and changes nothing, or resets the daily
    table, sets the clock, and adds to the effects and to the writes in
    flight; the transaction fields change together or not at all. *)
Lemma runPayoutCycle_shape cfg chain now s :
  (allocate now (db s) = None /\ runPayoutCycle cfg chain now s = s)
  \/ exists es pend h l,
      is_Some (allocate now (db s))
      /\ runPayoutCycle cfg chain now s
         = {| sessions := sessions s;
              recordedFeeSessions := recordedFeeSessions s;
              feeInserts := feeInserts s;
              db := Database.resetDailyStats (db s);
              lastPayoutAt := now;
              nextPayoutAt := now + DAY_MS;
              lastTxHash := h;
              lastTxLink := l;
              pendingAppends := pendingAppends s ++ pend;
              effects := effects s ++ es |}
      /\ ((h = lastTxHash s /\ l = lastTxLink s)
          \/ exists x, h = Some x /\ l = buildExplorerTxLink cfg (Some x)).
Proof.
  unfold runPayoutCycle. destruct (allocate now (db s)) as [a|]; [right | by left].
  rewrite appendAll_emit.
  destruct (onchainConfigured cfg); [unfold settle; destruct (chain _ _)|];
    unfold appendPayoutLog, emit; cbn; rewrite <- ?app_assoc;
    eexists _, _, _, _; (split; [done|]); (split; [reflexivity|]); eauto.
Qed.

Lemma sessions_runPayoutCycle cfg chain now s :
  sessions (runPayoutCycle cfg chain now s) = sessions s.
Proof.
  destruct (runPayoutCycle_shape cfg chain now s)
    as [[_ ->]|(es & pend & h & l & _ & -> & _)]; done.
Qed.

(** The session a verification leaves under [sid]. *)
Lemma verify_payment_session cfg now h sid s :
  truthy (Some h) = true ->
  sessions (verify_payment cfg now (Some h) sid s).1 !! sid
  = Some (if SANDBOX_MODE cfg || (10 <? Z.of_nat (String.length h))
          then markPaid now (getOrCreate now sid s)
          else getOrCreate now sid s).
Proof.
  intros Ht. unfold verify_payment. rewrite Ht. cbn [negb].
  destruct (SANDBOX_MODE cfg); cbn [orb fst].
  - rewrite sessions_recordFeeOnce. cbn. by rewrite lookup_insert_eq.
  - destruct (10 <? _); cbn [fst].
    + rewrite sessions_recordFeeOnce. cbn. by rewrite lookup_insert_eq.
    + cbn. by rewrite lookup_insert_eq.
Qed.

Lemma verify_payment_other cfg now tx sid sid' s :
  sid <> sid' ->
  sessions (verify_payment cfg now tx sid s).1 !! sid' = sessions s !! sid'.
Proof.
  intros Hne. unfold verify_payment.
  destruct tx as [h|]; [|done].
  destruct (negb _); [done|].
  destruct (SANDBOX_MODE cfg); cbn [fst].
  - rewrite sessions_recordFeeOnce. cbn. by rewrite lookup_insert_ne.
  - destruct (10 <? _); cbn [fst].
    + rewrite sessions_recordFeeOnce. cbn. by rewrite lookup_insert_ne.
    + cbn. by rewrite lookup_insert_ne.
Qed.

Lemma verify_payment_status cfg now tx sid s :
  status (verify_payment cfg now tx sid s).2 = 200
  \/ status (verify_payment cfg now tx sid s).2 = 400.
Proof.
  unfold verify_payment. destruct tx as [h|]; [|by right].
  destruct (negb _); [by right|].
  destruct (SANDBOX_MODE cfg); [by left|].
  destruct (10 <? _); [by left | by right].
Qed.

End sessions.

(** C3 (amended): a verification with a non-empty txHash never answers that
    the session is unknown. On an unknown id it creates the session under
    that id, paid at the time of the call when the txHash is accepted
    (sandbox mode, or more than 10 characters) and unpaid otherwise. On a
    session that is already paid, an accepted call keeps it paid with its id,
    creation time and wallet, and moves the paid timestamp to the time of the
    call; a refused call leaves the session as it was. *)
Theorem verify_payment_sessions
    (cfg : Server.Config) (now : Z) (h sid : string) (s : Server.t) :
  truthy (Some h) = true ->
  let accepted :=
    Server.SANDBOX_MODE cfg || (10 <? Z.of_nat (String.length h)) in
  let out := Server.verify_payment cfg now (Some h) sid s in
  Server.status out.2 = (if accepted then 200 else 400)
  /\ (Server.sessions s !! sid = None ->
      Server.sessions out.1 !! sid
      = Some {| Server.id := sid;
                Server.isPaid := accepted;
                Server.createdAt := now;
                Server.paidAt := if accepted then Some now else None;
                Server.wallet := None |})
  /\ (forall g, Server.sessions s !! sid = Some g -> Server.isPaid g = true ->
      Server.sessions out.1 !! sid
      = Some (if accepted
              then {| Server.id := Server.id g;
                      Server.isPaid := true;
                      Server.createdAt := Server.createdAt g;
                      Server.paidAt := Some now;
                      Server.wallet := Server.wallet g |}
              else g)).
Proof.
  intros Ht accepted out. split; [|split].
  - subst out accepted. unfold Server.verify_payment. rewrite Ht. cbn [negb].
    destruct (Server.SANDBOX_MODE cfg); [done|]. cbn [orb].
    by destruct (10 <? _).
  - intros Hnone. subst out. rewrite verify_payment_session by done.
    unfold Server.getOrCreate. rewrite Hnone. fold accepted.
    by destruct accepted.
  - intros g Hg Hpaid. subst out. rewrite verify_payment_session by done.
    unfold Server.getOrCreate. rewrite Hg. fold accepted.
    by destruct accepted.
Qed.

Lemma verify_payment_sessions_witness :
  let out :=
    Server.verify_payment Sample.production 100 (Some Sample.goodTx)
                          "session_1" Sample.fresh in
  truthy (Some Sample.goodTx) = true
  /\ Server.status out.2 = 200
  /\ (Server.sessions Sample.fresh !! "session_1" = None ->
      Server.sessions out.1 !! "session_1"
      = Some {| Server.id := "session_1";
                Server.isPaid := true;
                Server.createdAt := 100;
                Server.paidAt := Some 100;
                Server.wallet := None |})
  /\ (forall g, Server.sessions Sample.fresh !! "session_1" = Some g ->
      Server.isPaid g = true ->
      Server.sessions out.1 !! "session_1"
      = Some {| Server.id := Server.id g;
                Server.isPaid := true;
                Server.createdAt := Server.createdAt g;
                Server.paidAt := Some 100;
                Server.wallet := Server.wallet g |}).
Proof.
  split; [reflexivity|].
  apply (verify_payment_sessions Sample.production 100 Sample.goodTx
           "session_1" Sample.fresh).
  reflexivity.
Defined.

(** C3 (as stated) fails twice: verifying an unknown id answers 200 and
    creates a paid session, and verifying it again moves its paid timestamp. *)
Lemma verify_payment_counterexample :
  let out1 :=
    Server.verify_payment Sample.production 100 (Some Sample.goodTx)
                          "session_1" Sample.fresh in
  let out2 :=
    Server.verify_payment Sample.production 200 (Some Sample.goodTx)
                          "session_1" out1.1 in
  Server.sessions Sample.fresh !! "session_1" = None
  /\ Server.status out1.2 = 200
  /\ Server.sessions out1.1 !! "session_1"
     = Some {| Server.id := "session_1"; Server.isPaid := true;
               Server.createdAt := 100; Server.paidAt := Some 100;
               Server.wallet := None |}
  /\ Server.sessions out2.1 !! "session_1"
     = Some {| Server.id := "session_1"; Server.isPaid := true;
               Server.createdAt := 100; Server.paidAt := Some 200;
               Server.wallet := None |}.
Proof. repeat split; vm_compute; reflexivity. Qed.

(** C10: outside sandbox mode the answer is 400 exactly when txHash is
    absent or has at most 10 characters; a txHash of more than 10 characters
    is answered 200 and leaves the session paid at the time of the call, and
    the resulting state is the same for every such txHash (nothing but its
    length is looked at). *)
Theorem verify_payment_production
    (cfg : Server.Config) (now : Z) (tx : option string) (sid : string)
    (s : Server.t) :
  Server.SANDBOX_MODE cfg = false ->
  let out := Server.verify_payment cfg now tx sid s in
  (Server.status out.2 = 400 <->
   tx = None \/ exists h, tx = Some h /\ (String.length h <= 10)%nat)
  /\ (forall h, tx = Some h -> (10 < String.length h)%nat ->
      Server.status out.2 = 200
      /\ (exists g, Server.sessions out.1 !! sid = Some g
                    /\ Server.isPaid g = true /\ Server.paidAt g = Some now)
      /\ forall h', (10 < String.length h')%nat ->
           (Server.verify_payment cfg now (Some h') sid s).1 = out.1).
Proof.
  intros Hprod out. subst out. split.
  - unfold Server.verify_payment. rewrite Hprod.
    destruct tx as [h|]; [|cbn; split; auto].
    destruct (truthy (Some h)) eqn:Ht; cbn [negb].
    + destruct (Z.ltb_spec 10 (Z.of_nat (String.length h))); cbn.
      * split; [done|]. intros [|(h' & [= <-] & ?)]; [done | lia].
      * split; [|done]. intros _. right. exists h. split; [done | lia].
    + cbn. split; [|done]. intros _. right. exists h. split; [done|].
      destruct h; [cbn; lia | discriminate Ht].
  - intros h -> Hlen.
    assert (Ht : truthy (Some h) = true) by (destruct h; [cbn in Hlen; lia | done]).
    assert (Hlt : (10 <? Z.of_nat (String.length h)) = true)
      by (apply Z.ltb_lt; lia).
    split; [|split].
    + unfold Server.verify_payment. rewrite Ht, Hprod, Hlt. done.
    + rewrite verify_payment_session by done. rewrite Hprod, Hlt. cbn [orb].
      eexists. split; [done|]. done.
    + intros h' Hlen'.
      assert (Ht' : truthy (Some h') = true)
        by (destruct h'; [cbn in Hlen'; lia | done]).
      assert (Hlt' : (10 <? Z.of_nat (String.length h')) = true)
        by (apply Z.ltb_lt; lia).
      unfold Server.verify_payment. rewrite Ht, Ht', Hprod, Hlt, Hlt'. done.
Qed.

Lemma verify_payment_production_witness :
  let out :=
    Server.verify_payment Sample.production 100 (Some Sample.goodTx)
                          "session_1" Sample.fresh in
  Server.SANDBOX_MODE Sample.production = false
  /\ (Server.status out.2 = 400 <->
      Some Sample.goodTx = None
      \/ exists h, Some Sample.goodTx = Some h /\ (String.length h <= 10)%nat)
  /\ (forall h, Some Sample.goodTx = Some h -> (10 < String.length h)%nat ->
      Server.status out.2 = 200
      /\ (exists g, Server.sessions out.1 !! "session_1" = Some g
                    /\ Server.isPaid g = true /\ Server.paidAt g = Some 100)
      /\ forall h', (10 < String.length h')%nat ->
           (Server.verify_payment Sample.production 100 (Some h')
              "session_1" Sample.fresh).1 = out.1).
Proof.
  split; [reflexivity|].
  apply (verify_payment_production Sample.production 100 (Some Sample.goodTx)
           "session_1" Sample.fresh).
  reflexivity.
Defined.

(** ** Submitting a score *)

Section submit.
Import Server.

Lemma submit_score_refused now req s sid :
  r_sessionId req = Some sid ->
  (sessions s !! sid = None
   \/ exists g, sessions s !! sid = Some g /\ isPaid g = false) ->
  (submit_score now req s).1 = s
  /\ ((submit_score now req s).2 = invalidSession
      \/ (submit_score now req s).2 = missingFields)
  /\ (Server.wellFormed req -> (submit_score now req s).2 = invalidSession).
Proof.
  intros Hsid Hs. unfold submit_score, wellFormed. rewrite Hsid.
  destruct (r_wallet req) as [w|]; [|cbn; intuition; discriminate].
  destruct (r_score req) as [sc|]; cbn [is_Some].
  2:{ cbn. split; [done|]. split; [by right|]. intros (_ & _ & [? [=]]). }
  destruct (truthy (Some sid)), (truthy (Some w)); cbn [negb orb];
    try (cbn; split; [done|]; split; [by right|]; intros (? & ? & _); done).
  destruct Hs as [-> | (g & -> & ->)]; cbn; auto.
Qed.









End submit.




(** C2 (amended): a score submission for a session that exists but is not
    paid changes nothing (no lifetime row, no daily row, and the session
    stays), and is answered with the invalid-session answer, 403, which is
    also the answer for an absent session (400 when the request itself is
    malformed). *)
Theorem submit_score_unpaid
    (now : Z) (req : Server.ScoreRequest) (sid : string)
    (g : Server.GameSession) (s : Server.t) :
  Server.r_sessionId req = Some sid ->
  Server.sessions s !! sid = Some g ->
  Server.isPaid g = false ->
  (Server.submit_score now req s).1 = s
  /\ ((Server.submit_score now req s).2 = Server.invalidSession
      \/ (Server.submit_score now req s).2 = Server.missingFields)
  /\ (Server.wellFormed req ->
      (Server.submit_score now req s).2 = Server.invalidSession)
  /\ (forall req' sid',
        Server.r_sessionId req' = Some sid' ->
        Server.sessions s !! sid' = None ->
        Server.wellFormed req' ->
        (Server.submit_score now req' s).2 = Server.invalidSession)
  /\ Server.status Server.invalidSession = 403
  /\ Server.status Server.missingFields = 400.
Proof.
  intros Hsid Hg Hunpaid.
  destruct (submit_score_refused now req s sid Hsid) as (H1 & H2 & H3).
  { right. eauto. }
  repeat split; try done.
  intros req' sid' Hsid' Habs Hwf.
  by apply (submit_score_refused now req' s sid' Hsid'); [left|].
Qed.

Lemma submit_score_unpaid_witness :
  let s := (Server.verify_payment Sample.production 100 (Some Sample.shortTx)
              "session_1" Sample.fresh).1 in
  let req := Sample.scoreReq "session_1" "0xA1" 5 in
  Server.sessions s !! "session_1" = Some (Server.newSession "session_1" 100)
  /\ (Server.submit_score 200 req s).1 = s
  /\ ((Server.submit_score 200 req s).2 = Server.invalidSession
      \/ (Server.submit_score 200 req s).2 = Server.missingFields)
  /\ (Server.wellFormed req ->
      (Server.submit_score 200 req s).2 = Server.invalidSession)
  /\ (forall req' sid',
        Server.r_sessionId req' = Some sid' ->
        Server.sessions s !! sid' = None ->
        Server.wellFormed req' ->
        (Server.submit_score 200 req' s).2 = Server.invalidSession)
  /\ Server.status Server.invalidSession = 403
  /\ Server.status Server.missingFields = 400.
Proof.
  split; [reflexivity|].
  apply (submit_score_unpaid 200 (Sample.scoreReq "session_1" "0xA1" 5)
           "session_1" (Server.newSession "session_1" 100)).
  - reflexivity.
  - reflexivity.
  - reflexivity.
Defined.

(** C2 (as stated) fails on the error code: an unpaid session and an absent
    one get the very same answer. *)
Lemma submit_score_unpaid_counterexample :
  let s := (Server.verify_payment Sample.production 100 (Some Sample.shortTx)
              "session_1" Sample.fresh).1 in
  Server.isPaid <$> Server.sessions s !! "session_1" = Some false
  /\ Server.sessions s !! "session_2" = None
  /\ (Server.submit_score 200 (Sample.scoreReq "session_1" "0xA1" 5) s).2
     = (Server.submit_score 200 (Sample.scoreReq "session_2" "0xA1" 5) s).2.
Proof. repeat split; vm_compute; reflexivity. Qed.

(** ** Overlapping cycles *)

Lemma admin_request_guarded (s : Scheduler.t) :
  Scheduler.isPayoutRunning s = true ->
  Scheduler.step Scheduler.AdminRequest s = (s, Scheduler.Rejected409).
Proof. intros H. unfold Scheduler.step. by rewrite H. Qed.

Lemma timer_never_rejected (s : Scheduler.t) :
  (Scheduler.step Scheduler.TimerFires s).2 = Scheduler.Started
  /\ Scheduler.isPayoutRunning (Scheduler.step Scheduler.TimerFires s).1
     = Scheduler.isPayoutRunning s.
Proof. done. Qed.

Lemma remove_one_running (x : Scheduler.Trigger) (l r : list Scheduler.Trigger) :
  Scheduler.remove_one x l = Some r ->
  Scheduler.running x l = S (Scheduler.running x r)
  /\ forall y, y <> x -> Scheduler.running y r = Scheduler.running y l.
Proof.
  revert r. induction l as [|z l IH]; intros r; cbn; [done|].
  destruct (Scheduler.trigger_eqb x z) eqn:E.
  - intros [= ->]. split; [done|]. intros y Hy.
    destruct x, y, z; cbn in *; congruence.
  - destruct (Scheduler.remove_one x l) as [r'|]; [|done].
    intros [= <-]. destruct (IH r' eq_refl) as [H1 H2]. cbn. rewrite E.
    split; [by rewrite H1|]. intros y Hy. by rewrite (H2 y Hy).
Qed.

Lemma step_flag_tracks_admin (e : Scheduler.Event) (s : Scheduler.t) :
  Scheduler.flag_tracks_admin s ->
  Scheduler.flag_tracks_admin (Scheduler.step e s).1.
Proof.
  unfold Scheduler.flag_tracks_admin. intros H.
  destruct e as [| |[|]]; cbn.
  - done.
  - destruct (Scheduler.isPayoutRunning s) eqn:E; cbn; [by rewrite E|].
    by rewrite H.
  - destruct (Scheduler.remove_one _ _) as [r|] eqn:E; cbn; [|done].
    apply remove_one_running in E as [_ E]. by rewrite E.
  - destruct (Scheduler.remove_one _ _) as [r|] eqn:E; cbn; [|done].
    apply remove_one_running in E as [E _]. rewrite E in H.
    destruct (Scheduler.isPayoutRunning s); lia.
Qed.

(** What the flag does achieve: among the cycles in progress at most one was
    started by an admin request. *)
Lemma admin_cycles_never_overlap (es : list Scheduler.Event) :
  (Scheduler.running Scheduler.Admin
     (Scheduler.inProgress (Scheduler.run es Scheduler.idle).1) <= 1)%nat.
Proof.
  assert (forall s, Scheduler.flag_tracks_admin s ->
                    Scheduler.flag_tracks_admin (Scheduler.run es s).1) as Hrun.
  { induction es as [|e es IH]; intros s Hs; [done|]. cbn.
    pose proof (step_flag_tracks_admin e s Hs) as H1.
    destruct (Scheduler.step e s) as [s1 o]. cbn in H1.
    specialize (IH s1 H1). by destruct (Scheduler.run es s1). }
  specialize (Hrun Scheduler.idle eq_refl).
  unfold Scheduler.flag_tracks_admin in Hrun. rewrite Hrun.
  destruct (Scheduler.isPayoutRunning _); lia.
Qed.

(** C8 (the code at the failing input): the timer starts a cycle while the
    cycle of an admin request is still running, and an admin request starts
    one while a timer cycle is still running; in both runs nothing is
    rejected and two cycles are in progress. *)
Theorem timer_cycle_overlaps :
  Scheduler.run [Scheduler.AdminRequest; Scheduler.TimerFires] Scheduler.idle
  = ({| Scheduler.isPayoutRunning := true;
        Scheduler.inProgress := [Scheduler.Timer; Scheduler.Admin] |},
     [Scheduler.Started; Scheduler.Started])
  /\ Scheduler.run [Scheduler.TimerFires; Scheduler.AdminRequest] Scheduler.idle
     = ({| Scheduler.isPayoutRunning := true;
           Scheduler.inProgress := [Scheduler.Admin; Scheduler.Timer] |},
        [Scheduler.Started; Scheduler.Started])
  /\ Scheduler.overlapping
       (Scheduler.run [Scheduler.AdminRequest; Scheduler.TimerFires]
          Scheduler.idle).1.
Proof.
  split; [reflexivity | split; [reflexivity|]].
  unfold Scheduler.overlapping. cbn. lia.
Qed.

(** ** The journal and the settlement *)

Lemma existsb_eqb_elem (w : string) (l : list string) :
  existsb (String.eqb w) l = true <-> w ∈ l.
Proof.
  rewrite existsb_exists. split.
  - intros (x & Hin & Heq). apply String.eqb_eq in Heq as ->.
    by apply list_elem_of_In.
  - intros Hin. exists w. split; [by apply list_elem_of_In | apply String.eqb_refl].
Qed.

Lemma elem_of_set_of (w : string) (seen l : list string) :
  w ∈ set_of seen l <-> w ∈ l /\ w ∉ seen.
Proof.
  revert seen. induction l as [|x l IH]; intros seen; cbn.
  - split; [by intros ?%elem_of_nil | by intros [?%elem_of_nil _]].
  - destruct (existsb (String.eqb x) seen) eqn:E.
    + apply existsb_eqb_elem in E. rewrite IH, elem_of_cons.
      split; [tauto|]. intros [[->|?] ?]; [done | tauto].
    + assert (x ∉ seen) as Hx.
      { intros Hin%existsb_eqb_elem. congruence. }
      rewrite !elem_of_cons, IH, elem_of_app, list_elem_of_singleton.
      split.
      * intros [->|[? ?]]; [tauto|]. split; [tauto|]. tauto.
      * intros [[->|Hl] Hs]; [tauto|].
        destruct (decide (w = x)) as [->|]; [tauto|]. right. tauto.
Qed.

Lemma NoDup_set_of (seen l : list string) : NoDup (set_of seen l).
Proof.
  revert seen. induction l as [|x l IH]; intros seen; cbn; [constructor|].
  destruct (existsb _ seen); [apply IH|].
  constructor; [|apply IH].
  rewrite elem_of_set_of, elem_of_app, list_elem_of_singleton. tauto.
Qed.

Lemma JsMap_get_keys {V} (k : string) (m : list (string * V)) :
  is_Some (JsMap.get k m) <-> k ∈ JsMap.keys m.
Proof.
  unfold JsMap.keys. induction m as [|[k' v] m IH]; cbn.
  - split; [by intros [? ?] | by intros ?%elem_of_nil].
  - rewrite elem_of_cons. destruct (String.eqb_spec k k') as [->|Hne].
    + split; [tauto | eauto].
    + rewrite IH. tauto.
Qed.

Lemma wallets_complete (now : Z) (d : Database.t) (a : Server.Allocation) (w : string) :
  Server.allocate now d = Some a ->
  w ∈ Server.wallets a
  <-> is_Some (JsMap.get w (Server.rewardTotalMap a))
      \/ is_Some (JsMap.get w (Server.rewardHighMap a)).
Proof.
  unfold Server.allocate.
  destruct (Database.getDailyScoresSum Database.Total d); [|done].
  destruct (Database.getDailyScoresSum Database.High d); [|done].
  intros [= <-].
  cbn [Server.wallets Server.rewardTotalMap Server.rewardHighMap].
  rewrite elem_of_set_of, elem_of_app, !JsMap_get_keys.
  split; [tauto|]. intros H. split; [done | by intros ?%elem_of_nil].
Qed.

Lemma written_issued (l : list Server.LogEntry) :
  Server.written (Server.AppendPayoutLog <$> l) = [].
Proof. induction l as [|x l IH]; [done | exact IH]. Qed.

Lemma calls_issued (l : list Server.LogEntry) :
  filter (fun e => Server.is_call e = true) (Server.AppendPayoutLog <$> l) = [].
Proof.
  induction l as [|x l IH]; [done|]. by rewrite fmap_cons, filter_cons_False.
Qed.

Lemma getDailyPlayerStats_reset (w : string) (d : Database.t) :
  Database.getDailyPlayerStats w (Database.resetDailyStats d)
  = (fun st =>
       {| Database.d_wallet := Database.d_wallet st;
          Database.totalScoreDaily := 0;
          Database.highScoreDaily := 0;
          Database.gamesPlayedDaily := 0;
          Database.lastPlayedDaily := Database.lastPlayedDaily st |})
    <$> Database.getDailyPlayerStats w d.
Proof.
  unfold Database.getDailyPlayerStats, Database.resetDailyStats. cbn.
  rewrite lookup_fmap. by destruct (Database.daily_player_stats d !! w).
Qed.

(** The callback of a write only ever adds the line to the file. *)
Lemma payouts_log_appendDone (i : nat) (ok : bool) (s : Server.t) :
  Server.payouts_log (Server.appendDone i ok s)
  = Server.payouts_log s
    ++ match Server.pendingAppends s !! i with
       | Some e => if ok then [e] else []
       | None => []
       end.
Proof.
  unfold Server.appendDone, Server.payouts_log, Server.written.
  destruct (Server.pendingAppends s !! i) as [e|]; [|by rewrite app_nil_r].
  cbn. rewrite omap_app. by destruct ok.
Qed.

(** The state after a cycle whose queries succeed, field by field. *)
Lemma runPayoutCycle_Some cfg chain now s a :
  Server.allocate now (Server.db s) = Some a ->
  let rewards := (fun w => Server.toUnits (Server.rewardOf a w)) <$> Server.wallets a in
  let result := chain (Server.wallets a) rewards in
  let on := Server.onchainConfigured cfg in
  Server.runPayoutCycle cfg chain now s
  = {| Server.sessions := Server.sessions s;
       Server.recordedFeeSessions := Server.recordedFeeSessions s;
       Server.feeInserts := Server.feeInserts s;
       Server.db := Database.resetDailyStats (Server.db s);
       Server.lastPayoutAt := now;
       Server.nextPayoutAt := now + Server.DAY_MS;
       Server.lastTxHash :=
         if on then
           match result with
           | Server.Mined h _ => Some h
           | _ => Server.lastTxHash s
           end
         else Server.lastTxHash s;
       Server.lastTxLink :=
         if on then
           match result with
           | Server.Mined h _ => Server.buildExplorerTxLink cfg (Some h)
           | _ => Server.lastTxLink s
           end
         else Server.lastTxLink s;
       Server.pendingAppends :=
         Server.pendingAppends s ++ Server.journalLines now a
         ++ (if on then
               [match result with
                | Server.SetupThrew msg | Server.Threw msg =>
                    Server.EndCycleErrorLine msg now
                | Server.Mined h st =>
                    Server.EndCycleLine h (Server.buildExplorerTxLink cfg (Some h)) st now
                end]
             else []);
       Server.effects :=
         Server.effects s ++ (Server.AppendPayoutLog <$> Server.journalLines now a)
         ++ (if on then
               match result with
               | Server.SetupThrew _ => []
               | _ => [Server.EndCycleCall (Server.wallets a) rewards]
               end
             else [])
         ++ (Server.AppendPayoutLog <$>
               (if on then
                  [match result with
                   | Server.SetupThrew msg | Server.Threw msg =>
                       Server.EndCycleErrorLine msg now
                   | Server.Mined h st =>
                       Server.EndCycleLine h (Server.buildExplorerTxLink cfg (Some h)) st now
                   end]
                else [])) |}.
Proof.
  intros Ha rewards result on. unfold Server.runPayoutCycle.
  rewrite Ha, appendAll_emit. unfold Server.settle.
  fold rewards. fold result. fold on.
  destruct on; [destruct result|];
    unfold Server.appendPayoutLog, Server.emit; cbn;
    by rewrite <- ?app_assoc, ?app_nil_r.
Qed.

(** C9 (amended): in a cycle whose queries succeed, one line per allocation
    and the treasury line are handed to [fs.appendFile], which is not
    awaited, before the settlement call is made: when [endCycle] is called
    the file holds what it held before the cycle, and the lines are writes
    in flight. The call is made at most once. When the settlement fails,
    before the call or after it, an error line is handed over the same way,
    the last transaction hash and link stay, and the bookkeeping is done as
    in every such cycle: total, high score and games of every daily row are
    zero, the lifetime table and the fee journal are as before, and the
    clock moves to [now] and [now + 24h]. A write that finishes adds its
    line at the end of the file, or loses it; nothing written changes. *)
Theorem runPayoutCycle_bookkeeping
    (cfg : Server.Config) (chain : Server.Chain) (now : Z) (s : Server.t)
    (a : Server.Allocation) :
  Server.allocate now (Server.db s) = Some a ->
  let rewards := (fun w => Server.toUnits (Server.rewardOf a w)) <$> Server.wallets a in
  let journal := Server.journalLines now a in
  let result := chain (Server.wallets a) rewards in
  let calls :=
    if Server.onchainConfigured cfg then
      match result with
      | Server.SetupThrew _ => []
      | _ => [Server.EndCycleCall (Server.wallets a) rewards]
      end
    else [] in
  let outcome :=
    if Server.onchainConfigured cfg then
      [match result with
       | Server.SetupThrew msg | Server.Threw msg => Server.EndCycleErrorLine msg now
       | Server.Mined h st =>
           Server.EndCycleLine h (Server.buildExplorerTxLink cfg (Some h)) st now
       end]
    else [] in
  let s' := Server.runPayoutCycle cfg chain now s in
  (forall w,
     is_Some (JsMap.get w (Server.rewardTotalMap a))
     \/ is_Some (JsMap.get w (Server.rewardHighMap a)) ->
     Server.rewardLine now a w ∈ journal)
  /\ Server.TreasuryLine (Server.poolTreasury a) now ∈ journal
  /\ Server.effects s'
     = Server.effects s ++ (Server.AppendPayoutLog <$> journal) ++ calls
       ++ (Server.AppendPayoutLog <$> outcome)
  /\ Server.pendingAppends s' = Server.pendingAppends s ++ journal ++ outcome
  /\ Server.written (Server.effects s ++ (Server.AppendPayoutLog <$> journal) ++ calls)
     = Server.payouts_log s
  /\ (length (filter (fun e => Server.is_call e = true)
                (Server.AppendPayoutLog <$> journal)) = 0)%nat
  /\ (length (filter (fun e => Server.is_call e = true)
                (calls ++ (Server.AppendPayoutLog <$> outcome))) <= 1)%nat
  /\ (forall w,
        Database.getDailyPlayerStats w (Server.db s')
        = (fun st =>
             {| Database.d_wallet := Database.d_wallet st;
                Database.totalScoreDaily := 0;
                Database.highScoreDaily := 0;
                Database.gamesPlayedDaily := 0;
                Database.lastPlayedDaily := Database.lastPlayedDaily st |})
          <$> Database.getDailyPlayerStats w (Server.db s))
  /\ Database.player_stats (Server.db s') = Database.player_stats (Server.db s)
  /\ Database.entry_fees (Server.db s') = Database.entry_fees (Server.db s)
  /\ Server.lastPayoutAt s' = now
  /\ Server.nextPayoutAt s' = now + Server.DAY_MS
  /\ (forall msg,
        Server.onchainConfigured cfg = true ->
        result = Server.SetupThrew msg \/ result = Server.Threw msg ->
        outcome = [Server.EndCycleErrorLine msg now]
        /\ Server.lastTxHash s' = Server.lastTxHash s
        /\ Server.lastTxLink s' = Server.lastTxLink s)
  /\ (forall i ok,
        Server.payouts_log (Server.appendDone i ok s')
        = Server.payouts_log s'
          ++ match Server.pendingAppends s' !! i with
             | Some e => if ok then [e] else []
             | None => []
             end).
Proof.
  intros Ha rewards journal result calls outcome s'.
  split.
  { intros w Hw. apply elem_of_app. left.
    apply list_elem_of_fmap. exists w. split; [done|].
    by apply (wallets_complete now (Server.db s)). }
  split.
  { apply elem_of_app. right. by apply list_elem_of_singleton. }
  split; [|split; [|split; [|split; [|split]]]].
  - subst s'. by rewrite (runPayoutCycle_Some cfg chain now s a Ha).
  - subst s'. by rewrite (runPayoutCycle_Some cfg chain now s a Ha).
  - unfold Server.payouts_log, Server.written. rewrite !omap_app.
    fold (Server.written (Server.AppendPayoutLog <$> journal)).
    rewrite written_issued. subst calls.
    destruct (Server.onchainConfigured cfg); [destruct result|]; cbn;
      by rewrite ?app_nil_r.
  - by rewrite calls_issued.
  - rewrite filter_app, calls_issued, app_nil_r. subst calls.
    destruct (Server.onchainConfigured cfg); [destruct result|];
      rewrite ?filter_cons_True by done; cbn; lia.
  - subst s'. rewrite (runPayoutCycle_Some cfg chain now s a Ha).
    cbn [Server.db Server.lastPayoutAt Server.nextPayoutAt Server.lastTxHash
         Server.lastTxLink].
    split; [intros w; apply getDailyPlayerStats_reset|].
    do 4 (split; [done|]).
    split; [|intros i ok; apply payouts_log_appendDone].
    intros msg Hon Hres. subst outcome. fold rewards. fold result. rewrite Hon.
    by destruct Hres as [-> | ->].
Qed.

(** ** The daily leaderboard *)

Section leaderboard.
Context (ty : Database.ScoreType).

#[local] Instance score_desc_trans : Transitive (Database.score_desc ty).
Proof. intros a b c. unfold Database.score_desc. lia. Qed.

#[local] Instance score_desc_total : Total (Database.score_desc ty).
Proof. intros a b. unfold Database.score_desc. lia. Qed.

Lemma elem_of_dailySelected d (kr : string * Database.DailyRow) :
  kr ∈ Database.dailySelected ty d
  <-> Database.daily_player_stats d !! kr.1 = Some kr.2 /\ 0 < Database.scoreColumn ty kr.2.
Proof.
  unfold Database.dailySelected. rewrite list_elem_of_filter.
  destruct kr as [k r]. rewrite elem_of_map_to_list. cbn. tauto.
Qed.

Lemma NoDup_dailySelected d : NoDup (Database.dailySelected ty d).*1.
Proof.
  eapply sublist_NoDup; [apply (NoDup_fst_map_to_list (Database.daily_player_stats d))|].
  unfold Database.dailySelected. apply fmap_sublist, sublist_filter.
Qed.

Lemma sorted_Permutation d :
  merge_sort (Database.score_desc ty) (Database.dailySelected ty d) ≡ₚ Database.dailySelected ty d.
Proof. apply merge_sort_Permutation. Qed.

Lemma NoDup_sorted d :
  NoDup (merge_sort (Database.score_desc ty) (Database.dailySelected ty d)).*1.
Proof. rewrite sorted_Permutation. apply NoDup_dailySelected. Qed.

Lemma NoDup_dailyRanked limit d : NoDup (Database.dailyRanked ty limit d).*1.
Proof.
  eapply sublist_NoDup; [apply (NoDup_sorted d)|].
  apply fmap_sublist, sublist_take.
Qed.

Lemma elem_of_dailyRanked limit d kr :
  kr ∈ Database.dailyRanked ty limit d -> kr ∈ Database.dailySelected ty d.
Proof.
  intros H. rewrite <- sorted_Permutation.
  eapply elem_of_sublist; [exact H | apply sublist_take].
Qed.



Lemma leaderboard_wallets limit d :
  Database.e_wallet <$> Database.getDailyLeaderboard ty limit d = (Database.dailyRanked ty limit d).*1.
Proof.
  unfold Database.getDailyLeaderboard. rewrite fmap_imap, <- imap_const.
  by apply imap_ext.
Qed.

Lemma leaderboard_scores limit d :
  Database.score <$> Database.getDailyLeaderboard ty limit d
  = (fun kr => Database.scoreColumn ty kr.2) <$> Database.dailyRanked ty limit d.
Proof.
  unfold Database.getDailyLeaderboard. rewrite fmap_imap, <- imap_const.
  by apply imap_ext.
Qed.





End leaderboard.

(** ** The peak share *)

Lemma positive_not_le0 (x : Q) : (0 < x)%Q -> Qle_bool x 0 = false.
Proof.
  intros H. destruct (Qle_bool x 0) eqn:E; [|done].
  apply Qle_bool_iff in E. exfalso. by apply (Qlt_not_le 0 x).
Qed.

Lemma peakRewards_tiers (P : Q) (l : list Database.LeaderboardEntry) :
  (0 < P)%Q ->
  NoDup (Database.e_wallet <$> l) ->
  Server.peakRewards P l
  = match l with
    | [] => []
    | [e1] => [(Database.e_wallet e1, P)]
    | [e1; e2] =>
        [(Database.e_wallet e1, (P * (70 # 100))%Q);
         (Database.e_wallet e2, (P * (30 # 100))%Q)]
    | e1 :: e2 :: e3 :: _ =>
        [(Database.e_wallet e1, (P * (60 # 100))%Q);
         (Database.e_wallet e2, (P * (25 # 100))%Q);
         (Database.e_wallet e3, (P * (15 # 100))%Q)]
    end.
Proof.
  intros HP Hnd. unfold Server.peakRewards. rewrite (positive_not_le0 P HP).
  destruct l as [|e1 [|e2 [|e3 l]]]; [done | done | |].
  - cbn. apply NoDup_cons in Hnd as [Hne _].
    apply not_elem_of_cons in Hne as [Hne _].
    rewrite (proj2 (String.eqb_neq _ _)); [done | congruence].
  - cbn. apply NoDup_cons in Hnd as [H1 Hnd].
    apply NoDup_cons in Hnd as [H2 _].
    apply not_elem_of_cons in H1 as [H12 H1].
    apply not_elem_of_cons in H1 as [H13 _].
    apply not_elem_of_cons in H2 as [H23 _].
    rewrite (proj2 (String.eqb_neq (Database.e_wallet e2) (Database.e_wallet e1)))
      by congruence.
    cbn.
    rewrite (proj2 (String.eqb_neq (Database.e_wallet e3) (Database.e_wallet e1)))
      by congruence.
    rewrite (proj2 (String.eqb_neq (Database.e_wallet e3) (Database.e_wallet e2)))
      by congruence.
    done.
Qed.



Lemma sumZ_nonneg (l : list Z) : Forall (fun z => 0 < z) l -> 0 <= Database.sumZ l.
Proof.
  induction 1 as [|x l Hx _ IH]; cbn; [done|]. unfold Database.sumZ in IH. lia.
Qed.

Lemma sumStep_Some (total : Z) (approx : bool) (l : list Z) :
  Forall (fun z => 0 < z) l ->
  0 <= total ->
  total + Database.sumZ l <= Database.INT64_MAX ->
  Database.sumStep total approx l = Some (total + Database.sumZ l).
Proof.
  intros Hpos. revert total approx.
  induction Hpos as [|v l Hv Hl IH]; intros total approx Ht Hs; cbn.
  - f_equal. lia.
  - pose proof (sumZ_nonneg l Hl) as Hn. unfold Database.sumZ in *. cbn in Hs.
    destruct (approx || negb (Database.storedAsInteger v)).
    + rewrite IH by lia. f_equal. lia.
    + unfold Database.INT64_MIN.
      rewrite (proj2 (Z.ltb_ge _ _)) by lia.
      rewrite (proj2 (Z.ltb_ge _ _)) by lia. cbn [orb].
      rewrite IH by lia. f_equal. lia.
Qed.

Lemma sqlSum_Some (l : list Z) :
  Forall (fun z => 0 < z) l ->
  Database.sumZ l <= Database.INT64_MAX -> Database.sqlSum l = Some (Database.sumZ l).
Proof.
  intros Hpos H. unfold Database.sqlSum. by rewrite sumStep_Some.
Qed.

Lemma dailyScores_positive (ty : Database.ScoreType) (d : Database.t) :
  Forall (fun z => 0 < z) (Database.dailyScores ty d).
Proof.
  unfold Database.dailyScores. apply Forall_fmap, Forall_forall.
  intros kr Hin. by apply elem_of_dailySelected in Hin as [_ Hpos].
Qed.

Lemma getDailyScoresSum_Some (ty : Database.ScoreType) (d : Database.t) :
  Database.sumZ (Database.dailyScores ty d) <= Database.INT64_MAX ->
  Database.getDailyScoresSum ty d = Some (Database.sumZ (Database.dailyScores ty d)).
Proof.
  intros H. unfold Database.getDailyScoresSum.
  rewrite sqlSum_Some by (done || apply dailyScores_positive).
  cbn. by rewrite js_or_0.
Qed.

(** What an allocation is made of. *)
Lemma allocate_inv (now : Z) (d : Database.t) (a : Server.Allocation) :
  Server.allocate now d = Some a ->
  let fees := Database.getTotalEntryFeesSince (now - Server.DAY_MS) d in
  exists S,
    Database.getDailyScoresSum Database.Total d = Some S
    /\ is_Some (Database.getDailyScoresSum Database.High d)
    /\ Server.poolTotal a = (fees * (70 # 100))%Q
    /\ Server.poolHigh a = (fees * (25 # 100))%Q
    /\ Server.poolTreasury a = (fees * (5 # 100))%Q
    /\ Server.totalEntries a = Database.getDailyLeaderboard Database.Total 1000 d
    /\ Server.highEntries a = Database.getDailyLeaderboard Database.High 1000 d
    /\ Server.rewardTotalMap a
       = Server.volumeRewards (Server.poolTotal a) S (Server.totalEntries a)
    /\ Server.rewardHighMap a
       = Server.peakRewards (Server.poolHigh a) (Server.highEntries a)
    /\ Server.wallets a
       = set_of [] (JsMap.keys (Server.rewardTotalMap a)
                    ++ JsMap.keys (Server.rewardHighMap a)).
Proof.
  unfold Server.allocate.
  destruct (Database.getDailyScoresSum Database.Total d) as [S|]; [|done].
  destruct (Database.getDailyScoresSum Database.High d) as [S'|]; [|done].
  intros [= <-]. exists S. cbn. eauto 12.
Qed.

(** The queries of a cycle succeed when both sums fit in 64 bits. *)
Lemma allocate_total (now : Z) (d : Database.t) :
  Database.sumZ (Database.dailyScores Database.Total d) <= Database.INT64_MAX ->
  Database.sumZ (Database.dailyScores Database.High d) <= Database.INT64_MAX ->
  exists a,
    Server.allocate now d = Some a
    /\ Server.rewardTotalMap a
       = Server.volumeRewards (Server.poolTotal a)
           (Database.sumZ (Database.dailyScores Database.Total d))
           (Server.totalEntries a).
Proof.
  intros Ht Hh. unfold Server.allocate.
  rewrite !getDailyScoresSum_Some by done. eauto.
Qed.



(** ** The volume share *)

Lemma JsMap_set_fresh {V} (k : string) (v : V) (m : list (string * V)) :
  k ∉ JsMap.keys m -> JsMap.set k v m = m ++ [(k, v)].
Proof.
  unfold JsMap.keys. induction m as [|[k' v'] m IH]; cbn; [done|].
  intros [Hne Hm]%not_elem_of_cons.
  rewrite (proj2 (String.eqb_neq k k')) by done. by rewrite IH.
Qed.

Lemma foldl_set_fresh {A V} (key : A -> string) (val : A -> V)
    (l : list A) (acc : list (string * V)) :
  NoDup (key <$> l) ->
  (forall x, x ∈ l -> key x ∉ JsMap.keys acc) ->
  foldl (fun m x => JsMap.set (key x) (val x) m) acc l
  = acc ++ ((fun x => (key x, val x)) <$> l).
Proof.
  revert acc. induction l as [|x l IH]; intros acc Hnd Hacc; cbn.
  - by rewrite app_nil_r.
  - apply NoDup_cons in Hnd as [Hx Hnd].
    rewrite JsMap_set_fresh by (apply Hacc; left).
    rewrite IH; [by rewrite <- app_assoc | done |].
    intros y Hy. unfold JsMap.keys. rewrite fmap_app, elem_of_app. cbn.
    intros [Hin|Hin%list_elem_of_singleton].
    + by apply (Hacc y); [right|].
    + apply Hx. rewrite <- Hin. apply list_elem_of_fmap. eauto.
Qed.







(** The volume map lists the ranked players with their shares. *)
Lemma volume_map (now : Z) (d : Database.t) (a : Server.Allocation) (S : Z) :
  Server.allocate now d = Some a ->
  Database.getDailyScoresSum Database.Total d = Some S ->
  0 < S -> (0 < Server.poolTotal a)%Q ->
  Server.rewardTotalMap a
  = (fun kr : string * Database.DailyRow =>
       (kr.1, (inject_Z (Database.total_score_daily kr.2) / inject_Z S
               * Server.poolTotal a)%Q))
    <$> Database.dailyRanked Database.Total 1000 d.
Proof.
  intros Ha HSum HS HV.
  destruct (allocate_inv now d a Ha)
    as (S' & HS' & _ & _ & _ & _ & Hte & _ & Hmap & _).
  rewrite HSum in HS'. injection HS' as <-.
  rewrite Hmap, Hte. unfold Server.volumeRewards.
  rewrite (proj2 (Z.ltb_lt 0 S) HS), (positive_not_le0 _ HV). cbn [andb negb].
  rewrite (foldl_set_fresh Database.e_wallet
             (fun e => (inject_Z (Database.score e) / inject_Z S
                        * Server.poolTotal a)%Q)).
  - cbn [app]. unfold Database.getDailyLeaderboard.
    rewrite fmap_imap, <- imap_const. by apply imap_ext.
  - rewrite leaderboard_wallets. apply NoDup_dailyRanked.
  - intros x _. by intros ?%elem_of_nil.
Qed.





Lemma runPayoutCycle_bookkeeping_witness :
  exists a,
    Server.allocate 172800000 (Server.db Sample.cycleServer) = Some a
    /\ let s' := Server.runPayoutCycle Sample.production Sample.revertingChain
                   172800000 Sample.cycleServer in
       Server.effects s'
       = (Server.AppendPayoutLog <$> Server.journalLines 172800000 a)
         ++ [ Server.EndCycleCall ["0xB2"; "0xA1"] [1925000; 925000];
              Server.AppendPayoutLog
                (Server.EndCycleErrorLine "execution reverted" 172800000) ]
       /\ Server.pendingAppends s'
          = Server.journalLines 172800000 a
            ++ [Server.EndCycleErrorLine "execution reverted" 172800000]
       /\ Server.wallets a = ["0xB2"; "0xA1"]
       /\ Database.getDailyPlayerStats "0xB2" (Server.db s')
          = Some {| Database.d_wallet := "0xB2";
                    Database.totalScoreDaily := 0;
                    Database.highScoreDaily := 0;
                    Database.gamesPlayedDaily := 0;
                    Database.lastPlayedDaily := 86400500 |}
       /\ Server.lastPayoutAt s' = 172800000
       /\ Server.nextPayoutAt s' = 259200000
       /\ Server.lastTxHash s' = None.
Proof.
  destruct (Server.allocate 172800000 (Server.db Sample.cycleServer)) as [a|] eqn:Ha;
    [|vm_compute in Ha; discriminate].
  exists a. split; [reflexivity|].
  destruct (runPayoutCycle_bookkeeping Sample.production Sample.revertingChain
              172800000 Sample.cycleServer a Ha)
    as (_ & _ & Heff & Hpend & _ & _ & _ & Hdb & _ & _ & Hlast & Hnext & Hthrew & _).
  assert (Hws : Server.wallets a = ["0xB2"; "0xA1"]).
  { vm_compute in Ha. injection Ha as <-. reflexivity. }
  assert (Hrs : (fun w => Server.toUnits (Server.rewardOf a w)) <$> Server.wallets a
                = [1925000; 925000]).
  { vm_compute in Ha. injection Ha as <-. vm_compute. reflexivity. }
  assert (Hon : Server.onchainConfigured Sample.production = true) by reflexivity.
  destruct (Hthrew "execution reverted" Hon (or_intror eq_refl)) as (_ & Htx & _).
  cbv zeta.
  split; [|split; [|split; [|split; [|split; [|split]]]]].
  - rewrite Heff, Hon, Hrs, Hws. reflexivity.
  - rewrite Hpend, Hon. reflexivity.
  - exact Hws.
  - rewrite Hdb. reflexivity.
  - exact Hlast.
  - exact Hnext.
  - rewrite Htx. reflexivity.
Defined.

(** C9 (as stated) fails in two ways. The lines are not written before the
    settlement is attempted: in a cycle whose settlement is mined,
    [endCycle] has been called when none of the four lines handed to
    [fs.appendFile] is in the file yet, and a write that fails afterwards
    loses its line. And with two daily scores of 2^62 the cycle is aborted
    by the rejected query: no line, no reset, no new clock. *)
Lemma runPayoutCycle_journal_counterexample :
  (let s' := Server.runPayoutCycle Sample.production Sample.minedChain
               172800000 Sample.cycleServer in
   filter (fun e => Server.is_call e = true) (Server.effects s')
   = [Server.EndCycleCall ["0xB2"; "0xA1"] [1925000; 925000]]
   /\ Server.writtenBeforeCall (Server.effects s') = Some []
   /\ Server.payouts_log s' = []
   /\ length (Server.pendingAppends s') = 4%nat
   /\ Server.payouts_log (Server.appendDone 0 false s') = []
   /\ length (Server.pendingAppends (Server.appendDone 0 false s')) = 3%nat)
  /\ (let s := Sample.overflowServer in
      let s' := Server.runPayoutCycle Sample.production Sample.minedChain 86400600 s in
      Server.effects s' = []
      /\ Server.pendingAppends s' = []
      /\ Server.db s' = Server.db s
      /\ Server.lastPayoutAt s' = Server.lastPayoutAt s
      /\ Server.nextPayoutAt s' = Server.nextPayoutAt s).
Proof. repeat split; vm_compute; reflexivity. Qed.

(** * Further properties of the database *)

(** X1: the stats [updatePlayerStats] returns are what [getPlayerStats]
    reads back afterwards; the rows of all other players, the daily table
    and the fee journal are left as they were. *)
Theorem updatePlayerStats_reads_back
    (now : Z) (w w' : string) (sc : Z) (d : Database.t) :
  let out := Database.updatePlayerStats now w sc d in
  Database.getPlayerStats w out.1 = Some out.2
  /\ Database.wallet out.2 = w
  /\ Database.lastPlayed out.2 = now
  /\ (w' <> w -> Database.getPlayerStats w' out.1 = Database.getPlayerStats w' d)
  /\ Database.daily_player_stats out.1 = Database.daily_player_stats d
  /\ Database.entry_fees out.1 = Database.entry_fees d.
Proof.
  cbv zeta. split; [apply getPlayerStats_update|]. repeat split.
  intros Hne. unfold Database.getPlayerStats, Database.updatePlayerStats. cbn.
  by rewrite lookup_insert_ne.
Qed.

Lemma updatePlayerStats_reads_back_witness :
  let out := Database.updatePlayerStats 50 "0xA1" 7 Sample.sampleDaily in
  Database.getPlayerStats "0xA1" out.1
  = Some {| Database.wallet := "0xA1"; Database.totalScore := 7;
            Database.highScore := 7; Database.gamesPlayed := 1;
            Database.lastPlayed := 50 |}
  /\ Database.getPlayerStats "0xB2" out.1 = None.
Proof.
  destruct (updatePlayerStats_reads_back 50 "0xA1" "0xB2" 7 Sample.sampleDaily)
    as (H1 & _ & _ & H4 & _).
  split; [rewrite H1; reflexivity|].
  rewrite H4; [reflexivity | discriminate].
Defined.

Lemma getDailyPlayerStats_update now w sc d :
  Database.getDailyPlayerStats w (Database.updateDailyPlayerStats now w sc d).1
  = Some (Database.updateDailyPlayerStats now w sc d).2.
Proof.
  unfold Database.getDailyPlayerStats, Database.updateDailyPlayerStats. cbn.
  by rewrite lookup_insert_eq.
Qed.

Lemma submitAllDaily_from (w : string) (subs : list (Z * Z)) (d : Database.t) :
  subs <> [] ->
  exists st,
    Database.getDailyPlayerStats w (submitAllDaily w subs d) = Some st
    /\ Database.totalScoreDaily st
       = opt_or (Database.getDailyPlayerStats w d) Database.totalScoreDaily 0
         + Database.sumZ subs.*2
    /\ (forall m, maximum subs.*2 = Some m ->
        Database.highScoreDaily st
        = Z.max (opt_or (Database.getDailyPlayerStats w d) Database.highScoreDaily 0) m)
    /\ Database.gamesPlayedDaily st
       = opt_or (Database.getDailyPlayerStats w d) Database.gamesPlayedDaily 0
         + Z.of_nat (length subs).
Proof.
  revert d. induction subs as [|[now sc] subs IH]; intros d Hne; [done|].
  destruct subs as [|ns subs].
  - eexists. cbn -[Database.updateDailyPlayerStats].
    split; [apply getDailyPlayerStats_update|].
    cbn. repeat split; try lia. intros m [= <-]. done.
  - destruct (IH (Database.updateDailyPlayerStats now w sc d).1)
      as (st & Hst & Ht & Hh & Hg); [done|].
    exists st. split; [exact Hst|].
    rewrite getDailyPlayerStats_update, !opt_or_Some in Ht, Hh, Hg.
    cbn [Database.updateDailyPlayerStats snd Database.totalScoreDaily
         Database.highScoreDaily Database.gamesPlayedDaily] in Ht, Hh, Hg.
    repeat split.
    + rewrite Ht. cbn. lia.
    + intros m Hm. rewrite fmap_cons, maximum_cons in Hm.
      destruct (maximum (ns :: subs).*2) as [m'|] eqn:Hm'; [|done].
      injection Hm as <-. rewrite (Hh m' eq_refl). cbn [snd]. lia.
    + rewrite Hg. cbn [length]. lia.
Qed.

Lemma submitAllDaily_exact (w : string) (subs : list (Z * Z)) (d : Database.t) :
  let t0 := opt_or (Database.getDailyPlayerStats w d) Database.totalScoreDaily 0 in
  let g0 := opt_or (Database.getDailyPlayerStats w d) Database.gamesPlayedDaily 0 in
  Forall (fun total => Z.abs total <= 2 ^ 53) (Ieee.runningTotals t0 subs.*2) ->
  0 <= g0 -> g0 + Z.of_nat (length subs) <= 2 ^ 53 ->
  Ieee.submitAllDaily w subs d = submitAllDaily w subs d.
Proof.
  revert d. induction subs as [|[now sc] subs IH]; intros d t0 g0 Ht Hg0 Hg; [done|].
  cbn [fmap list_fmap snd Ieee.runningTotals] in Ht.
  apply Forall_cons in Ht as [Ht1 Ht].
  cbn [length] in Hg.
  unfold Ieee.submitAllDaily, submitAllDaily. cbn [foldl fst snd].
  rewrite updateDailyPlayerStats_exact by (fold t0 g0; lia).
  apply IH; rewrite getDailyPlayerStats_update, !opt_or_Some;
    cbn [Database.updateDailyPlayerStats snd Database.totalScoreDaily
         Database.gamesPlayedDaily];
    fold t0 g0; [exact Ht | lia | lia].
Qed.

(** X2: after [resetDailyStats], N >= 1 daily updates with integer scores
    s1..sN whose running totals, and N, stay within 2^53 leave the player's
    daily row with total s1 + ... + sN, N games and high score
    max(0, s1, ..., sN), whether or not the player had a daily row before
    the reset: a zeroed row counts like a missing one. Beyond 2^53 the
    total is rounded: after 2^53, a score of 1 adds nothing. *)
Theorem daily_stats_since_reset
    (w : string) (subs : list (Z * Z)) (d : Database.t) :
  subs <> [] ->
  Ieee.exact subs.*2 ->
  (exists st m,
     Database.getDailyPlayerStats w
       (Ieee.submitAllDaily w subs (Database.resetDailyStats d)) = Some st
     /\ maximum subs.*2 = Some m
     /\ Database.totalScoreDaily st = Database.sumZ subs.*2
     /\ Database.gamesPlayedDaily st = Z.of_nat (length subs)
     /\ Database.highScoreDaily st = Z.max 0 m)
  /\ Database.totalScoreDaily <$>
       Database.getDailyPlayerStats w
         (Ieee.submitAllDaily w [(0, 2 ^ 53); (0, 1)] (Database.resetDailyStats d))
     = Some (2 ^ 53).
Proof.
  intros Hne [Htot Hlen]. rewrite length_fmap in Hlen.
  assert (Hz : forall f,
    (f = Database.totalScoreDaily \/ f = Database.highScoreDaily
     \/ f = Database.gamesPlayedDaily) ->
    opt_or (Database.getDailyPlayerStats w (Database.resetDailyStats d)) f 0 = 0).
  { intros f Hf. unfold Database.getDailyPlayerStats, Database.resetDailyStats.
    cbn. rewrite lookup_fmap.
    destruct (Database.daily_player_stats d !! w); cbn; [|done].
    by destruct Hf as [-> | [-> | ->]]. }
  split.
  - rewrite submitAllDaily_exact; rewrite ?Hz by tauto; [|done|lia|lia].
    destruct (submitAllDaily_from w subs (Database.resetDailyStats d) Hne)
      as (st & Hst & Ht & Hh & Hg).
    rewrite Hz in Ht, Hh, Hg by tauto.
    destruct (maximum subs.*2) as [m|] eqn:Hm.
    2:{ destruct subs; [done | discriminate Hm]. }
    exists st, m. repeat split; try done; try lia. by apply Hh.
  - unfold Ieee.submitAllDaily. cbn [foldl fst snd].
    unfold Ieee.updateDailyPlayerStats at 1.
    unfold Database.getDailyPlayerStats at 1. cbn [fst Database.daily_player_stats].
    rewrite lookup_insert_eq. cbn [fmap option_fmap option_map Database.totalScoreDaily].
    unfold Database.getDailyPlayerStats at 1.
    unfold Ieee.updateDailyPlayerStats at 1. cbn [fst Database.daily_player_stats].
    rewrite lookup_insert_eq. rewrite opt_or_Some. cbn [Database.totalScoreDaily].
    rewrite (Hz Database.totalScoreDaily) by tauto.
    vm_compute. reflexivity.
Qed.

Lemma daily_stats_since_reset_witness :
  Ieee.exact [3; 8]
  /\ (exists st m,
        Database.getDailyPlayerStats "0xA1"
          (Ieee.submitAllDaily "0xA1" [(10, 3); (20, 8)]
             (Database.resetDailyStats Sample.sampleDaily)) = Some st
        /\ maximum [3; 8] = Some m
        /\ Database.totalScoreDaily st = 11
        /\ Database.gamesPlayedDaily st = 2
        /\ Database.highScoreDaily st = Z.max 0 m)
  /\ Database.totalScoreDaily <$>
       Database.getDailyPlayerStats "0xA1"
         (Ieee.submitAllDaily "0xA1" [(0, 2 ^ 53); (0, 1)]
            (Database.resetDailyStats Sample.sampleDaily))
     = Some (2 ^ 53).
Proof.
  assert (He : Ieee.exact [3; 8]).
  { split; [|cbn; lia]. cbn. repeat constructor; lia. }
  split; [exact He|].
  apply (daily_stats_since_reset "0xA1" [(10, 3); (20, 8)] Sample.sampleDaily).
  - discriminate.
  - exact He.
Defined.

(** ** Leaderboards *)

Section ranking.
Context {R : Type} (sc : R -> Z) (Rel : relation (string * R)).
Context `{!forall a b, Decision (Rel a b)}.
Context (HRel : forall a b, Rel a b <-> sc b.2 <= sc a.2).
Context (mk : nat -> string * R -> Database.LeaderboardEntry).
Context (Hwallet : forall i kr, Database.e_wallet (mk i kr) = kr.1).
Context (Hscore : forall i kr, Database.score (mk i kr) = sc kr.2).
Context (l : list (string * R)) (Hnd : NoDup l.*1) (limit : nat).

#[local] Instance Rel_trans : Transitive Rel.
Proof. intros a b c. rewrite !HRel. lia. Qed.

#[local] Instance Rel_total : Total Rel.
Proof. intros a b. rewrite !HRel. lia. Qed.

Lemma board_length :
  length (imap mk (take limit (merge_sort Rel l))) = Nat.min limit (length l).
Proof. by rewrite length_imap, length_take, merge_sort_Permutation. Qed.

Lemma board_wallets :
  Database.e_wallet <$> imap mk (take limit (merge_sort Rel l))
  = (take limit (merge_sort Rel l)).*1.
Proof.
  rewrite fmap_imap, <- imap_const. apply imap_ext. intros i kr _. apply Hwallet.
Qed.

Lemma board_NoDup :
  NoDup (Database.e_wallet <$> imap mk (take limit (merge_sort Rel l))).
Proof.
  rewrite board_wallets. eapply sublist_NoDup; [|apply fmap_sublist, sublist_take].
  by rewrite merge_sort_Permutation.
Qed.

Lemma board_lookup i e :
  imap mk (take limit (merge_sort Rel l)) !! i = Some e ->
  exists kr, take limit (merge_sort Rel l) !! i = Some kr /\ kr ∈ l /\ e = mk i kr.
Proof.
  rewrite list_lookup_imap.
  destruct (take limit (merge_sort Rel l) !! i) as [kr|] eqn:E; [|done].
  intros [= <-]. exists kr. split; [done|]. split; [|done].
  apply list_elem_of_lookup_2, subseteq_take in E.
  by rewrite merge_sort_Permutation in E.
Qed.

Lemma board_sorted i j ei ej :
  (i <= j)%nat ->
  imap mk (take limit (merge_sort Rel l)) !! i = Some ei ->
  imap mk (take limit (merge_sort Rel l)) !! j = Some ej ->
  Database.score ej <= Database.score ei.
Proof.
  intros Hij (ki & Hi & _ & ->)%board_lookup (kj & Hj & _ & ->)%board_lookup.
  rewrite !Hscore. apply HRel.
  destruct (decide (i = j)) as [->|Hne].
  { rewrite Hi in Hj. injection Hj as <-. apply HRel. lia. }
  apply lookup_take_Some in Hi as [Hi _]. apply lookup_take_Some in Hj as [Hj _].
  assert (StronglySorted Rel (merge_sort Rel l)) as Hs
    by (apply StronglySorted_merge_sort; apply _).
  rewrite <- (take_drop j (merge_sort Rel l)) in Hs.
  eapply StronglySorted_app_1_elem_of; [exact Hs | |].
  - apply elem_of_take. exists i. split; [done | lia].
  - apply list_elem_of_lookup. exists 0%nat. by rewrite lookup_drop, Nat.add_0_r.
Qed.

Lemma board_top kr e :
  kr ∈ l ->
  kr.1 ∉ Database.e_wallet <$> imap mk (take limit (merge_sort Rel l)) ->
  e ∈ imap mk (take limit (merge_sort Rel l)) ->
  sc kr.2 <= Database.score e.
Proof.
  intros Hin Hnot He. rewrite board_wallets in Hnot.
  apply list_elem_of_lookup in He as (i & He).
  apply board_lookup in He as (ke & Hke & _ & ->). rewrite Hscore.
  apply HRel.
  assert (StronglySorted Rel (merge_sort Rel l)) as Hs
    by (apply StronglySorted_merge_sort; apply _).
  rewrite <- (take_drop limit (merge_sort Rel l)) in Hs.
  eapply StronglySorted_app_1_elem_of; [exact Hs | |].
  - by apply list_elem_of_lookup_2 in Hke.
  - assert (kr ∈ merge_sort Rel l) as HT by (by rewrite merge_sort_Permutation).
    rewrite <- (take_drop limit (merge_sort Rel l)) in HT.
    apply elem_of_app in HT as [HT|HT]; [|done].
    exfalso. apply Hnot, list_elem_of_fmap. by exists kr.
Qed.

End ranking.

Lemma elem_of_lifetime_selected ty d (kr : string * Database.StatsRow) :
  kr ∈ Lifetime.selected ty d
  <-> Database.player_stats d !! kr.1 = Some kr.2
      /\ 0 < Lifetime.scoreColumn ty kr.2.
Proof.
  unfold Lifetime.selected. rewrite list_elem_of_filter.
  destruct kr as [k r]. rewrite elem_of_map_to_list. cbn. tauto.
Qed.

Lemma NoDup_lifetime_selected ty d : NoDup (Lifetime.selected ty d).*1.
Proof.
  eapply sublist_NoDup; [apply (NoDup_fst_map_to_list (Database.player_stats d))|].
  unfold Lifetime.selected. apply fmap_sublist, sublist_filter.
Qed.

(** X3: the lifetime leaderboard holds min(limit, number of players with a
    positive score) entries, no wallet twice, ranked 1, 2, 3, ... in order;
    every entry copies the row of a player whose score is positive; scores
    do not increase down the list; and a player with a positive score who is
    not listed scores no more than any listed one. *)
Theorem getLeaderboard_ranked
    (ty : Database.ScoreType) (limit : nat) (d : Database.t) :
  let L := Lifetime.getLeaderboard ty limit d in
  length L = Nat.min limit (length (Lifetime.selected ty d))
  /\ NoDup (Database.e_wallet <$> L)
  /\ (forall i e, L !! i = Some e ->
      Database.rank e = S i
      /\ exists row,
           Database.player_stats d !! Database.e_wallet e = Some row
           /\ Database.score e = Lifetime.scoreColumn ty row
           /\ 0 < Database.score e
           /\ Database.e_gamesPlayed e = Database.games_played row
           /\ Database.e_lastPlayed e = Database.last_played row)
  /\ (forall i j ei ej, (i <= j)%nat ->
      L !! i = Some ei -> L !! j = Some ej ->
      Database.score ej <= Database.score ei)
  /\ (forall w row e,
      Database.player_stats d !! w = Some row ->
      0 < Lifetime.scoreColumn ty row ->
      w ∉ Database.e_wallet <$> L -> e ∈ L ->
      Lifetime.scoreColumn ty row <= Database.score e).
Proof.
  intros L. subst L. unfold Lifetime.getLeaderboard, Lifetime.ranked.
  assert (HRel : forall a b : string * Database.StatsRow,
             Lifetime.score_desc ty a b
             <-> Lifetime.scoreColumn ty b.2 <= Lifetime.scoreColumn ty a.2)
    by done.
  split; [apply board_length|].
  split; [apply board_NoDup; [done | apply NoDup_lifetime_selected]|].
  split; [|split].
  - intros i e (kr & _ & Hin & ->)%board_lookup.
    apply elem_of_lifetime_selected in Hin as [Hrow Hpos].
    split; [done|]. exists kr.2. done.
  - intros i j ei ej.
    apply (board_sorted (Lifetime.scoreColumn ty) _ HRel (Lifetime.toEntry ty) (fun _ _ => eq_refl)).
  - intros w row e Hrow Hpos Hnot He.
    apply (board_top (Lifetime.scoreColumn ty) _ HRel (Lifetime.toEntry ty) (fun _ _ => eq_refl)
             (fun _ _ => eq_refl) (Lifetime.selected ty d) limit (w, row) e); try done.
    by apply elem_of_lifetime_selected.
Qed.

Lemma getLeaderboard_ranked_witness :
  let L := Lifetime.getLeaderboard Database.Total 10 Sample2.boardDb in
  Database.e_wallet <$> L = ["0xB2"; "0xA1"]
  /\ length L = 2%nat
  /\ (forall i e, L !! i = Some e -> Database.rank e = S i).
Proof.
  destruct (getLeaderboard_ranked Database.Total 10 Sample2.boardDb)
    as (Hlen & _ & Hrank & _).
  split; [vm_compute; reflexivity|]. split.
  - rewrite Hlen. vm_compute. reflexivity.
  - intros i e He. by destruct (Hrank i e He).
Defined.

(** X4: the daily leaderboard, for either score column and any limit, has
    the same shape: min(limit, number of players with a positive daily
    score) entries, no wallet twice, ranks 1, 2, 3, ..., each entry the daily
    row of a player with a positive score, scores not increasing down the
    list, and nobody left out who scores more than a listed player. *)
Theorem getDailyLeaderboard_ranked
    (ty : Database.ScoreType) (limit : nat) (d : Database.t) :
  let L := Database.getDailyLeaderboard ty limit d in
  length L = Nat.min limit (length (Database.dailySelected ty d))
  /\ NoDup (Database.e_wallet <$> L)
  /\ (forall i e, L !! i = Some e ->
      Database.rank e = S i
      /\ exists row,
           Database.daily_player_stats d !! Database.e_wallet e = Some row
           /\ Database.score e = Database.scoreColumn ty row
           /\ 0 < Database.score e
           /\ Database.e_gamesPlayed e = Database.games_played_daily row
           /\ Database.e_lastPlayed e = Database.last_played_daily row)
  /\ (forall i j ei ej, (i <= j)%nat ->
      L !! i = Some ei -> L !! j = Some ej ->
      Database.score ej <= Database.score ei)
  /\ (forall w row e,
      Database.daily_player_stats d !! w = Some row ->
      0 < Database.scoreColumn ty row ->
      w ∉ Database.e_wallet <$> L -> e ∈ L ->
      Database.scoreColumn ty row <= Database.score e).
Proof.
  intros L. subst L. unfold Database.getDailyLeaderboard, Database.dailyRanked.
  assert (HRel : forall a b : string * Database.DailyRow,
             Database.score_desc ty a b
             <-> Database.scoreColumn ty b.2 <= Database.scoreColumn ty a.2)
    by done.
  split; [apply board_length|].
  split; [apply board_NoDup; [done | apply NoDup_dailySelected]|].
  split; [|split].
  - intros i e (kr & _ & Hin & ->)%board_lookup.
    apply elem_of_dailySelected in Hin as [Hrow Hpos].
    split; [done|]. exists kr.2. done.
  - intros i j ei ej.
    apply (board_sorted (Database.scoreColumn ty) _ HRel (Database.toEntry ty) (fun _ _ => eq_refl)).
  - intros w row e Hrow Hpos Hnot He.
    apply (board_top (Database.scoreColumn ty) _ HRel (Database.toEntry ty) (fun _ _ => eq_refl)
             (fun _ _ => eq_refl) (Database.dailySelected ty d) limit (w, row) e); try done.
    by apply elem_of_dailySelected.
Qed.

Lemma getDailyLeaderboard_ranked_witness :
  let L := Database.getDailyLeaderboard Database.High 1 Sample.cycleDb in
  Database.e_wallet <$> L = ["0xB2"]
  /\ length L = 1%nat
  /\ (forall e, e ∈ L -> 10 <= Database.score e).
Proof.
  destruct (getDailyLeaderboard_ranked Database.High 1 Sample.cycleDb)
    as (Hlen & _ & _ & _ & Htop).
  split; [vm_compute; reflexivity|]. split.
  - rewrite Hlen. vm_compute. reflexivity.
  - intros e He.
    apply (Htop "0xA1" {| Database.total_score_daily := 10;
                          Database.high_score_daily := 10;
                          Database.games_played_daily := 1;
                          Database.last_played_daily := 86400400 |} e);
      [reflexivity | cbn; lia | | exact He].
    vm_compute. intros H. apply list_elem_of_singleton in H. discriminate H.
Defined.

(** ** The player count *)

(** X5: [updatePlayerStats] never lowers [getTotalPlayers]; it raises it by
    one for a player without a row and leaves it unchanged for a player who
    is already counted. *)
Theorem getTotalPlayers_update (now : Z) (w : string) (sc : Z) (d : Database.t) :
  let d' := (Database.updatePlayerStats now w sc d).1 in
  (Lifetime.getTotalPlayers d <= Lifetime.getTotalPlayers d')%nat
  /\ (Database.player_stats d !! w = None ->
      Lifetime.getTotalPlayers d' = S (Lifetime.getTotalPlayers d))
  /\ (forall row, Database.player_stats d !! w = Some row ->
      0 < Database.games_played row ->
      Lifetime.getTotalPlayers d' = Lifetime.getTotalPlayers d).
Proof.
  cbv zeta. unfold Lifetime.getTotalPlayers, Database.updatePlayerStats,
    Database.getPlayerStats.
  cbn [fst Database.player_stats].
  set (P := fun kr : string * Database.StatsRow => 0 < Database.games_played kr.2).
  set (m := Database.player_stats d).
  rewrite map_filter_insert.
  destruct (m !! w) as [row|] eqn:Hw;
    cbn [opt_or Database.gamesPlayed Database.totalScore Database.highScore].
  - rewrite !js_or_0.
    destruct (decide (0 < Database.games_played row)) as [Hpos|Hneg].
    + rewrite decide_True by (unfold P; cbn; lia).
      assert (filter P m !! w = Some row) as Hf
        by (by apply map_lookup_filter_Some).
      rewrite map_size_insert_Some by eauto.
      split; [lia|]. split; [done|]. done.
    + assert (filter P m !! w = None) as Hf.
      { apply map_lookup_filter_None. right. intros x Hx Hp.
        rewrite Hw in Hx. injection Hx as <-. by apply Hneg. }
      split; [|split; [done|]].
      * case_decide.
        -- rewrite map_size_insert_None by done. lia.
        -- rewrite map_filter_delete, delete_id by done. lia.
      * intros row' [= <-] Hpos. done.
  - rewrite decide_True by (unfold P; cbn; lia).
    assert (filter P m !! w = None) as Hf.
    { apply map_lookup_filter_None. by left. }
    rewrite map_size_insert_None by done.
    split; [lia|]. split; [done|]. done.
Qed.

Lemma getTotalPlayers_update_witness :
  Lifetime.getTotalPlayers Sample2.boardDb = 3%nat
  /\ Lifetime.getTotalPlayers
       (Database.updatePlayerStats 9 "0xD4" 0 Sample2.boardDb).1 = 4%nat
  /\ Lifetime.getTotalPlayers
       (Database.updatePlayerStats 9 "0xA1" 3 Sample2.boardDb).1 = 3%nat.
Proof.
  assert (Lifetime.getTotalPlayers Sample2.boardDb = 3%nat) as H3
    by (vm_compute; reflexivity).
  split; [exact H3|]. split.
  - destruct (getTotalPlayers_update 9 "0xD4" 0 Sample2.boardDb) as (_ & H & _).
    rewrite H; [by rewrite H3 | reflexivity].
  - destruct (getTotalPlayers_update 9 "0xA1" 3 Sample2.boardDb) as (_ & _ & H).
    rewrite (H {| Database.total_score := 10; Database.high_score := 10;
                  Database.games_played := 1; Database.last_played := 1 |});
      [exact H3 | reflexivity | cbn; lia].
Defined.

(** ** The fee journal *)

Lemma js_orQ_0 (x : Q) : (js_orQ x 0 == x)%Q.
Proof.
  unfold js_orQ. destruct (Qeq_bool x 0) eqn:E; [|reflexivity].
  apply Qeq_bool_iff in E. by rewrite E.
Qed.

Lemma sumQ_app (l1 l2 : list Q) :
  (Database.sumQ (l1 ++ l2) == Database.sumQ l1 + Database.sumQ l2)%Q.
Proof.
  unfold Database.sumQ. induction l1 as [|x l1 IH]; cbn [app foldr].
  - ring.
  - rewrite IH. ring.
Qed.

(** X6: [recordEntryFee] appends one record and touches nothing else; a fee
    recorded at time [now] raises [getTotalEntryFeesSince cutoff] by its
    amount when [cutoff <= now] and leaves it unchanged when [cutoff] is
    later. *)
Theorem recordEntryFee_counted
    (now cutoff : Z) (amt : Q) (w : option string) (d : Database.t) :
  let d' := Database.recordEntryFee now amt w d in
  (exists r, Database.entry_fees d' = Database.entry_fees d ++ [r]
             /\ Database.amount r = amt /\ Database.timestamp r = now)
  /\ Database.player_stats d' = Database.player_stats d
  /\ Database.daily_player_stats d' = Database.daily_player_stats d
  /\ (cutoff <= now ->
      (Database.getTotalEntryFeesSince cutoff d'
       == Database.getTotalEntryFeesSince cutoff d + amt)%Q)
  /\ (now < cutoff ->
      (Database.getTotalEntryFeesSince cutoff d'
       == Database.getTotalEntryFeesSince cutoff d)%Q).
Proof.
  cbv zeta. split; [eexists; split; [reflexivity | done]|].
  split; [done|]. split; [done|].
  unfold Database.getTotalEntryFeesSince, Database.recordEntryFee.
  cbn [Database.entry_fees]. rewrite !js_orQ_0, filter_app, fmap_app, sumQ_app.
  split; intros H.
  - rewrite filter_cons_True by (cbn; lia). cbn. ring.
  - rewrite filter_cons_False by (cbn; lia). cbn. ring.
Qed.

Lemma recordEntryFee_counted_witness :
  (Database.getTotalEntryFeesSince 86400000
     (Database.recordEntryFee 86400900 (1 # 2) None Sample.cycleDb)
   == Database.getTotalEntryFeesSince 86400000 Sample.cycleDb + (1 # 2))%Q
  /\ (Database.getTotalEntryFeesSince 86400000 Sample.cycleDb == 3)%Q.
Proof.
  destruct (recordEntryFee_counted 86400900 86400000 (1 # 2) None Sample.cycleDb)
    as (_ & _ & _ & H & _).
  split; [apply H; lia | vm_compute; reflexivity].
Defined.

(** ** Removing players *)

Lemma removePlayers_fold (ws acc : list string) (d : Database.t) :
  foldl (fun a w => (Removal.removePlayer w a.1, a.2 ++ [w])) (d, acc) ws
  = (foldl (fun d' w => Removal.removePlayer w d') d ws, acc ++ ws).
Proof.
  revert d acc. induction ws as [|w ws IH]; intros d acc; cbn.
  - by rewrite app_nil_r.
  - rewrite IH. by rewrite <- app_assoc.
Qed.

Lemma removeAll_tables (ws : list string) (d : Database.t) (w : string) :
  let d' := foldl (fun d' x => Removal.removePlayer x d') d ws in
  Database.player_stats d' !! w
  = (if decide (w ∈ ws) then None else Database.player_stats d !! w)
  /\ Database.daily_player_stats d' !! w
     = (if decide (w ∈ ws) then None else Database.daily_player_stats d !! w)
  /\ Database.entry_fees d' = Database.entry_fees d.
Proof.
  cbv zeta. revert d. induction ws as [|x ws IH]; intros d.
  - cbn. rewrite !decide_False by apply not_elem_of_nil. done.
  - cbn [foldl]. destruct (IH (Removal.removePlayer x d)) as (H1 & H2 & H3).
    rewrite H1, H2, H3. cbn [Removal.removePlayer Database.player_stats
      Database.daily_player_stats Database.entry_fees].
    destruct (decide (w ∈ ws)) as [Hin|Hin].
    + rewrite !decide_True by (apply elem_of_cons; tauto). done.
    + destruct (decide (w = x)) as [->|Hne].
      * rewrite !decide_True by (apply elem_of_cons; tauto).
        by rewrite !lookup_delete_eq.
      * rewrite !decide_False by (rewrite elem_of_cons; tauto).
        by rewrite !lookup_delete_ne.
Qed.

(** X7: [removePlayers] reports every wallet it was given, in order, whether
    or not the player existed; afterwards none of them has a lifetime or a
    daily row, every other player's rows are as before, and the fee journal
    is untouched. *)
Theorem removePlayers_effect (ws : list string) (d : Database.t) (w : string) :
  let out := Removal.removePlayers ws d in
  out.2 = ws
  /\ Database.entry_fees out.1 = Database.entry_fees d
  /\ (w ∈ ws ->
      Database.getPlayerStats w out.1 = None
      /\ Database.getDailyPlayerStats w out.1 = None)
  /\ (w ∉ ws ->
      Database.getPlayerStats w out.1 = Database.getPlayerStats w d
      /\ Database.getDailyPlayerStats w out.1 = Database.getDailyPlayerStats w d).
Proof.
  cbv zeta. unfold Removal.removePlayers. rewrite removePlayers_fold. cbn [fst snd app].
  destruct (removeAll_tables ws d w) as (H1 & H2 & H3).
  split; [done|]. split; [done|].
  unfold Database.getPlayerStats, Database.getDailyPlayerStats.
  rewrite H1, H2. split; intros Hw.
  - by rewrite !decide_True by done.
  - by rewrite !decide_False by done.
Qed.

Lemma removePlayers_effect_witness :
  let out := Removal.removePlayers ["0xB2"; "0xZZ"] Sample2.boardDb in
  out.2 = ["0xB2"; "0xZZ"]
  /\ Database.getPlayerStats "0xB2" out.1 = None
  /\ Database.getPlayerStats "0xA1" out.1
     = Database.getPlayerStats "0xA1" Sample2.boardDb.
Proof.
  destruct (removePlayers_effect ["0xB2"; "0xZZ"] Sample2.boardDb "0xB2")
    as (H1 & _ & H3 & _).
  destruct (removePlayers_effect ["0xB2"; "0xZZ"] Sample2.boardDb "0xA1")
    as (_ & _ & _ & H4).
  split; [exact H1|]. split.
  - apply H3. by left.
  - apply H4. intros H. apply elem_of_cons in H as [H|H]; [discriminate H|].
    apply list_elem_of_singleton in H. discriminate H.
Defined.

(** X8: [removeTopPlayers n] removes exactly the players that the lifetime
    total-score leaderboard of length [n] lists, in that order: min(n, number
    of players with a positive total) of them. Each of them loses both rows,
    everybody else keeps theirs, and nobody who stays has a higher total than
    somebody who was removed. *)
Theorem removeTopPlayers_effect (n : nat) (d : Database.t) (w : string) :
  let out := Removal.removeTopPlayers n d in
  out.2 = Database.e_wallet <$> Lifetime.getLeaderboard Database.Total n d
  /\ length out.2 = Nat.min n (length (Lifetime.selected Database.Total d))
  /\ (w ∈ out.2 ->
      Database.getPlayerStats w out.1 = None
      /\ Database.getDailyPlayerStats w out.1 = None)
  /\ (w ∉ out.2 ->
      Database.getPlayerStats w out.1 = Database.getPlayerStats w d
      /\ Database.getDailyPlayerStats w out.1 = Database.getDailyPlayerStats w d)
  /\ (forall st w' st',
      Database.getPlayerStats w out.1 = Some st ->
      w' ∈ out.2 -> Database.getPlayerStats w' d = Some st' ->
      Database.totalScore st <= Database.totalScore st').
Proof.
  cbv zeta. unfold Removal.removeTopPlayers.
  set (ws := (Lifetime.ranked Database.Total n d).*1).
  assert (Hws : ws = Database.e_wallet <$> Lifetime.getLeaderboard Database.Total n d).
  { subst ws. unfold Lifetime.getLeaderboard, Lifetime.ranked.
    symmetry. apply board_wallets. done. }
  unfold Removal.removePlayers. rewrite removePlayers_fold. cbn [fst snd app].
  destruct (removeAll_tables ws d w) as (H1 & H2 & _).
  split; [exact Hws|]. split.
  { subst ws. rewrite length_fmap. unfold Lifetime.ranked.
    by rewrite length_take, merge_sort_Permutation. }
  unfold Database.getPlayerStats, Database.getDailyPlayerStats.
  rewrite H1, H2. split; [|split].
  - intros Hw. by rewrite !decide_True by done.
  - intros Hw. by rewrite !decide_False by done.
  - intros st w' st' Hst Hw' Hst'.
    destruct (decide (w ∈ ws)) as [|Hnot]; [done|].
    destruct (Database.player_stats d !! w) as [row|] eqn:Hrow; [|done].
    injection Hst as <-. cbn.
    destruct (Database.player_stats d !! w') as [row'|] eqn:Hrow'; [|done].
    injection Hst' as <-. cbn.
    rewrite Hws in Hw', Hnot.
    apply list_elem_of_fmap in Hw' as (e & -> & He).
    assert (Database.score e = Database.total_score row' /\ 0 < Database.score e)
      as [Hsc Hpos].
    { apply list_elem_of_lookup in He as (i & He).
      unfold Lifetime.getLeaderboard, Lifetime.ranked in He.
      apply board_lookup in He as (kr & _ & Hin & ->).
      apply elem_of_lifetime_selected in Hin as [Hkr Hp]. cbn in *.
      rewrite Hkr in Hrow'. by injection Hrow' as <-. }
    rewrite <- Hsc.
    destruct (decide (0 < Database.total_score row)) as [Hp|Hn]; [|lia].
    unfold Lifetime.getLeaderboard, Lifetime.ranked in He, Hnot.
    apply (board_top (Lifetime.scoreColumn Database.Total) _
             (fun _ _ => reflexivity _) (Lifetime.toEntry Database.Total)
             (fun _ _ => eq_refl) (fun _ _ => eq_refl)
             (Lifetime.selected Database.Total d) n (w, row) e); try done.
    by apply elem_of_lifetime_selected.
Qed.

Lemma removeTopPlayers_effect_witness :
  let out := Removal.removeTopPlayers 1 Sample2.boardDb in
  out.2 = ["0xB2"]
  /\ Database.getPlayerStats "0xB2" out.1 = None
  /\ Database.getPlayerStats "0xC3" out.1
     = Database.getPlayerStats "0xC3" Sample2.boardDb.
Proof.
  assert ((Removal.removeTopPlayers 1 Sample2.boardDb).2 = ["0xB2"]) as Hout
    by (vm_compute; reflexivity).
  destruct (removeTopPlayers_effect 1 Sample2.boardDb "0xB2") as (_ & _ & H3 & _).
  destruct (removeTopPlayers_effect 1 Sample2.boardDb "0xC3") as (_ & _ & _ & H4 & _).
  split; [exact Hout|]. split.
  - apply H3. rewrite Hout. by left.
  - apply H4. rewrite Hout. intros H. apply list_elem_of_singleton in H.
    discriminate H.
Defined.

(** * Further properties of the server *)

(** ** Who may use the admin endpoints *)

Lemma requireAdmin_None (cfg : Server.Config) (token : string) :
  Server.requireAdmin cfg token = None
  <-> exists adm, Server.ADMIN_TOKEN cfg = Some adm /\ adm <> "" /\ token = adm.
Proof.
  unfold Server.requireAdmin.
  destruct (Server.ADMIN_TOKEN cfg) as [adm|]; [|split; [done | by intros (? & ? & _)]].
  cbn [truthy]. destruct (String.eqb_spec adm "") as [->|Hne]; cbn [negb].
  - split; [done|]. intros (a & [= <-] & Ha & _). done.
  - destruct (String.eqb_spec token adm) as [->|Hne'].
    + split; [eauto|done].
    + split; [done|]. intros (a & [= <-] & _ & ->). done.
Qed.

(** X9: the admin endpoints act only for the configured token. A request is
    let through exactly when ADMIN_TOKEN is set, not empty, and equal to the
    token sent; any other request leaves the whole state as it was and is
    answered 503 when ADMIN_TOKEN is unset or empty (so the empty token opens
    nothing) and 401 otherwise. *)
Theorem admin_endpoints_guarded
    (cfg : Server.Config) (chain : Server.Chain) (now : Z) (token : string)
    (wallets : option (list string)) (parsed : option Z) (s : Server.t) :
  (forall adm, Server.ADMIN_TOKEN cfg = Some adm -> adm <> "" -> token <> adm) ->
  let expected := if truthy (Server.ADMIN_TOKEN cfg) then 401 else 503 in
  (Server.admin_run_payout cfg chain now token s).1 = s
  /\ Server.status (Server.admin_run_payout cfg chain now token s).2 = expected
  /\ (Endpoints.admin_remove_players cfg token wallets s).1 = s
  /\ Endpoints.code (Endpoints.admin_remove_players cfg token wallets s).2 = expected
  /\ (Endpoints.admin_remove_top cfg token parsed s).1 = s
  /\ Endpoints.code (Endpoints.admin_remove_top cfg token parsed s).2 = expected.
Proof.
  intros Hbad. cbv zeta.
  unfold Server.admin_run_payout, Endpoints.admin_remove_players,
    Endpoints.admin_remove_top.
  destruct (Server.requireAdmin cfg token) as [r|] eqn:E.
  - assert (Server.status r = if truthy (Server.ADMIN_TOKEN cfg) then 401 else 503)
      as Hst.
    { unfold Server.requireAdmin in E.
      destruct (Server.ADMIN_TOKEN cfg) as [adm|]; [|by injection E as <-].
      destruct (truthy (Some adm)); cbn [negb] in E; [|by injection E as <-].
      destruct (String.eqb token adm); [done | by injection E as <-]. }
    cbn. by rewrite <- Hst.
  - apply requireAdmin_None in E as (adm & Ha & Hne & ->).
    by destruct (Hbad adm Ha Hne).
Qed.

Lemma admin_endpoints_guarded_witness :
  (Server.admin_run_payout Sample.production Sample.revertingChain 500 "guess"
     Sample.cycleServer).1 = Sample.cycleServer
  /\ Server.status
       (Server.admin_run_payout Sample.production Sample.revertingChain 500
          "guess" Sample.cycleServer).2 = 401
  /\ (Endpoints.admin_remove_top Sample.production "guess" (Some 3)
        Sample.cycleServer).1 = Sample.cycleServer.
Proof.
  destruct (admin_endpoints_guarded Sample.production Sample.revertingChain 500
              "guess" None (Some 3) Sample.cycleServer)
    as (H1 & H2 & _ & _ & H4 & _).
  - intros adm [= <-] _. discriminate.
  - split; [exact H1 | split; [exact H2 | exact H4]].
Defined.

(** ** What every request preserves *)

Lemma step_moves (cfg : Server.Config) (now : Z) (r : Endpoints.Request) (s : Server.t) :
  Moves cfg now s (Endpoints.step cfg now r s).
Proof.
  destruct r as [[uuid|tx sid|req|token chain|chain]|token wallets|token parsed
                |i ok|i ok];
    cbn [Endpoints.step Server.handle]; [| | | | | | |apply MFeeDone|apply MAppendDone].
  - cbn. apply MPaid.
  - unfold Server.verify_payment. destruct tx as [h|]; [|apply MStay].
    destruct (negb _); [apply MStay|].
    destruct (Server.SANDBOX_MODE cfg); [apply MPaid|].
    destruct (10 <? _); [apply MPaid | apply MSessions].
  - unfold Server.submit_score.
    destruct (Server.r_sessionId req) as [x|], (Server.r_wallet req) as [w|],
      (Server.r_score req) as [sc|]; try apply MStay.
    destruct (_ || _); [apply MStay|].
    destruct (Server.sessions s !! x) as [g|]; [|apply MStay].
    destruct (Server.isPaid g); [|apply MStay]. cbn. apply MScore.
  - unfold Server.admin_run_payout.
    destruct (Server.requireAdmin cfg token); [apply MStay | apply MCycle].
  - apply MCycle.
  - unfold Endpoints.admin_remove_players.
    destruct (Server.requireAdmin cfg token); [apply MStay|].
    destruct (_ =? _)%nat; [apply MStay|].
    destruct (Removal.removePlayers _ _) as [d' removed] eqn:E.
    cbn. change d' with (fst (d', removed)). rewrite <- E. apply MRemove.
  - unfold Endpoints.admin_remove_top.
    destruct (Server.requireAdmin cfg token); [apply MStay|].
    cbv zeta. destruct (Endpoints.sqlLimit _ _) as [rows|]; [|apply MStay].
    unfold Removal.removeTopPlayers.
    destruct (Removal.removePlayers _ _) as [d' removed] eqn:E.
    cbn. change d' with (fst (d', removed)). rewrite <- E. apply MRemove.
Qed.

Lemma run_invariant (cfg : Server.Config) (Inv : Server.t -> Prop) :
  (forall now s s', Moves cfg now s s' -> Inv s -> Inv s') ->
  forall tr s, Inv s -> Inv (Endpoints.run cfg tr s).
Proof.
  intros Hstep tr. unfold Endpoints.run.
  induction tr as [|[now r] tr IH]; intros s Hs; [done|].
  cbn. apply IH. eapply Hstep; [apply step_moves | done].
Qed.

Lemma recordFeeOnce_cases cfg now sid s :
  Server.recordFeeOnce cfg now sid s = s
  \/ ((sid ∉ Server.recordedFeeSessions s)
      /\ Server.recordFeeOnce cfg now sid s
         = {| Server.sessions := Server.sessions s;
              Server.recordedFeeSessions := Server.recordedFeeSessions s;
              Server.feeInserts := Server.feeInserts s ++
                [{| Server.f_sessionId := sid;
                    Server.f_amount := Server.ENTRY_FEE_NUM cfg;
                    Server.f_timestamp := now |}];
              Server.db := Server.db s;
              Server.lastPayoutAt := Server.lastPayoutAt s;
              Server.nextPayoutAt := Server.nextPayoutAt s;
              Server.lastTxHash := Server.lastTxHash s;
              Server.lastTxLink := Server.lastTxLink s;
              Server.pendingAppends := Server.pendingAppends s;
              Server.effects := Server.effects s |}).
Proof. unfold Server.recordFeeOnce. case_decide; [by left | by right]. Qed.




(** X10: from the start of the process on, whatever requests are served,
    the next payout time is the last one plus 24 hours and the transaction
    link on display is the explorer link of the transaction hash on display
    (both absent until a settlement has been mined). *)
Theorem payout_clock_invariant
    (cfg : Server.Config) (t0 : Z) (d : Database.t)
    (tr : list (Z * Endpoints.Request)) :
  let s := Endpoints.run cfg tr (Server.init t0 d) in
  Server.nextPayoutAt s = Server.lastPayoutAt s + Server.DAY_MS
  /\ Server.lastTxLink s = Server.buildExplorerTxLink cfg (Server.lastTxHash s)
  /\ Endpoints.get_payouts_status s
     = {| Endpoints.code := 200;
          Endpoints.reply :=
            Endpoints.StatusReply (Server.lastPayoutAt s)
              (Server.lastPayoutAt s + Server.DAY_MS) (Server.lastTxHash s)
              (Server.buildExplorerTxLink cfg (Server.lastTxHash s)) |}.
Proof.
  cbv zeta.
  assert (Server.nextPayoutAt (Endpoints.run cfg tr (Server.init t0 d))
          = Server.lastPayoutAt (Endpoints.run cfg tr (Server.init t0 d))
            + Server.DAY_MS
          /\ Server.lastTxLink (Endpoints.run cfg tr (Server.init t0 d))
             = Server.buildExplorerTxLink cfg
                 (Server.lastTxHash (Endpoints.run cfg tr (Server.init t0 d))))
    as [H1 H2].
  { apply (run_invariant cfg (fun s =>
      Server.nextPayoutAt s = Server.lastPayoutAt s + Server.DAY_MS
      /\ Server.lastTxLink s = Server.buildExplorerTxLink cfg (Server.lastTxHash s)));
      [|done].
    intros now s s' Hm [Hn Hl].
    destruct Hm as [|m|m sid|m w sc|chain|ws|i ok|i ok]; try done.
    - destruct (recordFeeOnce_cases cfg now sid (Server.with_sessions m s))
        as [->|[_ ->]]; done.
    - destruct (runPayoutCycle_shape cfg chain now s)
        as [[_ ->]|(es & pend & h & l & _ & -> & Htx)]; [done|].
      cbn. split; [done|]. by destruct Htx as [[-> ->]|(x & -> & ->)].
    - unfold Server.feeInsertDone. by destruct (Server.feeInserts s !! i).
    - unfold Server.appendDone. by destruct (Server.pendingAppends s !! i). }
  split; [exact H1|]. split; [exact H2|].
  unfold Endpoints.get_payouts_status. by rewrite H1, H2.
Qed.

Lemma removePlayers_tables (ws : list string) (d : Database.t) (w : string) :
  Database.player_stats (Removal.removePlayers ws d).1 !! w
  = (if decide (w ∈ ws) then None else Database.player_stats d !! w)
  /\ Database.daily_player_stats (Removal.removePlayers ws d).1 !! w
     = (if decide (w ∈ ws) then None else Database.daily_player_stats d !! w)
  /\ Database.entry_fees (Removal.removePlayers ws d).1 = Database.entry_fees d.
Proof.
  unfold Removal.removePlayers. rewrite removePlayers_fold. cbn [fst].
  apply removeAll_tables.
Qed.

(** A cycle leaves the database as it is (aborted) or resets the daily
    table; it never touches the record of who has been charged. *)
Lemma runPayoutCycle_db cfg chain now s :
  (Server.db (Server.runPayoutCycle cfg chain now s) = Server.db s
   \/ Server.db (Server.runPayoutCycle cfg chain now s)
      = Database.resetDailyStats (Server.db s))
  /\ Server.recordedFeeSessions (Server.runPayoutCycle cfg chain now s)
     = Server.recordedFeeSessions s
  /\ Server.feeInserts (Server.runPayoutCycle cfg chain now s)
     = Server.feeInserts s.
Proof.
  destruct (runPayoutCycle_shape cfg chain now s)
    as [[_ ->]|(es & pend & h & l & _ & -> & _)]; cbn; auto.
Qed.

Lemma size_add_le (x : string) (X : gset string) :
  (size ({[x]} ∪ X) <= S (size X))%nat.
Proof.
  destruct (decide (x ∈ X)) as [Hin|Hnot].
  - rewrite (subseteq_union_1_L {[x]} X) by (by apply singleton_subseteq_l). lia.
  - rewrite size_union by (by apply disjoint_singleton_l).
    rewrite size_singleton. lia.
Qed.

(** X11: the fee journal grows only when an insert resolves, by one record
    of the configured entry fee without a wallet, and every session id
    remembered as charged has such a record. A handler never writes the
    journal itself: an accepted payment for a session id that is not yet
    remembered starts an insert, stamped with the time of the request, and
    the id is remembered only when that insert resolves; once it is
    remembered, further payments for it start nothing. So two payments for
    one session served before the first insert has resolved are both
    recorded. *)
Theorem fee_recorded_when_insert_resolves
    (cfg : Server.Config) (t0 : Z) (d : Database.t)
    (tr : list (Z * Endpoints.Request)) :
  let s := Endpoints.run cfg tr (Server.init t0 d) in
  (exists new,
     Database.entry_fees (Server.db s) = Database.entry_fees d ++ new
     /\ (size (Server.recordedFeeSessions s) <= length new)%nat
     /\ Forall (fun r => Database.amount r = Server.ENTRY_FEE_NUM cfg
                         /\ Database.fee_wallet r = None) new)
  /\ Forall (fun f => Server.f_amount f = Server.ENTRY_FEE_NUM cfg)
            (Server.feeInserts s)
  /\ (forall now tx sid,
        let out := Server.verify_payment cfg now tx sid s in
        Server.db out.1 = Server.db s
        /\ Server.recordedFeeSessions out.1 = Server.recordedFeeSessions s
        /\ (sid ∈ Server.recordedFeeSessions s ->
            Server.feeInserts out.1 = Server.feeInserts s)
        /\ (sid ∉ Server.recordedFeeSessions s ->
            Server.status out.2 = 200 ->
            Server.feeInserts out.1
            = Server.feeInserts s
              ++ [{| Server.f_sessionId := sid;
                     Server.f_amount := Server.ENTRY_FEE_NUM cfg;
                     Server.f_timestamp := now |}]))
  /\ (forall i f,
        Server.feeInserts s !! i = Some f ->
        Database.entry_fees (Server.db (Server.feeInsertDone i true s))
        = Database.entry_fees (Server.db s)
          ++ [{| Database.amount := Server.f_amount f;
                 Database.timestamp := Server.f_timestamp f;
                 Database.fee_wallet := None |}]
        /\ Server.recordedFeeSessions (Server.feeInsertDone i true s)
           = {[Server.f_sessionId f]} ∪ Server.recordedFeeSessions s
        /\ Server.db (Server.feeInsertDone i false s) = Server.db s
        /\ Server.recordedFeeSessions (Server.feeInsertDone i false s)
           = Server.recordedFeeSessions s)
  /\ (let s2 := Endpoints.run Sample.production Sample2.payTwiceQuickly Sample.fresh in
      Server.recordedFeeSessions s2 = {["session_1"]}
      /\ Database.timestamp <$> Database.entry_fees (Server.db s2) = [100; 150]).
Proof.
  cbv zeta.
  assert (Hinv :
    (exists new,
       Database.entry_fees (Server.db (Endpoints.run cfg tr (Server.init t0 d)))
       = Database.entry_fees d ++ new
       /\ (size (Server.recordedFeeSessions (Endpoints.run cfg tr (Server.init t0 d)))
           <= length new)%nat
       /\ Forall (fun r => Database.amount r = Server.ENTRY_FEE_NUM cfg
                           /\ Database.fee_wallet r = None) new)
    /\ Forall (fun f => Server.f_amount f = Server.ENTRY_FEE_NUM cfg)
              (Server.feeInserts (Endpoints.run cfg tr (Server.init t0 d)))).
  { apply (run_invariant cfg (fun s =>
      (exists new,
         Database.entry_fees (Server.db s) = Database.entry_fees d ++ new
         /\ (size (Server.recordedFeeSessions s) <= length new)%nat
         /\ Forall (fun r => Database.amount r = Server.ENTRY_FEE_NUM cfg
                             /\ Database.fee_wallet r = None) new)
      /\ Forall (fun f => Server.f_amount f = Server.ENTRY_FEE_NUM cfg)
                (Server.feeInserts s))).
    2:{ split; [|constructor]. exists []. cbn. rewrite app_nil_r.
        split; [done|]. split; [|constructor]. by rewrite size_empty. }
    intros now s s' Hm [(new & Hfees & Hlen & Hall) Hfl].
    destruct Hm as [|m|m sid|m w sc|chain|ws|i ok|i ok].
    - split; [by exists new | done].
    - split; [by exists new | done].
    - destruct (recordFeeOnce_cases cfg now sid (Server.with_sessions m s))
        as [->|[Hnot ->]]; [split; [by exists new | done]|].
      split; [by exists new|]. cbn. apply Forall_app. split; [done|].
      by repeat constructor.
    - split; [by exists new | done].
    - destruct (runPayoutCycle_db cfg chain now s) as ([-> | ->] & -> & ->);
        (split; [by exists new | done]).
    - split; [|done]. exists new. cbn.
      destruct (removePlayers_tables ws (Server.db s) "") as (_ & _ & ->). done.
    - unfold Server.feeInsertDone.
      destruct (Server.feeInserts s !! i) as [f|] eqn:Hf;
        [|split; [by exists new | done]].
      pose proof (Forall_lookup_1 _ _ _ _ Hfl Hf) as Hamt. cbn in Hamt.
      destruct ok; cbn.
      + split; [|by apply Forall_delete].
        eexists (new ++ [_]). rewrite Hfees, <- app_assoc.
        split; [reflexivity|]. split.
        * rewrite length_app. cbn.
          pose proof (size_add_le (Server.f_sessionId f) (Server.recordedFeeSessions s)).
          lia.
        * apply Forall_app. split; [done|]. by repeat constructor.
      + split; [by exists new | by apply Forall_delete].
    - unfold Server.appendDone.
      destruct (Server.pendingAppends s !! i); (split; [by exists new | done]). }
  destruct Hinv as [Hnew Hfl].
  split; [exact Hnew|]. split; [exact Hfl|]. split; [|split].
  - intros now tx sid. unfold Server.verify_payment.
    destruct tx as [h|]; [|done]. destruct (negb _); [done|].
    destruct (Server.SANDBOX_MODE cfg); cbn [fst snd].
    + unfold Server.recordFeeOnce. cbn [Server.recordedFeeSessions Server.with_sessions].
      case_decide; cbn; repeat split; done.
    + destruct (10 <? _); cbn [fst snd]; [|done].
      unfold Server.recordFeeOnce. cbn [Server.recordedFeeSessions Server.with_sessions].
      case_decide; cbn; repeat split; done.
  - intros i f Hf. unfold Server.feeInsertDone. cbn. rewrite Hf. done.
  - split; vm_compute; reflexivity.
Qed.

Lemma fee_recorded_when_insert_resolves_witness :
  let s := Endpoints.run Sample.production Sample2.payTwiceQuickly
             (Server.init 0 Database.empty) in
  let out := Server.verify_payment Sample.production 900 (Some Sample.goodTx)
               "session_1" s in
  "session_1" ∈ Server.recordedFeeSessions s
  /\ length (Database.entry_fees (Server.db s)) = 2%nat
  /\ Server.db out.1 = Server.db s
  /\ Server.feeInserts out.1 = Server.feeInserts s.
Proof.
  intros s out.
  assert (Hin : "session_1" ∈ Server.recordedFeeSessions s)
    by (vm_compute; reflexivity).
  destruct (fee_recorded_when_insert_resolves Sample.production 0 Database.empty
              Sample2.payTwiceQuickly) as (_ & _ & H & _).
  destruct (H 900 (Some Sample.goodTx) "session_1") as (Hdb & _ & Hsame & _).
  split; [exact Hin|]. split; [vm_compute; reflexivity|].
  split; [exact Hdb | exact (Hsame Hin)].
Defined.









Lemma getPlayerStats_ext (w : string) (d d' : Database.t) :
  Database.player_stats d' = Database.player_stats d ->
  Database.getPlayerStats w d' = Database.getPlayerStats w d.
Proof. unfold Database.getPlayerStats. by intros ->. Qed.



(** ** Sessions and player pages *)

(** X14: one paid game from start to end. After POST /api/join the session
    page shows the session as paid since the time of the join; a score
    submitted with that session id is accepted, answered with the player's
    updated lifetime stats and the session-expired flag; afterwards the
    session page answers 404 and the player page shows the same stats. *)
Theorem join_then_play
    (cfg : Server.Config) (now now' : Z) (uuid w : string) (sc : Z) (s : Server.t) :
  uuid <> "" -> w <> "" ->
  let s1 := (Server.join cfg now uuid s).1 in
  let req := {| Server.r_sessionId := Some uuid;
                Server.r_wallet := Some w;
                Server.r_score := Some sc |} in
  let out := Server.submit_score now' req s1 in
  let stats := (Database.updatePlayerStats now' w sc (Server.db s1)).2 in
  Endpoints.get_session uuid s1
  = {| Endpoints.code := 200;
       Endpoints.reply := Endpoints.SessionInfo uuid true now (Some now) |}
  /\ out.2 = {| Server.status := 200;
                Server.body := Server.ScoreSubmitted stats true |}
  /\ Database.gamesPlayed stats
     = opt_or (Database.getPlayerStats w (Server.db s)) Database.gamesPlayed 0 + 1
  /\ Endpoints.code (Endpoints.get_session uuid out.1) = 404
  /\ Endpoints.get_player w out.1
     = {| Endpoints.code := 200; Endpoints.reply := Endpoints.StatsReply stats |}.
Proof.
  intros Hu Hw. cbv zeta.
  assert (Hs1 : Server.sessions (Server.join cfg now uuid s).1 !! uuid
                = Some {| Server.id := uuid; Server.isPaid := true;
                          Server.createdAt := now; Server.paidAt := Some now;
                          Server.wallet := None |}).
  { cbn. rewrite sessions_recordFeeOnce. cbn. by rewrite lookup_insert_eq. }
  assert (Hdb : Database.player_stats (Server.db (Server.join cfg now uuid s).1)
                = Database.player_stats (Server.db s)).
  { cbn.
    destruct (recordFeeOnce_cases cfg now uuid
                (Server.with_sessions
                   (<[uuid := {| Server.id := uuid; Server.isPaid := true;
                                 Server.createdAt := now;
                                 Server.paidAt := Some now;
                                 Server.wallet := None |}]> (Server.sessions s)) s))
      as [->|[_ ->]]; done. }
  set (s1 := (Server.join cfg now uuid s).1) in *.
  split; [unfold Endpoints.get_session; by rewrite Hs1|].
  unfold Server.submit_score. cbn [Server.r_sessionId Server.r_wallet Server.r_score].
  rewrite (proj2 (truthy_Some uuid) Hu), (proj2 (truthy_Some w) Hw). cbn [negb orb].
  rewrite Hs1. cbn [Server.isPaid].
  pose proof (getPlayerStats_update now' w sc (Server.db s1)) as F3.
  assert (F1 : Database.gamesPlayed
                 (Database.updatePlayerStats now' w sc (Server.db s1)).2
               = opt_or (Database.getPlayerStats w (Server.db s))
                        Database.gamesPlayed 0 + 1).
  { cbn [Database.updatePlayerStats snd Database.gamesPlayed].
    by rewrite (getPlayerStats_ext w _ _ Hdb). }
  assert (F2 : Database.player_stats
                 (Database.updateDailyPlayerStats now' w sc
                    (Database.updatePlayerStats now' w sc (Server.db s1)).1).1
               = Database.player_stats
                   (Database.updatePlayerStats now' w sc (Server.db s1)).1)
    by done.
  destruct (Database.updatePlayerStats now' w sc (Server.db s1)) as [d1 st1].
  cbn [fst snd] in *.
  destruct (Database.updateDailyPlayerStats now' w sc d1) as [d2 dst].
  cbn [fst snd] in *.
  split; [done|]. split; [exact F1|]. split.
  - unfold Endpoints.get_session. cbn. by rewrite lookup_delete_eq.
  - unfold Endpoints.get_player. cbn [Server.db Server.with_sessions Server.with_db].
    by rewrite (getPlayerStats_ext w _ _ F2), F3.
Qed.

Lemma join_then_play_witness :
  let s1 := (Server.join Sample.production 100 "3f2a" Sample.fresh).1 in
  let out := Server.submit_score 200 (Sample.scoreReq "3f2a" "0xA1" 9) s1 in
  Server.status out.2 = 200
  /\ Endpoints.code (Endpoints.get_session "3f2a" s1) = 200
  /\ Endpoints.code (Endpoints.get_session "3f2a" out.1) = 404.
Proof.
  destruct (join_then_play Sample.production 100 200 "3f2a" "0xA1" 9 Sample.fresh)
    as (H1 & H2 & _ & H4 & _); [discriminate | discriminate |].
  split; [|split].
  - unfold Sample.scoreReq. rewrite H2. reflexivity.
  - rewrite H1. reflexivity.
  - exact H4.
Defined.

(** X15: a payout cycle never changes the lifetime page of a player. Right
    after a cycle whose queries succeeded, the daily page of every player
    shows a total score, high score and games played of zero (with the old
    last-played time for a player who has a daily row, zero for one who has
    none); after a cycle that a rejected query aborted, it shows what it
    showed before. *)
Theorem player_pages_after_cycle
    (cfg : Server.Config) (chain : Server.Chain) (now : Z) (s : Server.t)
    (w : string) :
  let s' := Server.runPayoutCycle cfg chain now s in
  Endpoints.get_player w s' = Endpoints.get_player w s
  /\ (is_Some (Server.allocate now (Server.db s)) ->
      Endpoints.get_player_daily w s'
      = {| Endpoints.code := 200;
           Endpoints.reply :=
             Endpoints.DailyReply
               {| Database.d_wallet := w;
                  Database.totalScoreDaily := 0;
                  Database.highScoreDaily := 0;
                  Database.gamesPlayedDaily := 0;
                  Database.lastPlayedDaily :=
                    opt_or (Database.getDailyPlayerStats w (Server.db s))
                           Database.lastPlayedDaily 0 |} |})
  /\ (Server.allocate now (Server.db s) = None ->
      Endpoints.get_player_daily w s' = Endpoints.get_player_daily w s).
Proof.
  cbv zeta. unfold Endpoints.get_player, Endpoints.get_player_daily.
  split; [|split].
  - by destruct (runPayoutCycle_db cfg chain now s) as ([-> | ->] & _).
  - intros [a Ha]. rewrite (runPayoutCycle_Some cfg chain now s a Ha).
    cbn [Server.db]. rewrite getDailyPlayerStats_reset.
    unfold Database.getDailyPlayerStats.
    destruct (Database.daily_player_stats (Server.db s) !! w) as [row|]; cbn; [|done].
    by rewrite js_or_0.
  - intros Ha. unfold Server.runPayoutCycle. by rewrite Ha.
Qed.

Lemma player_pages_after_cycle_witness :
  let s' := Server.runPayoutCycle Sample.production Sample.minedChain 172800000
              Sample.cycleServer in
  is_Some (Server.allocate 172800000 (Server.db Sample.cycleServer))
  /\ Endpoints.get_player_daily "0xA1" s'
     = {| Endpoints.code := 200;
          Endpoints.reply :=
            Endpoints.DailyReply
              {| Database.d_wallet := "0xA1";
                 Database.totalScoreDaily := 0;
                 Database.highScoreDaily := 0;
                 Database.gamesPlayedDaily := 0;
                 Database.lastPlayedDaily := 86400400 |} |}.
Proof.
  assert (Hs : is_Some (Server.allocate 172800000 (Server.db Sample.cycleServer))).
  { destruct (Server.allocate 172800000 (Server.db Sample.cycleServer)) eqn:E;
      [eauto | vm_compute in E; discriminate]. }
  split; [exact Hs|].
  destruct (player_pages_after_cycle Sample.production Sample.minedChain 172800000
              Sample.cycleServer "0xA1") as (_ & H & _).
  cbv zeta. rewrite (H Hs). reflexivity.
Defined.

(** * Further properties of the payout cycle *)

Lemma dailySelected_reset (ty : Database.ScoreType) (d : Database.t) :
  Database.dailySelected ty (Database.resetDailyStats d) = [].
Proof.
  apply elem_of_nil_inv. intros [k r] Hin.
  apply elem_of_dailySelected in Hin as [Hrow Hpos]. cbn in Hrow, Hpos.
  rewrite lookup_fmap in Hrow.
  destruct (Database.daily_player_stats d !! k) as [r0|]; [|done].
  injection Hrow as <-. destruct ty; cbn in Hpos; lia.
Qed.

(** X17: a payout cycle does not use up the fees it distributes. Right
    after a cycle whose queries succeeded the daily leaderboards are empty,
    so a further cycle, at whatever time, gets through its queries and finds
    nobody to pay, although it computes its pools from the same fee journal
    as before. *)
Theorem second_cycle_pays_nobody
    (cfg : Server.Config) (chain : Server.Chain) (now now' : Z) (s : Server.t) :
  is_Some (Server.allocate now (Server.db s)) ->
  let s' := Server.runPayoutCycle cfg chain now s in
  let fees := Database.getTotalEntryFeesSince (now' - Server.DAY_MS) (Server.db s) in
  exists a',
    Server.allocate now' (Server.db s') = Some a'
    /\ Server.totalEntries a' = []
    /\ Server.highEntries a' = []
    /\ Server.wallets a' = []
    /\ Server.poolTotal a' = (fees * (70 # 100))%Q
    /\ Server.poolHigh a' = (fees * (25 # 100))%Q.
Proof.
  intros [a Ha]. cbv zeta. rewrite (runPayoutCycle_Some cfg chain now s a Ha).
  cbn [Server.db].
  assert (forall ty n, Database.getDailyLeaderboard ty n
                         (Database.resetDailyStats (Server.db s)) = []) as Hb.
  { intros ty n. unfold Database.getDailyLeaderboard, Database.dailyRanked.
    rewrite dailySelected_reset. by destruct n. }
  assert (forall ty, Database.sumZ
                       (Database.dailyScores ty (Database.resetDailyStats (Server.db s)))
                     <= Database.INT64_MAX) as Hs.
  { intros ty. unfold Database.dailyScores. rewrite dailySelected_reset.
    vm_compute. discriminate. }
  destruct (allocate_total now' (Database.resetDailyStats (Server.db s))
              (Hs Database.Total) (Hs Database.High)) as (a' & Ha' & _).
  exists a'. split; [exact Ha'|].
  destruct (allocate_inv now' _ a' Ha')
    as (S & _ & _ & HV & HP & _ & Hte & Hhe & Hvm & Hpm & Hw).
  rewrite Hb in Hte, Hhe.
  split; [exact Hte|]. split; [exact Hhe|]. split; [|split; [exact HV | exact HP]].
  rewrite Hw, Hvm, Hpm, Hte, Hhe.
  unfold Server.peakRewards, Server.volumeRewards. cbn [length Z.of_nat].
  rewrite andb_false_r. cbn. by destruct (_ && _).
Qed.

Lemma second_cycle_pays_nobody_witness :
  is_Some (Server.allocate 172800000 (Server.db Sample.cycleServer))
  /\ exists a',
      Server.allocate 172800050
        (Server.db (Server.runPayoutCycle Sample.production Sample.minedChain
                      172800000 Sample.cycleServer)) = Some a'
      /\ Server.wallets a' = []
      /\ (Server.poolTotal a' == 21 # 10)%Q.
Proof.
  assert (Hs : is_Some (Server.allocate 172800000 (Server.db Sample.cycleServer))).
  { destruct (Server.allocate 172800000 (Server.db Sample.cycleServer)) eqn:E;
      [eauto | vm_compute in E; discriminate]. }
  split; [exact Hs|].
  destruct (second_cycle_pays_nobody Sample.production Sample.minedChain
              172800000 172800050 Sample.cycleServer Hs)
    as (a' & Ha' & _ & _ & Hw & HV & _).
  exists a'. split; [exact Ha'|]. split; [exact Hw|].
  rewrite HV. vm_compute. reflexivity.
Defined.

(** X18: a cycle without fees in the last 24 hours, when its queries
    succeed, allocates nothing: no reward line is handed over, the treasury
    line carries an amount of zero, and the daily reset and the clock go
    ahead as in any such cycle. With on-chain payouts configured the
    settlement block runs all the same: unless building the provider, the
    wallet or the contract object throws, [endCycle] is called, with empty
    lists. *)
Theorem zero_fee_cycle
    (cfg : Server.Config) (chain : Server.Chain) (now : Z) (s : Server.t)
    (a : Server.Allocation) :
  Server.allocate now (Server.db s) = Some a ->
  (Database.getTotalEntryFeesSince (now - Server.DAY_MS) (Server.db s) == 0)%Q ->
  let s' := Server.runPayoutCycle cfg chain now s in
  Server.wallets a = []
  /\ (Server.poolTreasury a == 0)%Q
  /\ Server.effects s'
     = Server.effects s
       ++ [Server.AppendPayoutLog (Server.TreasuryLine (Server.poolTreasury a) now)]
       ++ (if Server.onchainConfigured cfg then
             match chain [] [] with
             | Server.SetupThrew msg =>
                 [Server.AppendPayoutLog (Server.EndCycleErrorLine msg now)]
             | Server.Threw msg =>
                 [Server.EndCycleCall [] [];
                  Server.AppendPayoutLog (Server.EndCycleErrorLine msg now)]
             | Server.Mined h st =>
                 [Server.EndCycleCall [] [];
                  Server.AppendPayoutLog
                    (Server.EndCycleLine h (Server.buildExplorerTxLink cfg (Some h))
                       st now)]
             end
           else [])
  /\ Server.db s' = Database.resetDailyStats (Server.db s)
  /\ Server.lastPayoutAt s' = now
  /\ Server.nextPayoutAt s' = now + Server.DAY_MS.
Proof.
  intros Ha Hz. cbv zeta.
  destruct (allocate_inv now _ a Ha)
    as (S & _ & _ & HV & HP & HT & _ & _ & Hvm & Hpm & Hw).
  set (pool := Database.getTotalEntryFeesSince (now - Server.DAY_MS) (Server.db s))
    in *.
  assert (Hws : Server.wallets a = []).
  { rewrite Hw, Hvm, Hpm, HV, HP.
    unfold Server.volumeRewards, Server.peakRewards.
    assert (Qle_bool (pool * (70 # 100)) 0 = true) as ->
      by (apply Qle_bool_iff; rewrite Hz; discriminate).
    assert (Qle_bool (pool * (25 # 100)) 0 = true) as ->
      by (apply Qle_bool_iff; rewrite Hz; discriminate).
    by rewrite andb_false_r. }
  split; [exact Hws|]. split; [rewrite HT, Hz; reflexivity|].
  rewrite (runPayoutCycle_Some cfg chain now s a Ha).
  cbn [Server.effects Server.db Server.lastPayoutAt Server.nextPayoutAt].
  unfold Server.journalLines. rewrite Hws. cbn [fmap list_fmap app].
  split; [|done].
  destruct (Server.onchainConfigured cfg); [|done].
  by destruct (chain [] []).
Qed.

Lemma zero_fee_cycle_witness :
  exists a,
    Server.allocate 500 (Server.db Sample.fresh) = Some a
    /\ (Database.getTotalEntryFeesSince (500 - Server.DAY_MS) (Server.db Sample.fresh)
        == 0)%Q
    /\ let s' := Server.runPayoutCycle Sample.production Sample.revertingChain 500
                   Sample.fresh in
       Server.effects s'
       = [ Server.AppendPayoutLog (Server.TreasuryLine (Server.poolTreasury a) 500);
           Server.EndCycleCall [] [];
           Server.AppendPayoutLog (Server.EndCycleErrorLine "execution reverted" 500) ]
       /\ (Server.poolTreasury a == 0)%Q
       /\ Server.nextPayoutAt s' = 500 + Server.DAY_MS.
Proof.
  destruct (Server.allocate 500 (Server.db Sample.fresh)) as [a|] eqn:Ha;
    [|vm_compute in Ha; discriminate].
  exists a. split; [reflexivity|].
  assert (Hz : (Database.getTotalEntryFeesSince (500 - Server.DAY_MS)
                  (Server.db Sample.fresh) == 0)%Q) by (vm_compute; reflexivity).
  split; [exact Hz|].
  destruct (zero_fee_cycle Sample.production Sample.revertingChain 500 Sample.fresh
              a Ha Hz) as (_ & Ht & H2 & _ & _ & H5).
  cbv zeta. split; [rewrite H2; reflexivity|]. split; [exact Ht | exact H5].
Defined.

(** ** A cycle that a rejected query aborts *)

Lemma sumStep_None (total : Z) (l : list Z) :
  Forall (fun z => 0 < z <= Database.INT64_MAX) l ->
  0 <= total <= Database.INT64_MAX ->
  Database.INT64_MAX < total + Database.sumZ l ->
  Database.sumStep total false l = None.
Proof.
  intros Hall. revert total.
  induction Hall as [|v l Hv Hl IH]; intros total Ht Hs; cbn in *; [lia|].
  unfold Database.storedAsInteger, Database.INT64_MIN.
  rewrite (proj2 (Z.ltb_lt (- 2 ^ 63) v)) by lia.
  rewrite (proj2 (Z.leb_le v _)) by lia. cbn [andb negb orb].
  rewrite (proj2 (Z.ltb_ge (total + v) _)) by lia. cbn [orb].
  destruct (Z.ltb_spec Database.INT64_MAX (total + v)); [done|].
  apply IH; [lia|]. unfold Database.sumZ in *. lia.
Qed.

Lemma sqlSum_None (l : list Z) :
  Forall (fun z => 0 < z) l ->
  Forall (fun z => z <= Database.INT64_MAX) l ->
  Database.INT64_MAX < Database.sumZ l ->
  Database.sqlSum l = None.
Proof.
  intros Hpos Hall Hsum. unfold Database.sqlSum. apply sumStep_None.
  - apply Forall_forall. intros z Hz.
    pose proof (proj1 (Forall_forall _ _) Hpos z Hz).
    pose proof (proj1 (Forall_forall _ _) Hall z Hz). cbn in *. lia.
  - unfold Database.INT64_MAX. lia.
  - lia.
Qed.

(** X30: when the positive daily totals (or the positive daily highs) are
    stored as 64-bit integers and their sum is beyond 2^63 - 1, [SUM] is
    rejected and the cycle changes nothing, whatever the time and whatever
    the chain would answer: no journal line, no settlement, no reset, no new
    clock. Since the rows stay, every later cycle ends the same way. The
    admin endpoint still answers 200, with the old times. *)
Theorem overflowing_sum_aborts_cycle
    (cfg : Server.Config) (chain : Server.Chain) (now : Z) (token : string)
    (ty : Database.ScoreType) (s : Server.t) :
  Forall (fun z => z <= Database.INT64_MAX) (Database.dailyScores ty (Server.db s)) ->
  Database.INT64_MAX < Database.sumZ (Database.dailyScores ty (Server.db s)) ->
  Server.allocate now (Server.db s) = None
  /\ Server.runPayoutCycle cfg chain now s = s
  /\ (Server.requireAdmin cfg token = None ->
      Server.admin_run_payout cfg chain now token s
      = (s, {| Server.status := 200;
               Server.body :=
                 Server.PayoutStatus (Server.lastPayoutAt s) (Server.nextPayoutAt s)
                   (Server.lastTxHash s) (Server.lastTxLink s) |})).
Proof.
  intros Hall Hsum.
  assert (Hq : Database.getDailyScoresSum ty (Server.db s) = None).
  { unfold Database.getDailyScoresSum.
    by rewrite sqlSum_None by (done || apply dailyScores_positive). }
  assert (Ha : Server.allocate now (Server.db s) = None).
  { unfold Server.allocate. destruct ty; rewrite Hq; [done|].
    by destruct (Database.getDailyScoresSum Database.Total (Server.db s)). }
  assert (Hc : Server.runPayoutCycle cfg chain now s = s)
    by (unfold Server.runPayoutCycle; by rewrite Ha).
  split; [exact Ha|]. split; [exact Hc|].
  intros Hadm. unfold Server.admin_run_payout. by rewrite Hadm, Hc.
Qed.

Lemma overflowing_sum_aborts_cycle_witness :
  Forall (fun z => z <= Database.INT64_MAX)
    (Database.dailyScores Database.Total (Server.db Sample.overflowServer))
  /\ Database.INT64_MAX
     < Database.sumZ (Database.dailyScores Database.Total (Server.db Sample.overflowServer))
  /\ Server.runPayoutCycle Sample.production Sample.minedChain 172800000
       Sample.overflowServer = Sample.overflowServer
  /\ Server.status
       (Server.admin_run_payout Sample.production Sample.minedChain 172800000
          "secret" Sample.overflowServer).2 = 200.
Proof.
  assert (H1 : Forall (fun z => z <= Database.INT64_MAX)
                 (Database.dailyScores Database.Total (Server.db Sample.overflowServer))).
  { apply Forall_forall. intros z Hz. vm_compute in Hz.
    repeat (apply elem_of_cons in Hz as [->|Hz]; [vm_compute; discriminate|]).
    by apply elem_of_nil in Hz. }
  assert (H2 : Database.INT64_MAX
               < Database.sumZ
                   (Database.dailyScores Database.Total (Server.db Sample.overflowServer)))
    by (vm_compute; reflexivity).
  destruct (overflowing_sum_aborts_cycle Sample.production Sample.minedChain
              172800000 "secret" Database.Total Sample.overflowServer H1 H2)
    as (_ & Hc & Hadm).
  split; [exact H1|]. split; [exact H2|]. split; [exact Hc|].
  rewrite Hadm; reflexivity.
Defined.

(** ** What is sent to the chain *)

Lemma JsMap_get_Some_elem {V} (k : string) (v : V) (m : list (string * V)) :
  JsMap.get k m = Some v -> (k, v) ∈ m.
Proof.
  induction m as [|[k' v'] m IH]; cbn; [done|].
  destruct (String.eqb_spec k k') as [->|_].
  - intros [= ->]. by left.
  - intros H. right. by apply IH.
Qed.

Lemma getOr0_nonneg (w : string) (m : list (string * Q)) :
  (forall kv, kv ∈ m -> (0 <= kv.2)%Q) -> (0 <= Server.getOr0 w m)%Q.
Proof.
  intros Hm. unfold Server.getOr0.
  destruct (JsMap.get w m) as [x|] eqn:E; [|discriminate].
  apply JsMap_get_Some_elem, Hm in E. cbn in E.
  unfold js_orQ. destruct (Qeq_bool x 0); [discriminate | done].
Qed.

Lemma volume_values_nonneg (now : Z) (d : Database.t) (a : Server.Allocation) kv :
  Server.allocate now d = Some a ->
  kv ∈ Server.rewardTotalMap a -> (0 <= kv.2)%Q.
Proof.
  intros Ha. destruct (allocate_inv now d a Ha) as (S & HS & _ & _ & _ & _ & _ & _ & Hvm & _).
  destruct (decide (0 < S)) as [HSpos|HSpos].
  - destruct (Qlt_le_dec 0 (Server.poolTotal a)) as [HV|HV].
    + rewrite (volume_map now d a S Ha HS HSpos HV).
      intros ([k r] & -> & Hin)%list_elem_of_fmap. cbn.
      apply elem_of_dailyRanked, elem_of_dailySelected in Hin as [_ Hpos].
      cbn in Hpos.
      apply Qmult_le_0_compat; [|by apply Qlt_le_weak].
      apply Qle_shift_div_l; [unfold Qlt; cbn; lia|].
      rewrite Qmult_0_l. unfold Qle. cbn. lia.
    + rewrite Hvm. unfold Server.volumeRewards. apply Qle_bool_iff in HV.
      rewrite HV, andb_false_r. by intros ?%elem_of_nil.
  - rewrite Hvm. unfold Server.volumeRewards.
    rewrite (proj2 (Z.ltb_ge 0 _)) by lia. by intros ?%elem_of_nil.
Qed.

Lemma peak_values_nonneg (P : Q) (l : list Database.LeaderboardEntry) kv :
  NoDup (Database.e_wallet <$> l) ->
  kv ∈ Server.peakRewards P l -> (0 <= kv.2)%Q.
Proof.
  intros Hnd. destruct (Qlt_le_dec 0 P) as [HP|HP].
  - rewrite peakRewards_tiers by done.
    assert (forall c : Q, (0 <= c)%Q -> (0 <= P * c)%Q) as Hc
      by (intros c Hc; apply Qmult_le_0_compat; [by apply Qlt_le_weak | done]).
    destruct l as [|e1 [|e2 [|e3 l]]]; rewrite ?elem_of_cons, ?elem_of_nil;
      intros H; repeat destruct H as [H|H]; try done; subst kv; cbn;
      try (by apply Qlt_le_weak); by apply Hc.
  - unfold Server.peakRewards. apply Qle_bool_iff in HP. rewrite HP.
    by intros ?%elem_of_nil.
Qed.

Lemma reward_nonneg (now : Z) (d : Database.t) (a : Server.Allocation) (w : string) :
  Server.allocate now d = Some a ->
  (0 <= Server.rewardOf a w)%Q.
Proof.
  intros Ha. unfold Server.rewardOf.
  assert (0 <= Server.getOr0 w (Server.rewardTotalMap a))%Q
    as H1 by (apply getOr0_nonneg; intros kv; by apply (volume_values_nonneg now d)).
  assert (0 <= Server.getOr0 w (Server.rewardHighMap a))%Q as H2.
  { apply getOr0_nonneg. intros kv.
    destruct (allocate_inv now d a Ha) as (S & _ & _ & _ & _ & _ & _ & Hhe & _ & Hpm & _).
    rewrite Hpm, Hhe.
    apply peak_values_nonneg. rewrite leaderboard_wallets. apply NoDup_dailyRanked. }
  lra.
Qed.

Lemma math_round_nonneg (x : Q) : (0 <= x)%Q -> 0 <= math_round x.
Proof.
  intros Hx. unfold math_round.
  change 0 with (Qfloor 0). apply Qfloor_resp_le. lra.
Qed.

(** X19: in every cycle whose queries succeed, the winners passed to
    [endCycle] are pairwise distinct and are exactly the wallets with an
    allocation, there is one amount per winner, in the same order, no amount
    is negative, and the amount sent for a winner is the reward of that
    winner's journal line, in millionths, rounded by [Math.round]. *)
Theorem settlement_arguments
    (cfg : Server.Config) (chain : Server.Chain) (now : Z) (s : Server.t)
    (a : Server.Allocation) :
  Server.allocate now (Server.db s) = Some a ->
  Server.onchainConfigured cfg = true ->
  (forall msg, chain (Server.wallets a)
                 ((fun w => Server.toUnits (Server.rewardOf a w)) <$> Server.wallets a)
               <> Server.SetupThrew msg) ->
  let s' := Server.runPayoutCycle cfg chain now s in
  exists winners rewards,
    filter (fun e => Server.is_call e = true) (Server.effects s')
    = filter (fun e => Server.is_call e = true) (Server.effects s)
      ++ [Server.EndCycleCall winners rewards]
    /\ NoDup winners
    /\ (forall w, w ∈ winners
        <-> is_Some (JsMap.get w (Server.rewardTotalMap a))
            \/ is_Some (JsMap.get w (Server.rewardHighMap a)))
    /\ length rewards = length winners
    /\ Forall (fun r => 0 <= r) rewards
    /\ (forall i w r, winners !! i = Some w -> rewards !! i = Some r ->
        exists total high reward,
          Server.journalLines now a !! i
          = Some (Server.RewardLine w total high reward now)
          /\ r = math_round (reward * 1000000)).
Proof.
  intros Ha Hon Hcall. cbv zeta.
  exists (Server.wallets a),
    ((fun w => Server.toUnits (Server.rewardOf a w)) <$> Server.wallets a).
  split.
  { rewrite (runPayoutCycle_Some cfg chain now s a Ha). cbn [Server.effects].
    rewrite Hon, !filter_app, !calls_issued.
    destruct (chain _ _) as [msg| |] eqn:E; [by destruct (Hcall msg)| |];
      rewrite filter_cons_True by done; by rewrite filter_nil, !app_nil_r. }
  split.
  { destruct (allocate_inv now _ a Ha) as (S & _ & _ & _ & _ & _ & _ & _ & _ & _ & ->).
    apply NoDup_set_of. }
  split; [intros w; by apply (wallets_complete now (Server.db s))|].
  split; [by rewrite length_fmap|].
  split.
  - apply Forall_fmap, Forall_forall. intros w _.
    unfold compose, Server.toUnits. apply math_round_nonneg.
    pose proof (reward_nonneg now (Server.db s) a w Ha).
    apply Qmult_le_0_compat; [done | discriminate].
  - intros i w r Hw Hr. rewrite list_lookup_fmap, Hw in Hr. injection Hr as <-.
    eexists _, _, _. split; [|reflexivity].
    unfold Server.journalLines. rewrite lookup_app_l.
    + by rewrite list_lookup_fmap, Hw.
    + rewrite length_fmap. by apply lookup_lt_Some in Hw.
Qed.

Lemma settlement_arguments_witness :
  exists a,
    Server.allocate 172800000 (Server.db Sample.cycleServer) = Some a
    /\ exists winners rewards,
        filter (fun e => Server.is_call e = true)
          (Server.effects
             (Server.runPayoutCycle Sample.production Sample.minedChain 172800000
                Sample.cycleServer))
        = [Server.EndCycleCall winners rewards]
        /\ NoDup winners
        /\ length rewards = length winners
        /\ Forall (fun r => 0 <= r) rewards.
Proof.
  destruct (Server.allocate 172800000 (Server.db Sample.cycleServer)) as [a|] eqn:Ha;
    [|vm_compute in Ha; discriminate].
  exists a. split; [reflexivity|].
  destruct (settlement_arguments Sample.production Sample.minedChain 172800000
              Sample.cycleServer a Ha eq_refl)
    as (winners & rewards & H1 & H2 & _ & H4 & H5 & _).
  - intros msg. discriminate.
  - exists winners, rewards. split; [exact H1|]. split; [exact H2|].
    split; [exact H4 | exact H5].
Defined.

(** * Payout event subscribers *)

Lemma close_absent (id : string) (cs : list Sse.Client) :
  id ∉ cs.*1 -> Sse.close id cs = cs.
Proof.
  induction cs as [|c cs IH]; [done|]. cbn.
  intros [Hne Hcs]%not_elem_of_cons.
  rewrite (proj2 (String.eqb_neq c.1 id)) by congruence. by rewrite IH.
Qed.

(** X21: a subscriber that leaves is taken out of the list and nobody else
    is: closing right after subscribing with a fresh id gives the list back;
    in general closing removes one entry exactly when the id is subscribed,
    keeps the others with what was written to them, in order; and with
    distinct ids the id is gone afterwards. *)
Theorem sse_close_removes_one (id : string) (cs : list Sse.Client) :
  (id ∉ cs.*1 -> Sse.close id (Sse.subscribe id cs) = cs)
  /\ Sse.close id cs `sublist_of` cs
  /\ length (Sse.close id cs)
     = (length cs - (if decide (id ∈ cs.*1) then 1 else 0))%nat
  /\ (NoDup cs.*1 -> id ∉ (Sse.close id cs).*1).
Proof.
  split; [|split; [|split]].
  - intros Hid. unfold Sse.subscribe.
    induction cs as [|c cs IH]; cbn.
    + by rewrite String.eqb_refl.
    + cbn in Hid. apply not_elem_of_cons in Hid as [Hne Hcs].
      rewrite (proj2 (String.eqb_neq c.1 id)) by congruence. by rewrite IH.
  - induction cs as [|c cs IH]; [done|]. cbn.
    destruct (String.eqb c.1 id); [by apply sublist_cons | by apply sublist_skip].
  - induction cs as [|c cs IH]; [done|]. cbn.
    destruct (String.eqb_spec c.1 id) as [Heq|Hne].
    + rewrite decide_True by (apply elem_of_cons; auto). lia.
    + cbn. rewrite IH. destruct (decide (id ∈ cs.*1)) as [Hin|Hin].
      * rewrite decide_True by (apply elem_of_cons; auto).
        destruct cs; [by apply elem_of_nil in Hin | cbn; lia].
      * rewrite decide_False by (rewrite elem_of_cons; intros [?|?]; [congruence | done]). lia.
  - induction cs as [|c cs IH]; [intros _; apply not_elem_of_nil|]. cbn.
    intros [Hc Hnd]%NoDup_cons.
    destruct (String.eqb_spec c.1 id) as [<-|Hne]; [done|].
    cbn. apply not_elem_of_cons. split; [congruence | by apply IH].
Qed.

Lemma sse_close_removes_one_witness :
  Sse.close "c2" (Sse.subscribe "c2" [("c1", ["data: x"])]) = [("c1", ["data: x"])]
  /\ "c1" ∉ (Sse.close "c1" [("c1", ["data: x"]); ("c3", [])]).*1.
Proof.
  destruct (sse_close_removes_one "c2" [("c1", ["data: x"])]) as (H1 & _).
  destruct (sse_close_removes_one "c1" [("c1", ["data: x"]); ("c3", [])])
    as (_ & _ & _ & H4).
  split.
  - apply H1. intros H. apply list_elem_of_singleton in H. discriminate H.
  - apply H4. apply NoDup_cons. split; [|apply NoDup_singleton].
    intros H. apply list_elem_of_singleton in H. discriminate H.
Defined.

(** X22: a broadcast writes the line once to every current subscriber, after
    what was written to it before, and changes neither who is subscribed nor
    the order; a subscriber that joins afterwards starts with nothing
    written to it. *)
Theorem sse_broadcast_reaches_all (line id : string) (cs : list Sse.Client) :
  (Sse.broadcastPayout line cs).*1 = cs.*1
  /\ (forall i (c : Sse.Client), cs !! i = Some c ->
      Sse.broadcastPayout line cs !! i = Some (c.1, c.2 ++ [line]))
  /\ Sse.subscribe id (Sse.broadcastPayout line cs) !! length cs = Some (id, []).
Proof.
  unfold Sse.broadcastPayout, Sse.subscribe. split; [|split].
  - rewrite <- list_fmap_compose. by apply list_fmap_ext.
  - intros i c Hc. by rewrite list_lookup_fmap, Hc.
  - rewrite lookup_app_r by (by rewrite length_fmap).
    by rewrite length_fmap, Nat.sub_diag.
Qed.

Lemma sse_broadcast_reaches_all_witness :
  Sse.broadcastPayout "data: p" [("c1", ["data: x"]); ("c3", [])] !! 0%nat
  = Some ("c1", ["data: x"; "data: p"])
  /\ Sse.broadcastPayout "data: p" [("c1", ["data: x"]); ("c3", [])] !! 1%nat
     = Some ("c3", ["data: p"]).
Proof.
  destruct (sse_broadcast_reaches_all "data: p" "c9" [("c1", ["data: x"]); ("c3", [])])
    as (_ & H & _).
  split.
  - apply (H 0%nat ("c1", ["data: x"])). reflexivity.
  - apply (H 1%nat ("c3", [])). reflexivity.
Defined.

(** * Leaderboard pages and removal requests *)

(** X23: how many entries a leaderboard page shows. The limit is 10 when
    the parameter is missing, not a number, or 0, and the parsed number
    otherwise. When it lies strictly between -2^63 and 2^63 the page
    answers 200 and, with n players of positive score, shows all n entries
    for a negative limit (SQLite's LIMIT with a negative value) and
    min(limit, n) otherwise; the lifetime pages also report the player
    count. Any other limit makes the query fail and the page answer 500. *)
Theorem leaderboard_page_size
    (ty : Database.ScoreType) (parsed : option Z) (s : Server.t) :
  let limit := Endpoints.limitParam parsed in
  let shown (n : nat) : nat := if limit <? 0 then n else Nat.min (Z.to_nat limit) n in
  limit = match parsed with
          | Some p => if p =? 0 then 10 else p
          | None => 10
          end
  /\ (- 2 ^ 63 < limit < 2 ^ 63 ->
      (exists L,
         Endpoints.get_leaderboard ty parsed s
         = {| Endpoints.code := 200;
              Endpoints.reply :=
                Endpoints.BoardReply L
                  (Some (Lifetime.getTotalPlayers (Server.db s))) |}
         /\ length L = shown (length (Lifetime.selected ty (Server.db s))))
      /\ (exists L,
            Endpoints.get_daily_leaderboard ty parsed s
            = {| Endpoints.code := 200;
                 Endpoints.reply := Endpoints.BoardReply L None |}
            /\ length L = shown (length (Database.dailySelected ty (Server.db s)))))
  /\ (limit <= - 2 ^ 63 \/ 2 ^ 63 <= limit ->
      Endpoints.get_leaderboard ty parsed s
      = {| Endpoints.code := 500;
           Endpoints.reply := Endpoints.ErrorReply "Failed to fetch leaderboard" "" |}
      /\ Endpoints.get_daily_leaderboard ty parsed s
         = {| Endpoints.code := 500;
              Endpoints.reply :=
                Endpoints.ErrorReply "Failed to fetch daily leaderboard" "" |}).
Proof.
  cbv zeta. split; [|split].
  - unfold Endpoints.limitParam, js_or. by destruct parsed.
  - intros Hfit.
    assert (Hl : forall n,
              Endpoints.sqlLimit (Endpoints.limitParam parsed) n
              = Some (if Endpoints.limitParam parsed <? 0 then n
                      else Z.to_nat (Endpoints.limitParam parsed))).
    { intros n. unfold Endpoints.sqlLimit.
      rewrite (proj2 (Z.ltb_lt _ _) (proj1 Hfit)), (proj2 (Z.ltb_lt _ _) (proj2 Hfit)).
      done. }
    unfold Endpoints.get_leaderboard, Endpoints.get_daily_leaderboard.
    cbv zeta. rewrite !Hl.
    split; eexists; (split; [reflexivity|]).
    + unfold Lifetime.getLeaderboard, Lifetime.ranked. rewrite board_length.
      destruct (Endpoints.limitParam parsed <? 0); [lia | done].
    + unfold Database.getDailyLeaderboard, Database.dailyRanked.
      rewrite board_length.
      destruct (Endpoints.limitParam parsed <? 0); [lia | done].
  - intros Hout.
    assert (Hl : forall n, Endpoints.sqlLimit (Endpoints.limitParam parsed) n = None).
    { intros n. unfold Endpoints.sqlLimit.
      destruct Hout as [Hlo|Hhi].
      - by rewrite (proj2 (Z.ltb_ge _ _) Hlo).
      - by rewrite (proj2 (Z.ltb_ge _ _) Hhi), andb_false_r. }
    unfold Endpoints.get_leaderboard, Endpoints.get_daily_leaderboard.
    cbv zeta. by rewrite !Hl.
Qed.

Lemma leaderboard_page_size_witness :
  let s := Server.with_db Sample2.boardDb Sample.fresh in
  - 2 ^ 63 < Endpoints.limitParam (Some 1) < 2 ^ 63
  /\ 2 ^ 63 <= Endpoints.limitParam (Some (10 ^ 23))
  /\ (exists L,
        Endpoints.get_leaderboard Database.Total (Some 1) s
        = {| Endpoints.code := 200;
             Endpoints.reply :=
               Endpoints.BoardReply L (Some (Lifetime.getTotalPlayers (Server.db s))) |}
        /\ length L = 1%nat)
  /\ Endpoints.code (Endpoints.get_leaderboard Database.Total (Some (10 ^ 23)) s) = 500.
Proof.
  intros s.
  assert (H1 : - 2 ^ 63 < Endpoints.limitParam (Some 1) < 2 ^ 63)
    by (split; vm_compute; reflexivity).
  assert (H2 : 2 ^ 63 <= Endpoints.limitParam (Some (10 ^ 23)))
    by (vm_compute; discriminate).
  split; [exact H1|]. split; [exact H2|]. split.
  - destruct (leaderboard_page_size Database.Total (Some 1) s) as (_ & H & _).
    destruct (H H1) as [(L & HL & Hlen) _].
    exists L. split; [exact HL|]. rewrite Hlen. vm_compute. reflexivity.
  - destruct (leaderboard_page_size Database.Total (Some (10 ^ 23)) s) as (_ & _ & H).
    destruct (H (or_intror H2)) as [-> _]. reflexivity.
Defined.

(** X24: what the removal endpoints do for the right token. Without a
    non-empty wallet array POST /admin/remove-players answers 400 and
    changes nothing; otherwise it removes the wallets and reports all of
    them, with their number. For POST /admin/remove-top the count is
    max(1, n), where a missing, non-numeric or zero n counts as 4. Below
    2^63 it removes the first count players of the lifetime total-score
    leaderboard and reports as many wallets as there are up to that number;
    from 2^63 on the query fails, nobody is removed and the answer is 500. *)
Theorem admin_removal_requests
    (cfg : Server.Config) (token : string) (wallets : option (list string))
    (parsed : option Z) (s : Server.t) :
  Server.requireAdmin cfg token = None ->
  let n := Endpoints.topCount parsed in
  (default [] wallets = [] ->
   Endpoints.admin_remove_players cfg token wallets s
   = (s, {| Endpoints.code := 400;
            Endpoints.reply := Endpoints.ErrorReply "wallets array required" "" |}))
  /\ (forall ws, wallets = Some ws -> ws <> [] ->
      Endpoints.admin_remove_players cfg token wallets s
      = (Server.with_db (Removal.removePlayers ws (Server.db s)).1 s,
         {| Endpoints.code := 200;
            Endpoints.reply := Endpoints.RemovedReply ws (length ws) |}))
  /\ 1 <= n
  /\ n = match parsed with
         | Some p => if p =? 0 then 4 else Z.max 1 p
         | None => 4
         end
  /\ (n < 2 ^ 63 ->
      exists removed,
        Endpoints.admin_remove_top cfg token parsed s
        = (Server.with_db (Removal.removeTopPlayers (Z.to_nat n) (Server.db s)).1 s,
           {| Endpoints.code := 200;
              Endpoints.reply := Endpoints.RemovedReply removed (length removed) |})
        /\ removed
           = Database.e_wallet
               <$> Lifetime.getLeaderboard Database.Total (Z.to_nat n) (Server.db s)
        /\ length removed
           = Nat.min (Z.to_nat n)
               (length (Lifetime.selected Database.Total (Server.db s))))
  /\ (2 ^ 63 <= n ->
      Endpoints.admin_remove_top cfg token parsed s
      = (s, {| Endpoints.code := 500;
               Endpoints.reply :=
                 Endpoints.ErrorReply "Failed to remove top players" "" |})).
Proof.
  intros Hadm. cbv zeta.
  unfold Endpoints.admin_remove_players, Endpoints.admin_remove_top. rewrite Hadm.
  assert (H1 : 1 <= Endpoints.topCount parsed) by (unfold Endpoints.topCount; lia).
  split; [|split; [|split; [|split; [|split]]]].
  - intros ->. done.
  - intros ws -> Hne. change (default [] (Some ws)) with ws.
    destruct ws as [|w ws]; [done|]. cbn [length Nat.eqb].
    assert ((Removal.removePlayers (w :: ws) (Server.db s)).2 = w :: ws) as H2.
    { unfold Removal.removePlayers. by rewrite removePlayers_fold. }
    destruct (Removal.removePlayers (w :: ws) (Server.db s)) as [d' removed].
    cbn in H2. subst removed. reflexivity.
  - exact H1.
  - unfold Endpoints.topCount, js_or. destruct parsed as [p|]; [|done].
    destruct (Z.eqb_spec p 0); [done | lia].
  - intros Hfit. cbv zeta. unfold Endpoints.sqlLimit.
    rewrite (proj2 (Z.ltb_lt _ _) Hfit).
    rewrite (proj2 (Z.ltb_lt (- 2 ^ 63) _)) by lia.
    rewrite (proj2 (Z.ltb_ge _ 0)) by lia. cbn [andb].
    assert ((Removal.removeTopPlayers (Z.to_nat (Endpoints.topCount parsed))
               (Server.db s)).2
            = Database.e_wallet
                <$> Lifetime.getLeaderboard Database.Total
                      (Z.to_nat (Endpoints.topCount parsed)) (Server.db s)) as H2.
    { unfold Removal.removeTopPlayers, Removal.removePlayers.
      rewrite removePlayers_fold. cbn [snd app].
      unfold Lifetime.getLeaderboard, Lifetime.ranked.
      symmetry. by apply board_wallets. }
    destruct (Removal.removeTopPlayers _ _) as [d' removed]. cbn [fst snd] in *.
    exists removed. split; [done|]. split; [done|].
    rewrite H2, length_fmap. unfold Lifetime.getLeaderboard, Lifetime.ranked.
    apply board_length.
  - intros Hout. cbv zeta. unfold Endpoints.sqlLimit.
    by rewrite (proj2 (Z.ltb_ge _ _) Hout), andb_false_r.
Qed.

Lemma admin_removal_requests_witness :
  let s := Server.with_db Sample2.boardDb Sample.fresh in
  Endpoints.code (Endpoints.admin_remove_players Sample.production "secret" None s).2
  = 400
  /\ Endpoints.topCount (Some 0) = 4
  /\ Endpoints.reply (Endpoints.admin_remove_top Sample.production "secret" (Some 0) s).2
     = Endpoints.RemovedReply ["0xB2"; "0xA1"] 2
  /\ Endpoints.admin_remove_top Sample.production "secret" (Some (10 ^ 23)) s
     = (s, {| Endpoints.code := 500;
              Endpoints.reply :=
                Endpoints.ErrorReply "Failed to remove top players" "" |}).
Proof.
  destruct (admin_removal_requests Sample.production "secret" None (Some 0)
              (Server.with_db Sample2.boardDb Sample.fresh) eq_refl)
    as (H1 & _ & _ & H4 & _).
  destruct (admin_removal_requests Sample.production "secret" None (Some (10 ^ 23))
              (Server.with_db Sample2.boardDb Sample.fresh) eq_refl)
    as (_ & _ & _ & _ & _ & H6).
  split; [rewrite H1; reflexivity|]. split; [exact H4|].
  split; [vm_compute; reflexivity|].
  apply H6. vm_compute. discriminate.
Defined.

(** * The countdown to the next payout *)

Lemma pad_two_digits (n : Z) :
  0 <= n < 100 -> String.length (Client.pad n) = 2%nat.
Proof.
  intros Hn.
  assert (forallb (fun k => (String.length (Client.pad (Z.of_nat k)) =? 2)%nat)
                  (seq 0 100) = true) as Hall by (vm_compute; reflexivity).
  rewrite forallb_forall in Hall.
  specialize (Hall (Z.to_nat n)). rewrite Z2Nat.id in Hall by lia.
  apply Nat.eqb_eq, Hall, in_seq. lia.
Qed.

Lemma length_append (a b : string) :
  String.length (a +:+ b) = (String.length a + String.length b)%nat.
Proof. induction a as [|c a IH]; simpl; [done | by f_equal]. Qed.

(** X25: the countdown splits the remaining whole seconds into hours,
    minutes below 60 and seconds below 60 that add up to them again; up to
    100 hours it is printed with eight characters, and a remaining time of
    zero or less is printed as 00:00:00. *)
Theorem formatCountdown_parts (ms : Z) :
  (ms <= 0 -> Client.formatCountdown ms = "00:00:00")
  /\ (0 < ms ->
      let '(h, m, sec) := Client.countdownParts ms in
      0 <= h /\ 0 <= m < 60 /\ 0 <= sec < 60
      /\ h * 3600 + m * 60 + sec = ms / 1000
      /\ Client.formatCountdown ms
         = Client.pad h +:+ ":" +:+ Client.pad m +:+ ":" +:+ Client.pad sec
      /\ (ms < 360000000 -> String.length (Client.formatCountdown ms) = 8%nat)).
Proof.
  split.
  - intros H. unfold Client.formatCountdown.
    by rewrite (proj2 (Z.leb_le ms 0) H).
  - intros H. unfold Client.formatCountdown, Client.countdownParts.
    rewrite (proj2 (Z.leb_gt ms 0)) by lia.
    set (t := ms / 1000).
    assert (0 <= t) by (apply Z.div_pos; lia).
    assert (0 <= t / 3600) by (apply Z.div_pos; lia).
    pose proof (Z.mod_pos_bound t 3600 ltac:(lia)).
    pose proof (Z.mod_pos_bound t 60 ltac:(lia)).
    pose proof (Z.div_mod t 3600 ltac:(lia)).
    pose proof (Z.div_mod (t mod 3600) 60 ltac:(lia)).
    assert ((t mod 3600) mod 60 = t mod 60) as E.
    { apply Z.mod_mod_divide. exists 60. lia. }
    assert (0 <= (t mod 3600) / 60 < 60).
    { split; [apply Z.div_pos; lia|]. apply Z.div_lt_upper_bound; lia. }
    split; [done|]. split; [done|]. split; [done|]. split; [lia|].
    split; [done|]. intros Hms.
    assert (t / 3600 < 100).
    { apply Z.div_lt_upper_bound; [lia|]. subst t.
      apply Z.div_lt_upper_bound; lia. }
    rewrite !length_append, !pad_two_digits by lia. done.
Qed.

Lemma formatCountdown_parts_witness :
  Client.formatCountdown 86399000 = "23:59:59"
  /\ String.length (Client.formatCountdown 3723000) = 8%nat.
Proof.
  destruct (formatCountdown_parts 3723000) as [_ H].
  specialize (H ltac:(lia)). cbn beta iota zeta delta [Client.countdownParts] in H.
  destruct H as (_ & _ & _ & _ & _ & H).
  split; [vm_compute; reflexivity | apply H; lia].
Defined.

(** * Sessions do not interfere *)

Lemma handle_sessions_other
    (cfg : Server.Config) (now : Z) (r : Server.Request) (s : Server.t)
    (sid : string) :
  names sid r = false ->
  Server.sessions (Server.handle cfg now r s).1 !! sid = Server.sessions s !! sid.
Proof.
  intros Hn.
  destruct r as [uuid|tx sid'|req|token chain|chain]; cbn in *.
  - rewrite sessions_recordFeeOnce. cbn.
    apply String.eqb_neq in Hn. by rewrite lookup_insert_ne.
  - apply String.eqb_neq in Hn.
    pose proof (verify_payment_other cfg now tx sid' sid s Hn) as E.
    by destruct (Server.verify_payment cfg now tx sid' s).
  - unfold Server.submit_score.
    destruct (Server.r_sessionId req) as [x|], (Server.r_wallet req) as [w|],
      (Server.r_score req) as [sc|]; try done.
    destruct (_ || _); [done|].
    destruct (Server.sessions s !! x) as [g|] eqn:Hx; [|done].
    destruct (Server.isPaid g); [|done].
    cbn. apply String.eqb_neq in Hn. by rewrite lookup_delete_ne.
  - unfold Server.admin_run_payout. destruct (Server.requireAdmin cfg token); [done|].
    cbn. by rewrite sessions_runPayoutCycle.
  - by rewrite sessions_runPayoutCycle.
Qed.

(** X26: a request changes no session but the one it names: joins,
    payment verifications and score submissions for other session ids, and
    payout cycles, leave the session under [sid] exactly as it was (present
    or absent, paid or not, with the same timestamps). *)
Theorem session_isolation
    (cfg : Server.Config) (now : Z) (r : Server.Request) (s : Server.t)
    (sid : string) :
  names sid r = false ->
  Server.sessions (Server.handle cfg now r s).1 !! sid = Server.sessions s !! sid
  /\ Endpoints.get_session sid (Server.handle cfg now r s).1
     = Endpoints.get_session sid s.
Proof.
  intros Hn. pose proof (handle_sessions_other cfg now r s sid Hn) as H.
  split; [exact H|]. unfold Endpoints.get_session. by rewrite H.
Qed.

Lemma session_isolation_witness :
  let s := (Server.join Sample.production 100 "3f2a" Sample.fresh).1 in
  Endpoints.get_session "3f2a"
    (Server.handle Sample.production 200
       (Server.SubmitScore (Sample.scoreReq "77c1" "0xA1" 9)) s).1
  = {| Endpoints.code := 200;
       Endpoints.reply := Endpoints.SessionInfo "3f2a" true 100 (Some 100) |}.
Proof.
  destruct (session_isolation Sample.production 200
              (Server.SubmitScore (Sample.scoreReq "77c1" "0xA1" 9))
              (Server.join Sample.production 100 "3f2a" Sample.fresh).1 "3f2a")
    as [_ H]; [reflexivity|].
  cbv zeta. rewrite H. reflexivity.
Defined.

Lemma handle_keeps_paid
    (cfg : Server.Config) (now : Z) (r : Server.Request) (s : Server.t)
    (sid : string) :
  submits sid r = false ->
  (exists g, Server.sessions s !! sid = Some g /\ Server.isPaid g = true) ->
  exists g, Server.sessions (Server.handle cfg now r s).1 !! sid = Some g
            /\ Server.isPaid g = true.
Proof.
  intros Hsub (g & Hg & Hpaid).
  destruct (names sid r) eqn:Hn.
  2:{ exists g. by rewrite handle_sessions_other. }
  destruct r as [uuid|tx sid'|req|token chain|chain]; cbn in Hn, Hsub; try done.
  - apply String.eqb_eq in Hn as ->. cbn. rewrite sessions_recordFeeOnce. cbn.
    rewrite lookup_insert_eq. eauto.
  - apply String.eqb_eq in Hn as ->. cbn [Server.handle].
    destruct (Server.verify_payment cfg now tx sid s) as [s1 a] eqn:E. cbn.
    assert (s1 = (Server.verify_payment cfg now tx sid s).1) as -> by (by rewrite E).
    clear E. unfold Server.verify_payment.
    destruct tx as [h|]; [|eauto]. destruct (negb _); [eauto|].
    unfold Server.getOrCreate. rewrite Hg.
    destruct (Server.SANDBOX_MODE cfg); cbn [fst].
    + rewrite sessions_recordFeeOnce. cbn. rewrite lookup_insert_eq. eauto.
    + destruct (10 <? _); cbn [fst].
      * rewrite sessions_recordFeeOnce. cbn. rewrite lookup_insert_eq. eauto.
      * cbn. rewrite lookup_insert_eq. eauto.
  - destruct (Server.r_sessionId req); congruence.
Qed.

(** X27: a payment is not lost. Once the session under an id is paid, it
    stays in the table and stays paid through joins, further payment
    verifications (accepted or refused), score submissions for other
    sessions and payout cycles, until a score is submitted for that id. *)
Theorem paid_until_consumed
    (cfg : Server.Config) (tr : list (Z * Server.Request)) (s : Server.t)
    (sid : string) (g : Server.GameSession) :
  Server.sessions s !! sid = Some g ->
  Server.isPaid g = true ->
  Forall (fun nr => submits sid nr.2 = false) tr ->
  exists g',
    Server.sessions (Server.run cfg tr s).1 !! sid = Some g'
    /\ Server.isPaid g' = true.
Proof.
  intros Hg Hpaid Htr.
  assert (exists g0, Server.sessions s !! sid = Some g0 /\ Server.isPaid g0 = true)
    as Hs by eauto.
  clear Hg Hpaid g. revert s Hs.
  induction tr as [|[now r] tr IH]; intros s Hs; [done|].
  apply Forall_cons in Htr as [Hr Htr]. cbn [Server.run].
  pose proof (handle_keeps_paid cfg now r s sid Hr Hs) as H1.
  destruct (Server.handle cfg now r s) as [s1 a]. cbn [fst] in H1.
  specialize (IH Htr s1 H1). by destruct (Server.run cfg tr s1).
Qed.

Lemma paid_until_consumed_witness :
  let s := (Server.join Sample.production 100 "3f2a" Sample.fresh).1 in
  exists g',
    Server.sessions
      (Server.run Sample.production
         [(150, Server.VerifyPayment (Some Sample.shortTx) "3f2a");
          (200, Server.SubmitScore (Sample.scoreReq "77c1" "0xA1" 9));
          (300, Server.TimerTick Sample.revertingChain)] s).1 !! "3f2a" = Some g'
    /\ Server.isPaid g' = true.
Proof.
  apply (paid_until_consumed Sample.production
           [(150, Server.VerifyPayment (Some Sample.shortTx) "3f2a");
            (200, Server.SubmitScore (Sample.scoreReq "77c1" "0xA1" 9));
            (300, Server.TimerTick Sample.revertingChain)]
           (Server.join Sample.production 100 "3f2a" Sample.fresh).1 "3f2a"
           {| Server.id := "3f2a"; Server.isPaid := true; Server.createdAt := 100;
              Server.paidAt := Some 100; Server.wallet := None |}).
  - reflexivity.
  - reflexivity.
  - repeat constructor.
Defined.

(** X28: when a score submission succeeds. It is answered 200 exactly when
    it names a session, a wallet (both non-empty) and a numeric score and
    that session is in the table and paid; in every other case it is
    answered 400 or 403 and the state is left exactly as it was. *)
Theorem submit_score_accepts_iff
    (now : Z) (req : Server.ScoreRequest) (s : Server.t) :
  let out := Server.submit_score now req s in
  (Server.status out.2 = 200
   <-> Server.wellFormed req
       /\ exists sid g, Server.r_sessionId req = Some sid
                        /\ Server.sessions s !! sid = Some g
                        /\ Server.isPaid g = true)
  /\ (Server.status out.2 <> 200 ->
      out.1 = s /\ (Server.status out.2 = 400 \/ Server.status out.2 = 403)).
Proof.
  cbv zeta. unfold Server.submit_score, Server.wellFormed.
  destruct (Server.r_sessionId req) as [x|] eqn:Hx.
  2:{ cbn. split; [split; [done | by intros [[? _] _]] | auto]. }
  destruct (Server.r_wallet req) as [w|] eqn:Hw.
  2:{ cbn. split; [split; [done | by intros [(_ & ? & _) _]] | auto]. }
  destruct (Server.r_score req) as [sc|] eqn:Hsc.
  2:{ cbn. split; [split; [done | by intros [(_ & _ & [? ?]) _]] | auto]. }
  destruct (truthy (Some x)) eqn:Tx; cbn [negb orb].
  2:{ cbn. split; [split; [done | by intros [[? _] _]] | auto]. }
  destruct (truthy (Some w)) eqn:Tw; cbn [negb orb].
  2:{ cbn. split; [split; [done | by intros [(_ & ? & _) _]] | auto]. }
  destruct (Server.sessions s !! x) as [g|] eqn:Hg.
  2:{ cbn. split; [|auto]. split; [done|].
      intros [_ (sid & g & [= <-] & Hs & _)]. congruence. }
  destruct (Server.isPaid g) eqn:Hp.
  - destruct (Database.updatePlayerStats now w sc (Server.db s)) as [d1 st1].
    destruct (Database.updateDailyPlayerStats now w sc d1) as [d2 dst]. cbn.
    split; [|done]. split; [|done]. intros _.
    split; [by eauto|]. exists x, g. done.
  - cbn. split; [|auto]. split; [done|].
    intros [_ (sid & g' & [= <-] & Hs & Hp')]. congruence.
Qed.

Lemma submit_score_accepts_iff_witness :
  Server.status
    (Server.submit_score 200 (Sample.scoreReq "3f2a" "" 9)
       (Server.join Sample.production 100 "3f2a" Sample.fresh).1).2 = 400
  /\ (Server.submit_score 200 (Sample.scoreReq "3f2a" "" 9)
        (Server.join Sample.production 100 "3f2a" Sample.fresh).1).1
     = (Server.join Sample.production 100 "3f2a" Sample.fresh).1.
Proof.
  destruct (submit_score_accepts_iff 200 (Sample.scoreReq "3f2a" "" 9)
              (Server.join Sample.production 100 "3f2a" Sample.fresh).1)
    as [_ H].
  assert (Server.status
            (Server.submit_score 200 (Sample.scoreReq "3f2a" "" 9)
               (Server.join Sample.production 100 "3f2a" Sample.fresh).1).2 = 400)
    as E by reflexivity.
  split; [exact E|]. apply H. rewrite E. discriminate.
Defined.

(** * Score submissions that overlap *)




